(** * Saralta client: a shallow embedding of the browser front end

    The development follows the three scripts of the front end:
    [api.js] (the HTTP client), [auth.js] (login and registration) and
    [dashboard.js] (roles, task table, approval flows).  Browser state is
    made explicit in a [World] record that every function threads through
    a small state-and-exception monad. *)

From Stdlib Require Import ZArith Ascii String List Bool Lia.
From stdpp Require Import base option list strings gmap pretty.

Open Scope string_scope.

(** ** JavaScript values and string primitives *)
Module Js.

(** [String.prototype.toLowerCase], on the ASCII range: the letters [A]-[Z]
    move to [a]-[z], every other byte is kept. *)
Definition lower_ascii (c : ascii) : ascii :=
  let n := nat_of_ascii c in
  if (65 <=? n)%nat && (n <=? 90)%nat then ascii_of_nat (n + 32) else c.

Fixpoint toLowerCase (s : string) : string :=
  match s with
  | EmptyString => EmptyString
  | String c r => String (lower_ascii c) (toLowerCase r)
  end.

(** White space as [trim] and [parseInt] see it (tab, line feed, vertical
    tab, form feed, carriage return, space). *)
Definition is_ws (c : ascii) : bool :=
  let n := nat_of_ascii c in
  ((9 <=? n)%nat && (n <=? 13)%nat) || (n =? 32)%nat.

Fixpoint trimStart (s : string) : string :=
  match s with
  | EmptyString => EmptyString
  | String c r => if is_ws c then trimStart r else s
  end.

Fixpoint rev_string (s acc : string) : string :=
  match s with
  | EmptyString => acc
  | String c r => rev_string r (String c acc)
  end.

Definition trim (s : string) : string :=
  rev_string (trimStart (rev_string (trimStart s) "")) "".

(** [s.indexOf(sub) !== -1], also [s.includes(sub)]. *)
Definition includes (sub s : string) : bool :=
  match String.index 0 sub s with
  | Some _ => true
  | None => false
  end.

(** [a || d] where [a] is a string or [null]: the empty string is falsy. *)
Definition or_str (a : option string) (d : string) : string :=
  match a with
  | Some s => if String.eqb s "" then d else s
  | None => d
  end.

(** [!!a] for a string or [null]. *)
Definition truthy_str (a : option string) : bool :=
  match a with
  | Some s => negb (String.eqb s "")
  | None => false
  end.

Definition is_digit (c : ascii) : bool :=
  let n := nat_of_ascii c in (48 <=? n)%nat && (n <=? 57)%nat.

Definition digit_val (c : ascii) : Z := Z.of_nat (nat_of_ascii c) - 48.

(** The longest run of decimal digits at the head of [s], read as a number;
    [acc] is the value read so far, [None] while no digit was seen. *)
Fixpoint digits_prefix (s : string) (acc : option Z) : option Z :=
  match s with
  | EmptyString => acc
  | String c r =>
      if is_digit c
      then digits_prefix r (Some (10 * default 0%Z acc + digit_val c)%Z)
      else acc
  end.

(** [parseInt(s, 10)]: leading white space is skipped, one sign is read,
    then the digits up to the first other character; [None] is [NaN]. *)
Definition parseInt (s : string) : option Z :=
  match trimStart s with
  | String "-" r => Z.opp <$> digits_prefix r None
  | String "+" r => digits_prefix r None
  | t => digits_prefix t None
  end.

(** [s.split(sep)] for a separator of one character. *)
Fixpoint split (sep : ascii) (s : string) : list string :=
  match s with
  | EmptyString => [""]
  | String c r =>
      if Ascii.eqb c sep then "" :: split sep r
      else match split sep r with
           | h :: t => String c h :: t
           | [] => [String c ""]
           end
  end.

(** [/^\d{4}-\d{2}-\d{2}$/.test(s)]. *)
Definition is_ymd (s : string) : bool :=
  match list_ascii_of_string s with
  | [y1; y2; y3; y4; d1; m1; m2; d2; a1; a2] =>
      is_digit y1 && is_digit y2 && is_digit y3 && is_digit y4
      && Ascii.eqb d1 "-" && is_digit m1 && is_digit m2
      && Ascii.eqb d2 "-" && is_digit a1 && is_digit a2
  | _ => false
  end.

(** JSON values as [response.json()] yields them.  Numbers are kept as
    integers: the client only tests them for truthiness and prints ids. *)
#[warnings="-register-all"]
Inductive json : Type :=
| JNull
| JBool (b : bool)
| JNum (z : Z)
| JStr (s : string)
| JArr (l : list json)
| JObj (fields : list (string * json)).

(** A JavaScript value read from a property: [None] is [undefined]. *)
Definition jsval := option json.

Definition truthy (v : json) : bool :=
  match v with
  | JNull => false
  | JBool b => b
  | JNum z => negb (z =? 0)%Z
  | JStr s => negb (String.eqb s "")
  | JArr _ | JObj _ => true
  end.

Definition truthy_val (v : jsval) : bool :=
  match v with
  | Some j => truthy j
  | None => false
  end.

(** Last binding wins, as in an object literal parsed from JSON. *)
Fixpoint assoc (k : string) (fields : list (string * json)) : jsval :=
  match fields with
  | [] => None
  | (k', v) :: rest =>
      match assoc k rest with
      | Some w => Some w
      | None => if String.eqb k k' then Some v else None
      end
  end.

(** [v.k]: [None] is the [TypeError] of reading a property of [null];
    primitives and arrays have no such own property. *)
Definition prop (v : json) (k : string) : option jsval :=
  match v with
  | JNull => None
  | JObj fields => Some (assoc k fields)
  | _ => Some None
  end.

Fixpoint join (sep : string) (l : list string) : string :=
  match l with
  | [] => ""
  | [x] => x
  | x :: rest => x ++ sep ++ join sep rest
  end.

(** [String(v)], the message of [new Error(v)]. *)
Fixpoint ToString (v : json) : string :=
  match v with
  | JNull => "null"
  | JBool true => "true"
  | JBool false => "false"
  | JNum z => pretty z
  | JStr s => s
  | JArr l =>
      join "," (map (fun e => match e with JNull => "" | _ => ToString e end) l)
  | JObj _ => "[object Object]"
  end.

Definition dquote : string := String (ascii_of_nat 34) EmptyString.

Definition bslash : string := String (ascii_of_nat 92) EmptyString.

(** [String(v)] where [v] may be [undefined]. *)
Definition ToString_val (v : jsval) : string :=
  match v with
  | Some j => ToString j
  | None => "undefined"
  end.

Definition hex_digit (n : nat) : ascii :=
  if (n <? 10)%nat then ascii_of_nat (48 + n) else ascii_of_nat (87 + n).

(** Escapes of [JSON.stringify] inside a string literal. *)
Definition quote_char (c : ascii) : string :=
  let n := nat_of_ascii c in
  if (n =? 34)%nat then bslash ++ dquote
  else if (n =? 92)%nat then bslash ++ bslash
  else if (n =? 8)%nat then bslash ++ "b"
  else if (n =? 9)%nat then bslash ++ "t"
  else if (n =? 10)%nat then bslash ++ "n"
  else if (n =? 12)%nat then bslash ++ "f"
  else if (n =? 13)%nat then bslash ++ "r"
  else if (n <? 32)%nat then
    bslash ++ "u00" ++ String (hex_digit (n / 16)) (String (hex_digit (n mod 16)) "")
  else String c "".

Fixpoint quote_body (s : string) : string :=
  match s with
  | EmptyString => ""
  | String c r => quote_char c ++ quote_body r
  end.

Definition quote (s : string) : string := dquote ++ quote_body s ++ dquote.

(** [JSON.stringify] on the values above. *)
Fixpoint JSON_stringify (v : json) : string :=
  match v with
  | JNull => "null"
  | JBool true => "true"
  | JBool false => "false"
  | JNum z => pretty z
  | JStr s => quote s
  | JArr l => "[" ++ join "," (map JSON_stringify l) ++ "]"
  | JObj fields =>
      "{" ++ join "," (map (fun kv => quote (fst kv) ++ ":" ++ JSON_stringify (snd kv)) fields) ++ "}"
  end.

(** *** Encodings *)

(** Upper-case hexadecimal digit. *)
Definition HEX (n : nat) : ascii :=
  if (n <? 10)%nat then ascii_of_nat (48 + n) else ascii_of_nat (55 + n).

(** The characters [encodeURIComponent] keeps: letters, digits and
    [- _ . ! ~ * ' ( )]. *)
Definition uri_unreserved (c : ascii) : bool :=
  let n := nat_of_ascii c in
  ((65 <=? n)%nat && (n <=? 90)%nat) || ((97 <=? n)%nat && (n <=? 122)%nat)
  || is_digit c
  || existsb (Ascii.eqb c) ["-"; "_"; "."; "!"; "~"; "*"; "'"; "("; ")"]%char.

(** [encodeURIComponent(s)] on a string held as its UTF-8 bytes: every
    other byte becomes [%] and two hexadecimal digits. *)
Fixpoint encodeURIComponent (s : string) : string :=
  match s with
  | EmptyString => EmptyString
  | String c r =>
      if uri_unreserved c then String c (encodeURIComponent r)
      else
        let n := nat_of_ascii c in
        String "%" (String (HEX (n / 16)) (String (HEX (n mod 16)) (encodeURIComponent r)))
  end.

(** The markup of a text node, [div.innerHTML] after [div.textContent = s]:
    [&], [<], [>] and the no-break space (the bytes 194, 160) become
    character references; quotes are kept. *)
Fixpoint text_to_html (s : string) : string :=
  match s with
  | EmptyString => EmptyString
  | String c r =>
      if Ascii.eqb c "&" then "&amp;" ++ text_to_html r
      else if Ascii.eqb c "<" then "&lt;" ++ text_to_html r
      else if Ascii.eqb c ">" then "&gt;" ++ text_to_html r
      else if (nat_of_ascii c =? 194)%nat then
        match r with
        | String c2 r2 =>
            if (nat_of_ascii c2 =? 160)%nat then "&nbsp;" ++ text_to_html r2
            else String c (text_to_html r)
        | EmptyString => String c EmptyString
        end
      else String c (text_to_html r)
  end.

End Js.

(** ** The browser: storage, location, page elements, network *)
Module Browser.
Import Js.

(** The properties of a page element that the scripts read or assign. *)
Record Element := mkElement {
  display : string;        (* style.display *)
  hidden : bool;
  disabled : bool;
  value : string;
  textContent : string;
  className : string;
  files : list string      (* names of the files chosen in a file input *)
}.

Definition blank_element : Element :=
  mkElement "" false false "" "" "" [].

Inductive Body :=
| BodyText (text : string)     (* JSON.stringify(data) *)
| BodyForm (file : string).    (* FormData with one "file" entry *)

Record Request := mkRequest {
  url : string;
  method : string;
  headers : gmap string string;
  body : option Body
}.

(** What [fetch] resolves to.  [payload] is the outcome of
    [response.json()]: [None] when the body is not JSON text and the call
    rejects. *)
Record Response := mkResponse {
  status : Z;
  statusText : string;
  contentType : option string;     (* response.headers.get("content-type") *)
  payload : option json
}.

Definition ok (r : Response) : bool :=
  (200 <=? status r)%Z && (status r <=? 299)%Z.

Inductive FetchResult :=
| Rejected                 (* no response: the network failed *)
| Resolved (r : Response).

Inductive ExnKind := ErrorK | TypeErrorK | SyntaxErrorK.

(** A thrown value: its constructor and its [message]. *)
Record Exn := mkExn { kind : ExnKind; message : string }.

Definition Error (msg : string) : Exn := mkExn ErrorK msg.
(** Host errors; their texts stand for the browser's own wording. *)
Definition null_property : Exn := mkExn TypeErrorK "Cannot read properties of null".
Definition fetch_failed : Exn := mkExn TypeErrorK "Failed to fetch".
Definition bad_json : Exn := mkExn SyntaxErrorK "Unexpected token".

Record World := mkWorld {
  localStorage : gmap string string;
  hostname : string;                      (* window.location.hostname *)
  protocol : string;                      (* window.location.protocol *)
  pathname : string;                      (* window.location.pathname *)
  href : option string;                   (* last value assigned to window.location.href *)
  effectiveDisplayRole : option string;   (* dashboard.js global, null at load *)
  chatPanelOpen : bool;                   (* dashboard.js global *)
  dom : gmap string Element;              (* elements by id *)
  network : list FetchResult;             (* what the coming fetches resolve to *)
  sent : list Request;                    (* fetch calls made, oldest first *)
  calls : list string                     (* reloads started from callbacks, oldest first *)
}.

Definition set_localStorage (f : gmap string string -> gmap string string) (w : World) : World :=
  mkWorld (f (localStorage w)) (hostname w) (protocol w) (pathname w) (href w)
    (effectiveDisplayRole w) (chatPanelOpen w) (dom w) (network w) (sent w) (calls w).

(** A page load: the new path, page elements and script globals. *)
Definition open_page (path : string) (page : gmap string Element) (w : World) : World :=
  mkWorld (localStorage w) (hostname w) (protocol w) path None
    None false page (network w) (sent w) (calls w).

Definition set_href (h : option string) (w : World) : World :=
  mkWorld (localStorage w) (hostname w) (protocol w) (pathname w) h
    (effectiveDisplayRole w) (chatPanelOpen w) (dom w) (network w) (sent w) (calls w).

Definition set_effectiveDisplayRole (r : option string) (w : World) : World :=
  mkWorld (localStorage w) (hostname w) (protocol w) (pathname w) (href w)
    r (chatPanelOpen w) (dom w) (network w) (sent w) (calls w).

Definition set_dom (f : gmap string Element -> gmap string Element) (w : World) : World :=
  mkWorld (localStorage w) (hostname w) (protocol w) (pathname w) (href w)
    (effectiveDisplayRole w) (chatPanelOpen w) (f (dom w)) (network w) (sent w) (calls w).

Definition set_network (n : list FetchResult) (w : World) : World :=
  mkWorld (localStorage w) (hostname w) (protocol w) (pathname w) (href w)
    (effectiveDisplayRole w) (chatPanelOpen w) (dom w) n (sent w) (calls w).

Definition set_sent (f : list Request -> list Request) (w : World) : World :=
  mkWorld (localStorage w) (hostname w) (protocol w) (pathname w) (href w)
    (effectiveDisplayRole w) (chatPanelOpen w) (dom w) (network w) (f (sent w)) (calls w).

Definition set_calls (f : list string -> list string) (w : World) : World :=
  mkWorld (localStorage w) (hostname w) (protocol w) (pathname w) (href w)
    (effectiveDisplayRole w) (chatPanelOpen w) (dom w) (network w) (sent w) (f (calls w)).

(** *** Computations: state threaded through, exceptions kept apart *)

Inductive Result (A : Type) :=
| Returned (a : A)
| Thrown (e : Exn).
Arguments Returned {A} a.
Arguments Thrown {A} e.

Definition M (A : Type) : Type := World -> Result A * World.

Definition ret {A} (a : A) : M A := fun w => (Returned a, w).

Definition bind {A B} (c : M A) (k : A -> M B) : M B :=
  fun w =>
    match c w with
    | (Returned a, w') => k a w'
    | (Thrown e, w') => (Thrown e, w')
    end.

Definition throw {A} (e : Exn) : M A := fun w => (Thrown e, w).

(** [try { c } catch (e) { h(e) }], and [promise.catch(h)]. *)
Definition catch {A} (c : M A) (h : Exn -> M A) : M A :=
  fun w =>
    match c w with
    | (Returned a, w') => (Returned a, w')
    | (Thrown e, w') => h e w'
    end.

(** [promise.finally(f)]. *)
Definition finally {A} (c : M A) (f : M unit) : M A :=
  fun w =>
    match c w with
    | (r, w') =>
        match f w' with
        | (Returned _, w'') => (r, w'')
        | (Thrown e, w'') => (Thrown e, w'')
        end
    end.

Definition gets {A} (f : World -> A) : M A := fun w => (Returned (f w), w).
Definition modify (f : World -> World) : M unit := fun w => (Returned tt, f w).

Declare Scope js_scope.
Delimit Scope js_scope with js.
Notation "x <- c ;; k" := (bind c (fun x => k))
  (at level 100, c at next level, right associativity) : js_scope.
Notation "c ;; k" := (bind c (fun _ => k))
  (at level 100, right associativity) : js_scope.
Open Scope js_scope.

Definition when (b : bool) (c : M unit) : M unit := if b then c else ret tt.

(** *** Host operations *)

Definition getItem (k : string) : M (option string) :=
  gets (fun w => localStorage w !! k).
Definition setItem (k v : string) : M unit :=
  modify (set_localStorage (insert k v)).
Definition removeItem (k : string) : M unit :=
  modify (set_localStorage (delete k)).

(** [window.location.href = u]: the script goes on after the assignment. *)
Definition navigate (u : string) : M unit := modify (set_href (Some u)).

Definition getElementById (id : string) : M (option Element) :=
  gets (fun w => dom w !! id).
(** An assignment to a property of the element [id]. *)
Definition update (id : string) (f : Element -> Element) : M unit :=
  modify (set_dom (alter f id)).

Definition with_display (d : string) (e : Element) : Element :=
  mkElement d (hidden e) (disabled e) (value e) (textContent e) (className e) (files e).
Definition with_hidden (b : bool) (e : Element) : Element :=
  mkElement (display e) b (disabled e) (value e) (textContent e) (className e) (files e).
Definition with_disabled (b : bool) (e : Element) : Element :=
  mkElement (display e) (hidden e) b (value e) (textContent e) (className e) (files e).
Definition with_value (v : string) (e : Element) : Element :=
  mkElement (display e) (hidden e) (disabled e) v (textContent e) (className e) (files e).
Definition with_textContent (t : string) (e : Element) : Element :=
  mkElement (display e) (hidden e) (disabled e) (value e) t (className e) (files e).
Definition with_className (c : string) (e : Element) : Element :=
  mkElement (display e) (hidden e) (disabled e) (value e) (textContent e) c (files e).
Definition with_files (l : list string) (e : Element) : Element :=
  mkElement (display e) (hidden e) (disabled e) (value e) (textContent e) (className e) l.

(** [document.getElementById(id)] used without a null test: reading a
    property of a missing element throws. *)
Definition element (id : string) : M Element :=
  fun w =>
    match dom w !! id with
    | Some e => (Returned e, w)
    | None => (Thrown null_property, w)
    end.

(** [fetch(url, options)]: the call is recorded and takes the next answer
    of the network; with none left the request fails. *)
Definition fetch (req : Request) : M Response :=
  fun w =>
    let w1 := set_sent (fun l => (l ++ [req])%list) w in
    match network w with
    | Resolved r :: rest => (Returned r, set_network rest w1)
    | Rejected :: rest => (Thrown fetch_failed, set_network rest w1)
    | [] => (Thrown fetch_failed, w1)
    end.

(** A request whose answer is still to come: the call is recorded only. *)
Definition send (req : Request) : M unit :=
  modify (set_sent (fun l => (l ++ [req])%list)).

(** The promise of a [fetch] that has settled with [r]. *)
Definition settled (r : FetchResult) : M Response :=
  match r with
  | Resolved response => ret response
  | Rejected => throw fetch_failed
  end.

(** A function of the page that a callback starts and does not wait for. *)
Definition call (name : string) : M unit :=
  modify (set_calls (fun l => (l ++ [name])%list)).

(** [v.k] on a JSON value. *)
Definition get_prop (v : json) (k : string) : M jsval :=
  match prop v k with
  | Some x => ret x
  | None => throw null_property
  end.

(** [v.toLowerCase()] on a truthy value: only strings have the method. *)
Definition lowered (v : json) : M string :=
  match v with
  | JStr s => ret (toLowerCase s)
  | _ => throw (mkExn TypeErrorK "toLowerCase is not a function")
  end.

(** [(role || "member").toLowerCase()] on a property read from JSON. *)
Definition role_or_member (role : jsval) : M string :=
  match role with
  | Some r => if truthy r then lowered r else ret (toLowerCase "member")
  | None => ret (toLowerCase "member")
  end.

End Browser.

(** ** api.js *)
Module Api.
Import Js Browser.

Definition BASE_URL : M string :=
  gets (fun w =>
    if String.eqb (hostname w) "localhost" || String.eqb (hostname w) "127.0.0.1"
    then "http://127.0.0.1:8000"
    else protocol w ++ "//" ++ hostname w ++ ":8000").

Definition getSessionToken : M (option string) := getItem "session_token".

Definition getUserId : M (option string) := getItem "user_id".

Definition isLoggedIn : M bool :=
  token <- getSessionToken ;; ret (truthy_str token).

(** [apiRequest] up to [await fetch(url, options)]: the request it
    builds.  [data] is [None] for [null] (the default). *)
Definition apiRequest_options (endpoint method : string) (data : option json) (useAuth : bool)
  : M Request :=
  let headers0 : gmap string string := {[ "Content-Type" := "application/json" ]} in
  headers1 <-
    (if useAuth then
       token <- getSessionToken ;;
       ret (if truthy_str token
            then <[ "X-Session-Token" := or_str token "" ]> headers0
            else headers0)
     else ret headers0) ;;
  let body1 :=
    match data with
    | Some d =>
        if truthy d && (String.eqb method "POST" || String.eqb method "PUT")
        then Some (BodyText (JSON_stringify d))
        else None
    | None => None
    end in
  base <- BASE_URL ;;
  ret (mkRequest (base ++ endpoint) method headers1 body1).

(** [apiRequest] from the response on. *)
Definition apiRequest_settle (response : Response) : M json :=
  result <-
    (match contentType response with
     | Some ct =>
         if negb (String.eqb ct "") && includes "application/json" ct then
           match payload response with
           | Some j => ret j
           | None => throw bad_json
           end
         else ret (JObj [("detail", JStr (or_str (Some (statusText response)) "Request failed"))])
     | None => ret (JObj [("detail", JStr (or_str (Some (statusText response)) "Request failed"))])
     end) ;;
  if (status response =? 401)%Z then
    removeItem "session_token" ;;
    removeItem "user_id" ;;
    removeItem "username" ;;
    removeItem "role" ;;
    path <- gets pathname ;;
    when (includes "dashboard" path) (navigate "index.html") ;;
    detail <- get_prop result "detail" ;;
    throw (Error (if truthy_val detail then ToString_val detail else "Session expired"))
  else if negb (ok response) then
    detail <- get_prop result "detail" ;;
    let msg :=
      if truthy_val detail then ToString_val detail
      else match detail with
           | Some (JStr d) => d
           | _ => JSON_stringify result
           end in
    throw (Error msg)
  else ret result.

Definition apiRequest (endpoint method : string) (data : option json) (useAuth : bool)
  : M json :=
  options <- apiRequest_options endpoint method data useAuth ;;
  response <- fetch options ;;
  apiRequest_settle response.

(** [apiRequestFormData] up to its [await fetch]; [formData] holds the one
    file appended under the key [file]. *)
Definition apiRequestFormData_options (endpoint method : string) (formData : string)
  : M Request :=
  token <- getSessionToken ;;
  let headers1 : gmap string string :=
    if truthy_str token then {[ "X-Session-Token" := or_str token "" ]} else ∅ in
  base <- BASE_URL ;;
  ret (mkRequest (base ++ endpoint) method headers1 (Some (BodyForm formData))).

(** [apiRequestFormData] from the response on. *)
Definition apiRequestFormData_settle (response : Response) : M json :=
  result <-
    (match contentType response with
     | Some ct =>
         if negb (String.eqb ct "") && includes "application/json" ct then
           match payload response with
           | Some j => ret j
           | None => throw bad_json
           end
         else ret (JObj [("detail", JStr (or_str (Some (statusText response)) "Request failed"))])
     | None => ret (JObj [("detail", JStr (or_str (Some (statusText response)) "Request failed"))])
     end) ;;
  if (status response =? 401)%Z then
    removeItem "session_token" ;;
    removeItem "user_id" ;;
    removeItem "username" ;;
    removeItem "role" ;;
    path <- gets pathname ;;
    when (includes "dashboard" path) (navigate "index.html") ;;
    detail <- get_prop result "detail" ;;
    throw (Error (if truthy_val detail then ToString_val detail else "Session expired"))
  else if negb (ok response) then
    detail <- get_prop result "detail" ;;
    let msg :=
      if truthy_val detail then ToString_val detail
      else match detail with
           | Some (JStr d) => d
           | _ => JSON_stringify result
           end in
    throw (Error msg)
  else ret result.

Definition apiRequestFormData (endpoint method : string) (formData : string) : M json :=
  options <- apiRequestFormData_options endpoint method formData ;;
  response <- fetch options ;;
  apiRequestFormData_settle response.

End Api.

(** ** auth.js *)
Module Auth.
Import Js Browser Api.

Definition showAuthMsg (text : string) (isError : bool) : M unit :=
  update "auth-msg" (fun msg =>
    with_hidden false
      (with_className ("auth-msg " ++ (if isError then "error" else "success"))
         (with_textContent text msg))).

(** The callback of [login] on the resolved value [res]. *)
Definition login_then (username : string) (res : json) : M unit :=
  session_token <- get_prop res "session_token" ;;
  if truthy_val session_token then
    setItem "session_token" (ToString_val session_token) ;;
    user_id <- get_prop res "user_id" ;;
    setItem "user_id" (ToString_val user_id) ;;
    res_username <- get_prop res "username" ;;
    setItem "username" (if truthy_val res_username then ToString_val res_username else username) ;;
    res_role <- get_prop res "role" ;;
    role <- role_or_member res_role ;;
    setItem "role" role ;;
    navigate "dashboard.html"
  else
    detail <- get_prop res "detail" ;;
    showAuthMsg (if truthy_val detail then ToString_val detail else "Login failed") true.

Definition login : M unit :=
  username_el <- element "username" ;;
  let username := trim (value username_el) in
  password_el <- element "password" ;;
  let password := value password_el in
  if String.eqb username "" || String.eqb password "" then
    showAuthMsg "Please enter username and password" true
  else
    showAuthMsg "Signing in…" false ;;
    catch
      (res <- apiRequest "/login" "POST"
                (Some (JObj [("username", JStr username); ("password", JStr password)])) false ;;
       login_then username res)
      (fun err => showAuthMsg (or_str (Some (message err)) "Invalid username or password") true).

Definition signup : M unit :=
  username_el <- element "reg-username" ;;
  let username := trim (value username_el) in
  password_el <- element "reg-password" ;;
  let password := value password_el in
  role_el <- element "reg-role" ;;
  let role := value role_el in
  if String.eqb username "" || String.eqb password "" then
    showAuthMsg "Please enter username and password" true
  else if String.eqb (toLowerCase username) (toLowerCase password) then
    showAuthMsg "Username must not be the same as your password" true
  else
    showAuthMsg "Creating account…" false ;;
    let roleNormalized := if String.eqb role "Admin" then "admin" else "member" in
    catch
      (res <- apiRequest "/users" "POST"
                (Some (JObj [("username", JStr username); ("password", JStr password);
                             ("role", JStr roleNormalized)])) false ;;
       let id :=
         match res with
         | JNull => "—"
         | _ => match prop res "id" with
                | Some (Some JNull) | Some None | None => "—"
                | Some (Some v) => ToString v
                end
         end in
       showAuthMsg ("Account created. Your user ID is " ++ id ++
         ". Share this ID when someone assigns you a task or adds you to a team. Please sign in.") false ;;
       _ <- element "username" ;;
       update "username" (with_value username) ;;
       _ <- element "password" ;;
       update "password" (with_value ""))
      (fun err => showAuthMsg (or_str (Some (message err)) "Registration failed") true).

(** [!userId || userId <= 0] on the result of [parseInt]. *)
Definition bad_id (userId : option Z) : bool :=
  match userId with
  | Some n => (n <=? 0)%Z
  | None => true
  end.

Definition resetUsername : M unit :=
  id_el <- element "reset-username-user-id" ;;
  pw_el <- element "reset-current-password" ;;
  let currentPassword := value pw_el in
  name_el <- element "reset-new-username" ;;
  let newUsername := trim (value name_el) in
  let userId := parseInt (value id_el) in
  if bad_id userId then
    showAuthMsg "Please enter a valid user ID" true
  else if String.eqb currentPassword "" || String.eqb newUsername "" then
    showAuthMsg "Please fill in all username reset fields" true
  else
    catch
      (_ <- apiRequest "/auth/reset-username" "POST"
              (Some (JObj [("user_id", JNum (default 0%Z userId));
                           ("current_password", JStr currentPassword);
                           ("new_username", JStr newUsername)])) false ;;
       showAuthMsg "Username updated successfully. You can now sign in with your new username." false)
      (fun err => showAuthMsg (or_str (Some (message err)) "Failed to reset username") true).

Definition resetPassword : M unit :=
  id_el <- element "reset-password-user-id" ;;
  name_el <- element "reset-password-username" ;;
  let username := trim (value name_el) in
  new_el <- element "reset-new-password" ;;
  let newPassword := value new_el in
  confirm_el <- element "reset-new-password-confirm" ;;
  let confirmPassword := value confirm_el in
  let userId := parseInt (value id_el) in
  if bad_id userId then
    showAuthMsg "Please enter a valid user ID" true
  else if String.eqb username "" || String.eqb newPassword "" || String.eqb confirmPassword "" then
    showAuthMsg "Please fill in all password reset fields" true
  else if negb (String.eqb newPassword confirmPassword) then
    showAuthMsg "New password and confirmation do not match" true
  else
    catch
      (_ <- apiRequest "/auth/reset-password" "POST"
              (Some (JObj [("user_id", JNum (default 0%Z userId));
                           ("username", JStr username);
                           ("new_password", JStr newPassword)])) false ;;
       showAuthMsg "Password updated successfully. You can now sign in with your new password." false)
      (fun err => showAuthMsg (or_str (Some (message err)) "Failed to reset password") true).

End Auth.

(** ** dashboard.js: roles and role-based visibility *)
Module Dashboard.
Import Js Browser Api.

Definition getEffectiveRole : M string :=
  eff <- gets effectiveDisplayRole ;;
  match eff with
  | Some r => ret (toLowerCase r)
  | None => role <- getItem "role" ;; ret (toLowerCase (or_str role "member"))
  end.

Definition updateHeaderRole : M unit :=
  role <- getEffectiveRole ;;
  update "user-role" (with_textContent
    (if String.eqb role "admin" then "Admin"
     else if String.eqb role "division head" then "Division Head"
     else if String.eqb role "group head" then "Group Head"
     else if String.eqb role "project director" then "Project Director"
     else if String.eqb role "team lead" then "Team Lead"
     else "Member")).

Definition isUserAdmin : M bool :=
  stored <- getItem "role" ;;
  let role := toLowerCase (or_str stored "member") in
  ret (String.eqb role "admin" || String.eqb role "division head").

Definition canAssignTask : M bool :=
  stored <- getItem "role" ;;
  let role := toLowerCase (or_str stored "member") in
  ret (String.eqb role "admin" || String.eqb role "division head").

(** [list.indexOf(x) !== -1] on a list of strings. *)
Definition index_of (x : string) (l : list string) : bool :=
  existsb (String.eqb x) l.

Definition canUseMultiAssign : M bool :=
  role <- getEffectiveRole ;;
  ret (index_of role ["admin"; "division head"; "group head"; "team lead"; "project director"]).

Definition showToast (msg : string) (isError : bool) : M unit :=
  update "toast" (fun el =>
    with_hidden false
      (with_className ("toast " ++ (if isError then "error" else "success"))
         (with_textContent msg el))).

Definition setupRoleBasedUI (userRole : option string) : M unit :=
  let role := toLowerCase (or_str userRole "member") in
  let isAdmin := String.eqb role "admin" || String.eqb role "division head" in
  let canCreateTeam :=
    isAdmin || String.eqb role "team lead" || String.eqb role "project director"
    || String.eqb role "group head" in
  let canRemoveMember :=
    isAdmin || String.eqb role "project director" || String.eqb role "group head"
    || String.eqb role "team lead" in
  update "team-section" (with_display (if canCreateTeam then "" else "none")) ;;
  update "member-section" (with_display "none") ;;
  update "delete-team-card" (with_display (if isAdmin then "" else "none")) ;;
  update "remove-member-card" (with_display (if canRemoveMember then "" else "none")) ;;
  update "task-closure-group"
    (with_hidden
       (if String.eqb role "team lead" || String.eqb role "group head"
           || String.eqb role "project director" || String.eqb role "division head"
           || String.eqb role "admin"
        then false else true)) ;;
  userSection <- getElementById "users-section" ;;
  when (bool_decide (is_Some userSection))
    (if isAdmin then
       update "users-section" (with_display "block") ;;
       call "loadAllUsers"
     else update "users-section" (with_display "none")) ;;
  multiWrap <- getElementById "task-multi-assign-wrap" ;;
  singleWrap <- getElementById "task-single-assign-wrap" ;;
  when (bool_decide (is_Some multiWrap) && bool_decide (is_Some singleWrap))
    (update "task-multi-assign-wrap" (with_display "none") ;;
     update "task-single-assign-wrap" (with_display "none") ;;
     update "task-lead-wrap" (with_display "none") ;;
     update "task-share-wrap" (with_display "none") ;;
     multi <- canUseMultiAssign ;;
     if multi then update "task-multi-assign-wrap" (with_display "block")
     else
       single <- canAssignTask ;;
       when single
         (update "task-single-assign-wrap" (with_display "") ;;
          update "task-lead-wrap" (with_display "") ;;
          update "task-share-wrap" (with_display ""))) ;;
  assign <- canAssignTask ;;
  multi <- canUseMultiAssign ;;
  update "task-type-hint"
    (with_display (if negb assign && negb multi then "block" else "none")).

(** A row of [GET /users/{id}/teams]. *)
Record Team := mkTeam {
  team_id : Z;
  team_name : string;
  user_role : option string
}.

(** The loop of [loadUserTeams] over the teams: the first team role among
    the privileged ones, else the global role. *)
Fixpoint first_team_role (globalRole : string) (teams : list Team) : string :=
  match teams with
  | [] => globalRole
  | t :: rest =>
      let r := trim (toLowerCase (or_str (user_role t) "")) in
      if index_of r ["project director"; "group head"; "team lead"] then r
      else first_team_role globalRole rest
  end.

(** The callback of [loadUserTeams] once both requests have resolved, as
    far as roles go: the effective role, the header, the role-based
    sections and the add-member section.  The option lists the callback
    then fills are not part of the model. *)
Definition loadUserTeams_then (teams : list Team) : M unit :=
  stored <- getItem "role" ;;
  let globalRole := toLowerCase (or_str stored "member") in
  (if String.eqb globalRole "admin" || String.eqb globalRole "division head" then
     modify (set_effectiveDisplayRole (Some globalRole))
   else
     modify (set_effectiveDisplayRole (Some (first_team_role globalRole teams)))) ;;
  updateHeaderRole ;;
  eff <- gets effectiveDisplayRole ;;
  setupRoleBasedUI eff ;;
  role <- getEffectiveRole ;;
  let adminTeamOptions :=
    filter (fun t => user_role t = Some "Admin" \/ role = "division head" \/ role = "admin") teams in
  addMemberSelect <- getElementById "add-member-team" ;;
  when (bool_decide (is_Some addMemberSelect))
    (if (0 <? length adminTeamOptions)%nat
     then update "member-section" (with_display "block")
     else update "add-member-team" (with_disabled true)).

(** The callback of the [GET /users/me] request made when the page loads. *)
Definition sync_then (me : json) : M unit :=
  if negb (truthy me) then ret tt
  else
    me_role <- get_prop me "role" ;;
    serverRole <- role_or_member me_role ;;
    me_username <- get_prop me "username" ;;
    let serverName := if truthy_val me_username then ToString_val me_username else "" in
    when (negb (String.eqb serverName "")) (setItem "username" serverName) ;;
    stored <- getItem "role" ;;
    let roleChanged := negb (String.eqb serverRole (toLowerCase (or_str stored "member"))) in
    when roleChanged
      (setItem "role" serverRole ;;
       setupRoleBasedUI (Some serverRole) ;;
       call "loadUserTeams" ;;
       call "loadTasks") ;;
    updateHeaderRole.

(** The script run when the dashboard loads, up to the sending of
    [GET /users/me]; filling in the user's name is not part of the model. *)
Definition page_load : M unit :=
  logged <- isLoggedIn ;;
  if negb logged then navigate "index.html"
  else
    stored <- getItem "role" ;;
    let role := toLowerCase (or_str stored "member") in
    updateHeaderRole ;;
    setupRoleBasedUI (Some role) ;;
    options <- apiRequest_options "/users/me" "GET" None true ;;
    send options.

(** The callbacks of that request, run when its answer [r] arrives. *)
Definition page_load_settled (r : FetchResult) : M unit :=
  catch (response <- settled r ;; me <- apiRequest_settle response ;; sync_then me)
        (fun _ => ret tt).

(** The quick buttons [renderUsers] puts in a user row, each with the
    role it passes to [setUserRoleConfirm]. *)
Definition renderUsers_buttons (role : option string) : list (string * string) :=
  let roleLower := toLowerCase (or_str role "member") in
  ((if negb (String.eqb roleLower "division head")
    then [("Set Division Head", "division head")] else []) ++
   (if negb (String.eqb roleLower "member")
    then [("Set Member", "member")] else []))%list.

Definition updateUserRole (userId : Z) (newRole : string) : M unit :=
  let roleLabel :=
    if String.eqb newRole "division head" then "Division Head"
    else if String.eqb newRole "admin" then "Admin" else "Member" in
  catch
    (_ <- apiRequest ("/users/" ++ pretty userId ++ "/role") "PUT"
            (Some (JObj [("role", JStr roleLabel)])) true ;;
     showToast ("Role updated to " ++ roleLabel) false ;;
     stored_id <- getItem "user_id" ;;
     let currentUserId := parseInt (default "null" stored_id) in
     when (bool_decide (currentUserId = Some userId))
       (setItem "role" newRole ;;
        updateHeaderRole ;;
        setupRoleBasedUI (Some newRole) ;;
        call "loadUserTeams") ;;
     call "applyUsersFilter")
    (fun err =>
       showToast (or_str (Some (message err)) "Failed to update role") true ;;
       call "applyUsersFilter").

(** [ok] is the answer to the [confirm] dialog. *)
Definition setUserRoleConfirm (userId : Z) (newRole : string) (ok : bool) : M unit :=
  if negb ok then ret tt else updateUserRole userId newRole.

(** *** Working days left *)

(** ECMAScript day arithmetic: days are counted from 1 January 1970. *)
Definition DayFromYear (y : Z) : Z :=
  (365 * (y - 1970) + (y - 1969) / 4 - (y - 1901) / 100 + (y - 1601) / 400)%Z.

Definition InLeapYear (y : Z) : bool :=
  ((y mod 4 =? 0) && negb (y mod 100 =? 0) || (y mod 400 =? 0))%Z.

(** Days of the year before month [mn] (0 = January). *)
Definition month_start (leap : bool) (mn : Z) : Z :=
  let l := if leap then 1%Z else 0%Z in
  (if mn =? 0 then 0 else if mn =? 1 then 31 else if mn =? 2 then 59 + l
   else if mn =? 3 then 90 + l else if mn =? 4 then 120 + l
   else if mn =? 5 then 151 + l else if mn =? 6 then 181 + l
   else if mn =? 7 then 212 + l else if mn =? 8 then 243 + l
   else if mn =? 9 then 273 + l else if mn =? 10 then 304 + l
   else 334 + l)%Z.

(** [MakeDay(year, month, date)]: months past December carry into the
    year, days past the end of the month into the next ones. *)
Definition MakeDay (year month date : Z) : Z :=
  let ym := (year + month / 12)%Z in
  let mn := (month mod 12)%Z in
  (DayFromYear ym + month_start (InLeapYear ym) mn + date - 1)%Z.

(** [Date.UTC(year, month, date)] as a day number: a year from 0 to 99 is
    taken as 1900 + year, and a day more than 100,000,000 days from the
    epoch is no date ([None] is the invalid date, whose time is [NaN]). *)
Definition Date_UTC (year month date : Z) : option Z :=
  let yr := if ((0 <=? year) && (year <=? 99))%Z then (1900 + year)%Z else year in
  let day := MakeDay yr month date in
  if ((-100000000 <=? day) && (day <=? 100000000))%Z then Some day else None.

(** [getUTCDay()]: 0 is Sunday, 6 is Saturday. *)
Definition getUTCDay (day : Z) : Z := ((day + 4) mod 7)%Z.

(** The [while (cursor < end)] loop; it runs at most [fuel] times and
    returns the cursor it stopped at with the days counted. *)
Fixpoint count_days (fuel : nat) (cursor end_ days : Z) : Z * Z :=
  match fuel with
  | O => (cursor, days)
  | S fuel' =>
      if (cursor <? end_)%Z then
        let dayOfWeek := getUTCDay cursor in
        let days' :=
          if negb (dayOfWeek =? 0)%Z && negb (dayOfWeek =? 6)%Z then (days + 1)%Z else days in
        count_days fuel' (cursor + 1)%Z end_ days'
      else (cursor, days)
  end.

(** The local calendar date of [new Date()]: full year, month from 0, day. *)
Record Today := mkToday { getFullYear : Z; getMonth : Z; getDate : Z }.

(** [None] is [null]. *)
Definition computeWorkingDaysLeft (today : Today) (dueDateStr : option string) : option Z :=
  if negb (truthy_str dueDateStr) then None
  else
    match split "-" (default "" dueDateStr) with
    | [p0; p1; p2] =>
        match parseInt p0, parseInt p1, parseInt p2 with
        | Some year, Some month1, Some day =>
            let month := (month1 - 1)%Z in
            match Date_UTC (getFullYear today) (getMonth today) (getDate today),
                  Date_UTC year month day with
            | Some todayUtc, Some dueUtc =>
                if (todayUtc =? dueUtc)%Z then Some 0%Z
                else
                  let forward := (todayUtc <? dueUtc)%Z in
                  let start := if forward then todayUtc else dueUtc in
                  let end_ := if forward then dueUtc else todayUtc in
                  let days := snd (count_days (Z.to_nat (end_ - start)) start end_ 0) in
                  Some (if forward then days else (- days)%Z)
            | _, _ => None
            end
        | _, _, _ => None
        end
    | _ => None
    end.

(** *** The task table *)

(** A row of [GET /tasks], with the properties the table reads.  A
    property that is absent, [null] or of another type than the one the
    script tests for is [None]. *)
Record Task := mkTask {
  id : Z;
  activity_id : option Z;
  status : option string;
  due_date : option string;
  assigned_to : option Z;
  assigned_username : option string;
  can_approve_completion : bool;            (* t.can_approve_completion === true *)
  completion_status : option string;
  completion_request_id : option Z;
  extension_status : option string;
  extension_reason : option string;
  extension_requested_due_date : option string;
  extension_request_id : option Z;
  task_type : option string;
  procurement_stage : option string
}.

(** [!!n] for a number or [null]. *)
Definition truthy_num (n : option Z) : bool :=
  match n with
  | Some z => negb (z =? 0)%Z
  | None => false
  end.

Record SelectOption := mkOption {
  opt_value : string;
  opt_text : string;
  opt_selected : bool;
  opt_disabled : bool
}.

(** The options of the status drop-down of a row. *)
Definition statusOpts (t : Task) : M (list SelectOption) :=
  let base :=
    map (fun s =>
           let val := if String.eqb s "Pending" then "Pending Completion" else s in
           mkOption val s (bool_decide (status t = Some val)) false)
        ["To Do"; "In Progress"; "Pending"; "Completed"] in
  admin <- isUserAdmin ;;
  if admin || can_approve_completion t then
    assign <- canAssignTask ;;
    ret (base ++
         [mkOption "" "—" false true;
          mkOption "__change_due_date__" "Change due date" false false] ++
         (if assign && (truthy_num (assigned_to t) || truthy_str (assigned_username t))
          then [mkOption "__unassign_task__" "Unassign task" false false] else []) ++
         [mkOption "__delete_task__" "Delete task" false false;
          mkOption "__delete_activity__" "Delete activity" false false])%list
  else ret base.

(** The [select] that [buildActionsCellHtml] writes: its [disabled]
    attribute, the arguments of its [onchange] call of
    [handleActionSelect], and its options. *)
Record ActionSelect := mkActionSelect {
  sel_disabled : bool;
  sel_due_date : string;
  sel_taskId : Z;
  sel_activityId : option Z;
  sel_currentStatus : string;
  sel_title : string;
  sel_options : list SelectOption
}.

Definition procurement_stages : list string :=
  ["Specification Preparation"; "Cost Estimation"; "Demand Initiation"; "Tendering";
   "TCEC"; "CNC"; "Purchase Order"; "Delivery"; "Acceptance / IDIV Issue"].

(** The status select and, for a procurement task, the stage select. *)
Definition buildActionsCellHtml (t : Task) (opts : list SelectOption)
    (statusDisabled : bool) (dueRaw : option string)
  : ActionSelect * option (list SelectOption) :=
  let baseSelect :=
    mkActionSelect statusDisabled (or_str dueRaw "") (id t) (activity_id t)
      (or_str (status t) "") (if statusDisabled then "Awaiting approval" else "") opts in
  let taskType := or_str (task_type t) "Normal" in
  if negb (String.eqb taskType "Procurement") then (baseSelect, None)
  else
    let currentStage := or_str (procurement_stage t) "" in
    (baseSelect,
     Some (mkOption "" "Select stage" false false ::
           map (fun s => mkOption s s (String.eqb s currentStage) false) procurement_stages)).

(** Attributes of the extension button of a row. *)
Inductive Attr :=
| AType (t : string)
| AOpenExtensionRequest (taskId : Z) (currentDue : string)     (* onclick *)
| AReviewExtensionRequest (requestId taskId : Z)               (* onclick *)
| ADisabled
| AData (name value : string).

Record ExtButton := mkExtButton {
  extBtnAttrs : list Attr;
  extDataAttrs : list Attr;
  extBtnClass : string;
  extBtnLabel : string
}.

(** The extension cell of a row. *)
Definition extCellHtml (t : Task) : M ExtButton :=
  let dueRaw := if truthy_str (due_date t) then due_date t else None in
  let extStatus := if truthy_str (extension_status t) then extension_status t else None in
  let extBtnClass := "btn btn-sm btn-ext btn-ext--primary" in
  let extBtnLabel := "Request" in
  let extBtnAttrs := [AType "button"] in
  let extDataAttrs := [] in
  match extStatus with
  | None =>
      ret (mkExtButton (extBtnAttrs ++ [AOpenExtensionRequest (id t) (or_str dueRaw "")])%list
             extDataAttrs "btn btn-sm btn-ext btn-ext--primary" "Request")
  | Some st =>
      if String.eqb st "rejected" || String.eqb st "approved" then
        ret (mkExtButton (extBtnAttrs ++ [AOpenExtensionRequest (id t) (or_str dueRaw "")])%list
               extDataAttrs "btn btn-sm btn-ext btn-ext--primary" "Request")
      else if String.eqb st "pending" then
        let extDataAttrs1 :=
          (extDataAttrs ++
           (if truthy_str (extension_reason t)
            then [AData "data-ext-reason" (or_str (extension_reason t) "")] else []))%list in
        let extDataAttrs2 :=
          (extDataAttrs1 ++
           (if truthy_str (extension_requested_due_date t)
            then [AData "data-ext-date" (or_str (extension_requested_due_date t) "")] else []))%list in
        admin <- isUserAdmin ;;
        if admin then
          ret (mkExtButton
                 (extBtnAttrs ++
                  [AReviewExtensionRequest
                     (if truthy_num (extension_request_id t)
                      then default 0%Z (extension_request_id t) else 0%Z)
                     (id t)])%list
                 extDataAttrs2 "btn btn-sm btn-ext btn-ext--pending" "Pending")
        else
          ret (mkExtButton (extBtnAttrs ++ [ADisabled])%list
                 extDataAttrs2 "btn btn-sm btn-ext btn-ext--pending" "Pending")
      else ret (mkExtButton extBtnAttrs extDataAttrs extBtnClass extBtnLabel)
  end.

Inductive StatusButton :=
| ViewCompletionAttachment (requestId : option Z)
| ReviewCompletionRequest (requestId : option Z) (taskId : Z).

(** What [loadTasks] renders for one task: working days left, the buttons
    beside the status, the extension button and the actions cell. *)
Record Row := mkRow {
  row_daysLeft : option Z;
  row_statusExtraBtns : list StatusButton;
  row_ext : ExtButton;
  row_actions : ActionSelect * option (list SelectOption)
}.

Definition loadTasks_row (today : Today) (t : Task) : M Row :=
  let dueRaw := if truthy_str (due_date t) then due_date t else None in
  let daysLeft := computeWorkingDaysLeft today dueRaw in
  let statusDisabled := bool_decide (status t = Some "Pending Completion") in
  opts <- statusOpts t ;;
  ext <- extCellHtml t ;;
  let compStatus := if truthy_str (completion_status t) then completion_status t else None in
  let compRequestId :=
    if truthy_num (completion_request_id t) then completion_request_id t else None in
  let statusExtraBtns :=
    if bool_decide (compStatus = Some "pending") && can_approve_completion t
    then [ViewCompletionAttachment compRequestId; ReviewCompletionRequest compRequestId (id t)]
    else [] in
  ret (mkRow daysLeft statusExtraBtns ext (buildActionsCellHtml t opts statusDisabled dueRaw)).

(** *** Actions of the task table *)

Definition loadTasks : M unit := call "loadTasks".
Definition loadUserTeams : M unit := call "loadUserTeams".
Definition loadActivityChat : M unit := call "loadActivityChat".
(** The script's [loadActivityLogs] has an empty body. *)
Definition loadActivityLogs : M unit := ret tt.

Definition refresh_chat : M unit :=
  chat <- gets chatPanelOpen ;; when chat loadActivityChat.

Definition openCompletionProofModal (taskId : Z) : M unit :=
  modal <- getElementById "completion-proof-modal" ;;
  taskIdEl <- getElementById "completion-proof-task-id" ;;
  fileEl <- getElementById "completion-proof-file" ;;
  match modal, taskIdEl, fileEl with
  | Some _, Some _, Some _ =>
      update "completion-proof-task-id" (with_value (pretty taskId)) ;;
      update "completion-proof-file" (fun e => with_files [] (with_value "" e)) ;;
      update "completion-proof-modal" (with_hidden false)
  | _, _, _ => ret tt
  end.

Definition closeCompletionProofModal : M unit :=
  update "completion-proof-modal" (with_hidden true).

Definition updateStatus (taskId : Z) (status : string) : M unit :=
  admin <- isUserAdmin ;;
  if String.eqb status "Completed" && negb admin then
    openCompletionProofModal taskId
  else
    catch
      (_ <- apiRequest ("/tasks/" ++ pretty taskId ++ "/status") "PUT"
              (Some (JObj [("status", JStr status)])) true ;;
       showToast "Status updated" false ;;
       loadTasks ;;
       loadActivityLogs ;;
       refresh_chat)
      (fun err =>
         showToast (or_str (Some (message err)) "Failed to update status") true ;;
         loadTasks).

Definition submitCompletionProof : M unit :=
  taskIdEl <- getElementById "completion-proof-task-id" ;;
  fileEl <- getElementById "completion-proof-file" ;;
  match taskIdEl, fileEl with
  | Some taskIdEl, Some fileEl =>
      let taskId := value taskIdEl in
      match files fileEl with
      | [] => showToast "Please select a file" true
      | file :: _ =>
          update "completion-proof-submit" (with_disabled true) ;;
          finally
            (catch
               (_ <- apiRequestFormData ("/tasks/" ++ taskId ++ "/completion-requests") "POST" file ;;
                showToast "Completion proof submitted. Awaiting approval." false ;;
                closeCompletionProofModal ;;
                loadTasks ;;
                loadActivityLogs ;;
                refresh_chat)
               (fun err => showToast (or_str (Some (message err)) "Failed to submit") true))
            (update "completion-proof-submit" (with_disabled false))
      end
  | _, _ => ret tt
  end.

(** [input] is what the [prompt] dialog returns ([None] when it is
    cancelled) and [ok] the answer to [confirm], for the entries that ask.
    Putting the select back on [currentStatus] is left to the page. *)
Definition handleActionSelect (taskId : Z) (activityId : option Z)
    (val : string) (input : option string) (ok : bool) : M unit :=
  if String.eqb val "__change_due_date__" then
    match input with
    | None => ret tt
    | Some i =>
        let trimmed := trim i in
        if String.eqb trimmed "" then showToast "Due date cannot be empty" true
        else
          catch
            (_ <- apiRequest ("/tasks/" ++ pretty taskId ++ "/due-date") "PUT"
                    (Some (JObj [("due_date", JStr trimmed)])) true ;;
             showToast "Due date updated" false ;;
             loadTasks ;;
             refresh_chat)
            (fun err => showToast (or_str (Some (message err)) "Failed to update due date") true)
    end
  else if String.eqb val "__unassign_task__" then
    if negb ok then ret tt
    else
      catch
        (_ <- apiRequest ("/tasks/" ++ pretty taskId ++ "/assign") "PUT"
                (Some (JObj [("assigned_to", JNull)])) true ;;
         showToast "Task unassigned" false ;;
         loadTasks ;;
         refresh_chat)
        (fun err => showToast (or_str (Some (message err)) "Failed to unassign task") true)
  else if String.eqb val "__delete_task__" then
    if negb ok then ret tt
    else
      catch
        (_ <- apiRequest ("/tasks/" ++ pretty taskId) "DELETE" None true ;;
         showToast "Task deleted" false ;;
         loadTasks ;;
         loadActivityLogs)
        (fun err => showToast (or_str (Some (message err)) "Failed to delete task") true)
  else if String.eqb val "__delete_activity__" then
    match activityId with
    | None => showToast "This task has no activity" true
    | Some aid =>
        if negb ok then ret tt
        else
          catch
            (_ <- apiRequest ("/activities/" ++ pretty aid) "DELETE" None true ;;
             showToast "Activity deleted" false ;;
             loadUserTeams ;;
             loadTasks ;;
             loadActivityLogs)
            (fun err => showToast (or_str (Some (message err)) "Failed to delete activity") true)
    end
  else updateStatus taskId val.

(** [proposed] and [reason] are what the two [prompt] dialogs return, in
    the order they are asked. *)
Definition openExtensionRequest (taskId : Z) (proposed reason : option string) : M unit :=
  if (taskId =? 0)%Z then ret tt
  else if negb (truthy_str proposed) then ret tt
  else
    let proposed := trim (or_str proposed "") in
    if negb (is_ymd proposed) then showToast "Please enter date as YYYY-MM-DD" true
    else if negb (truthy_str reason) then showToast "Extension reason is required" true
    else
      catch
        (_ <- apiRequest ("/tasks/" ++ pretty taskId ++ "/extension-requests") "POST"
                (Some (JObj [("requested_due_date", JStr proposed);
                             ("reason", JStr (or_str reason ""))])) true ;;
         showToast "Extension request submitted" false ;;
         loadTasks ;;
         loadActivityLogs ;;
         refresh_chat)
        (fun err =>
           showToast (or_str (Some (message err)) "Failed to submit extension request") true).

(** [btnEl.getAttribute(name) || ""] on the button of the row. *)
Fixpoint getAttribute (name : string) (attrs : list Attr) : string :=
  match attrs with
  | [] => ""
  | AData n v :: rest => if String.eqb n name then v else getAttribute name rest
  | _ :: rest => getAttribute name rest
  end.

(** [approve] is the answer to [confirm], [finalInput] what the [prompt]
    for the final date returns. *)
Definition reviewExtensionRequest (requestId taskId : Z) (btnEl : ExtButton)
    (approve : bool) (finalInput : option string) : M unit :=
  if (requestId =? 0)%Z then ret tt
  else
    admin <- isUserAdmin ;;
    if negb admin then showToast "Only admins can decide extension requests" true
    else
      let payload := [("status", JStr (if approve then "approved" else "rejected"))] in
      let put (payload : list (string * json)) :=
        catch
          (_ <- apiRequest ("/tasks/extension-requests/" ++ pretty requestId) "PUT"
                  (Some (JObj payload)) true ;;
           showToast (if approve then "Extension approved" else "Extension rejected") false ;;
           loadTasks ;;
           loadActivityLogs ;;
           refresh_chat)
          (fun err =>
             showToast (or_str (Some (message err)) "Failed to update extension request") true) in
      if approve then
        match finalInput with
        | Some i =>
            if negb (String.eqb (trim i) "") then
              let finalInput := trim i in
              if negb (is_ymd finalInput) then showToast "Please enter date as YYYY-MM-DD" true
              else put (payload ++ [("new_due_date", JStr finalInput)])%list
            else put payload
        | None => put payload
        end
      else put payload.

Definition reviewCompletionRequest (requestId : option Z) (approve : bool) : M unit :=
  if negb (truthy_num requestId) then ret tt
  else
    catch
      (_ <- apiRequest ("/tasks/completion-requests/" ++ pretty (default 0%Z requestId)) "PUT"
              (Some (JObj [("status", JStr (if approve then "approved" else "rejected"))])) true ;;
       showToast (if approve then "Completion approved" else "Completion rejected") false ;;
       loadTasks ;;
       loadActivityLogs ;;
       refresh_chat)
      (fun err =>
         showToast (or_str (Some (message err)) "Failed to update completion request") true).

(** *** Teams *)

(** [ok] is the answer to the [confirm] dialog. *)
Definition confirmDeleteTeam (ok : bool) : M unit :=
  sel <- getElementById "delete-team-select" ;;
  match sel with
  | None => showToast "Select a team to delete" true
  | Some sel =>
      if String.eqb (value sel) "" then showToast "Select a team to delete" true
      else
        let teamId :=
          match parseInt (value sel) with
          | Some n => pretty n
          | None => "NaN"
          end in
        if negb ok then ret tt
        else
          catch
            (_ <- apiRequest ("/teams/" ++ teamId) "DELETE" None true ;;
             showToast "Team deleted" false ;;
             loadUserTeams ;;
             loadTasks ;;
             loadActivityLogs)
            (fun err => showToast (or_str (Some (message err)) "Failed to delete team") true)
  end.

(** *** Sessions: the callbacks in the order the browser may run them *)

Inductive Event :=
| LoggedIn (res : json)             (* index.html: the login request resolved with [res] *)
| DashboardOpened (page : gmap string Element)   (* dashboard.html loads and runs its script *)
| TeamsLoaded (teams : list Team)   (* the requests of loadUserTeams resolved *)
| UserSynced (r : FetchResult)      (* the answer to GET /users/me arrived *)
| OwnRoleSet (userId : Z) (newRole : string).   (* a quick button of the users table, confirmed *)

Definition run_event (e : Event) : M unit :=
  match e with
  | LoggedIn res => catch (Auth.login_then "" res) (fun _ => ret tt)
  | DashboardOpened page =>
      modify (open_page "/dashboard.html" page) ;;
      page_load ;;
      loadUserTeams ;;
      loadTasks
  | TeamsLoaded teams => loadUserTeams_then teams
  | UserSynced r => page_load_settled r
  | OwnRoleSet userId newRole => setUserRoleConfirm userId newRole true
  end.

Definition after (events : list Event) (w : World) : World :=
  fold_left (fun w e => snd (run_event e w)) events w.

(** *** Helpers of the page *)

(** [escapeHtml(s)]; [None] is [null] or [undefined]. *)
Definition escapeHtml (s : option string) : string :=
  if negb (truthy_str s) then "" else text_to_html (default "" s).

(** [n < 10 ? "0" + n : n] inside a string concatenation. *)
Definition two_digits (n : Z) : string :=
  if (n <? 10)%Z then "0" ++ pretty n else pretty n.

(** [getTodayDateStr()]. *)
Definition getTodayDateStr (today : Today) : string :=
  let y := getFullYear today in
  let m := (getMonth today + 1)%Z in
  let day := getDate today in
  pretty y ++ "-" ++ two_digits m ++ "-" ++ two_digits day.

(** [el && el.value ? parseInt(el.value, 10) : null]; [None] is [null] or
    [NaN], both falsy. *)
Definition select_id (el : option Element) : option Z :=
  match el with
  | Some e => if negb (String.eqb (value e) "") then parseInt (value e) else None
  | None => None
  end.

(** A number, or [NaN], inside a string concatenation. *)
Definition NumberToString (n : option Z) : string :=
  match n with
  | Some z => pretty z
  | None => "NaN"
  end.

(** *** Leaving *)

(** The request to [/logout] is not waited for and its failure is
    swallowed: it is sent, no more. *)
Definition logout : M unit :=
  token <- getSessionToken ;;
  when (truthy_str token)
    (base <- BASE_URL ;;
     send (mkRequest
             (base ++ "/logout?session_token=" ++ encodeURIComponent (or_str token ""))
             "POST" ∅ None)) ;;
  removeItem "session_token" ;;
  removeItem "user_id" ;;
  removeItem "username" ;;
  removeItem "role" ;;
  navigate "index.html".

(** *** Teams and members *)

Definition createTeam : M unit :=
  name_el <- element "team-name" ;;
  let name := trim (value name_el) in
  if String.eqb name "" then showToast "Enter a team name" true
  else
    catch
      (_ <- apiRequest "/teams" "POST" (Some (JObj [("name", JStr name)])) true ;;
       _ <- element "team-name" ;;
       update "team-name" (with_value "") ;;
       showToast "Team created" false ;;
       loadUserTeams)
      (fun err => showToast (or_str (Some (message err)) "Failed to create team") true).

Definition addMemberToTeam : M unit :=
  teamEl <- getElementById "add-member-team" ;;
  userEl <- getElementById "add-member-user" ;;
  roleEl <- getElementById "add-member-role" ;;
  let teamId := select_id teamEl in
  let userId := select_id userEl in
  if negb (truthy_num teamId) then showToast "Select a team" true
  else if negb (truthy_num userId) then showToast "Select a user" true
  else
    let role := match roleEl with Some e => value e | None => "Member" end in
    let url :=
      "/teams/" ++ NumberToString teamId ++ "/add-member?user_id=" ++ NumberToString userId
      ++ "&role=" ++ encodeURIComponent role in
    catch
      (_ <- apiRequest url "POST" None true ;;
       update "add-member-user" (with_value "") ;;
       showToast "Member added to team" false)
      (fun err => showToast (or_str (Some (message err)) "Failed to add member") true).

(** [ok] is the answer to the [confirm] dialog. *)
Definition confirmRemoveMember (ok : bool) : M unit :=
  teamSel <- getElementById "remove-member-team" ;;
  userSel <- getElementById "remove-member-user" ;;
  match teamSel with
  | None => showToast "Select a team" true
  | Some teamSel =>
      if String.eqb (value teamSel) "" then showToast "Select a team" true
      else
        match userSel with
        | None => showToast "Select a member to remove" true
        | Some userSel =>
            if String.eqb (value userSel) "" then showToast "Select a member to remove" true
            else
              let teamId := parseInt (value teamSel) in
              let userId := parseInt (value userSel) in
              if negb ok then ret tt
              else
                catch
                  (_ <- apiRequest ("/teams/" ++ NumberToString teamId ++ "/members/"
                                    ++ NumberToString userId) "DELETE" None true ;;
                   showToast "Member removed from team" false ;;
                   call "loadTeamMembersForRemoval" ;;
                   loadTasks)
                  (fun err =>
                     showToast (or_str (Some (message err)) "Failed to remove member") true)
        end
  end.

(** [JSON.stringify] writes [NaN] as [null]. *)
Definition number_json (n : option Z) : json :=
  match n with
  | Some z => JNum z
  | None => JNull
  end.

(** *** Creating a task *)

(** A row of the assignee list: the value of its member select, the value
    of its share input and the state of its lead box; [None] where the row
    has no such child. *)
Record AssigneeRow := mkAssigneeRow {
  row_sel : option string;
  row_shareEl : option string;
  row_leadEl : option bool
}.

(** An entry of [payload.assignments]. *)
Record Assignment := mkAssignment {
  asg_user_id : Z;
  asg_percent_share : option Z;
  asg_is_lead : bool
}.

(** The body of the [forEach] of [getTaskAssigneesFromRows]: what the row
    adds to [out]. *)
Definition assignee_of_row (row : AssigneeRow) : list Assignment :=
  let uid :=
    match row_sel row with
    | Some v => if negb (String.eqb v "") then parseInt v else None
    | None => None
    end in
  if negb (truthy_num uid) then []
  else
    let share :=
      match row_shareEl row with
      | Some v => if negb (String.eqb (trim v) "") then Some (parseInt v) else None
      | None => None
      end in
    let share :=
      match share with
      | Some (Some n) => if (n <? 0)%Z || (100 <? n)%Z then None else Some n
      | Some None => None
      | None => None
      end in
    [mkAssignment (default 0%Z uid) share (default false (row_leadEl row))].

(** [getTaskAssigneesFromRows()] on the rows of the assignee list; [None]
    when the page has no such list. *)
Definition getTaskAssigneesFromRows (rows : option (list AssigneeRow)) : list Assignment :=
  match rows with
  | Some rows => flat_map assignee_of_row rows
  | None => []
  end.

Definition assignment_json (a : Assignment) : json :=
  JObj [("user_id", JNum (asg_user_id a));
        ("percent_share", number_json (asg_percent_share a));
        ("is_lead", JBool (asg_is_lead a))].

(** [s ? parseInt(s, 10) : null] as [JSON.stringify] writes it. *)
Definition int_or_null (s : string) : json :=
  if negb (String.eqb s "") then number_json (parseInt s) else JNull.

(** The [payload] of [createTask], its keys in the order they are set. *)
Definition createTask_payload (teamId activityId title desc priority dueDate assignee leadId
    share closureId taskType : string) (assigneesFromRows : list Assignment)
  : list (string * json) :=
  ([("title", JStr title);
    ("description", if negb (String.eqb desc "") then JStr desc else JNull);
    ("priority", JStr priority);
    ("status", JStr "To Do");
    ("task_type", JStr taskType);
    ("team_id", int_or_null teamId);
    ("activity_id", int_or_null activityId);
    ("closure_approver_id", int_or_null closureId)]
   ++ (if negb (String.eqb dueDate "") then [("due_date", JStr dueDate)] else [])
   ++ (if (0 <? length assigneesFromRows)%nat
       then [("assignments", JArr (map assignment_json assigneesFromRows))]
       else [("assigned_to", int_or_null assignee);
             ("lead_person_id", int_or_null leadId);
             ("percent_share", int_or_null share)]))%list.

(** [rows] are the rows of the assignee list when the form is sent.
    Emptying that list after a success is left to the page. *)
Definition createTask (rows : option (list AssigneeRow)) : M unit :=
  team_el <- element "task-team" ;;
  let teamId := value team_el in
  activity_el <- element "task-activity" ;;
  let activityId := value activity_el in
  title_el <- element "task-title" ;;
  let title := trim (value title_el) in
  desc_el <- element "task-desc" ;;
  let desc := trim (value desc_el) in
  priority_el <- element "task-priority" ;;
  let priority := value priority_el in
  due_el <- element "task-due" ;;
  let dueDate := value due_el in
  assigneeEl <- getElementById "task-assignee" ;;
  let assignee := match assigneeEl with Some e => value e | None => "" end in
  leadEl <- getElementById "task-lead" ;;
  let leadId := match leadEl with Some e => value e | None => "" end in
  shareEl <- getElementById "task-share" ;;
  let share := match shareEl with Some e => value e | None => "" end in
  closureEl <- getElementById "task-closure" ;;
  let closureId := match closureEl with Some e => value e | None => "" end in
  if String.eqb teamId "" && String.eqb activityId "" then
    showToast "Select a team or activity" true
  else if String.eqb title "" then showToast "Enter a task title" true
  else
    taskTypeEl <- getElementById "task-type" ;;
    let taskType :=
      match taskTypeEl with
      | Some e => or_str (Some (value e)) "Normal"
      | None => "Normal"
      end in
    multi <- canUseMultiAssign ;;
    let assigneesFromRows := if multi then getTaskAssigneesFromRows rows else [] in
    let payload :=
      createTask_payload teamId activityId title desc priority dueDate assignee leadId share
        closureId taskType assigneesFromRows in
    catch
      (t <- apiRequest "/tasks" "POST" (Some (JObj payload)) true ;;
       _ <- element "task-title" ;;
       update "task-title" (with_value "") ;;
       update "task-desc" (with_value "") ;;
       update "task-due" (with_value "") ;;
       update "task-share" (with_value "") ;;
       type_approval_status <- get_prop t "type_approval_status" ;;
       (if match type_approval_status with
           | Some (JStr s) => String.eqb s "pending"
           | _ => false
           end then
          showToast "Task created and sent for type approval (Admin / Division Head / Team Lead / Project Director)" false
        else
          is_approved <- get_prop t "is_approved" ;;
          if match is_approved with Some (JBool false) => true | _ => false end
          then showToast "Task submitted for approval" false
          else showToast "Task created" false) ;;
       loadTasks ;;
       loadActivityLogs)
      (fun err => showToast (or_str (Some (message err)) "Failed to create task") true).

(** *** The chat *)

(** [currentActivityIdForView] is the activity shown, [None] for none. *)
Definition sendChatMessage (currentActivityIdForView : option Z) : M unit :=
  if negb (truthy_num currentActivityIdForView) then showToast "Select an activity first" true
  else
    input <- getElementById "chat-input" ;;
    match input with
    | None => ret tt
    | Some input =>
        let content := trim (value input) in
        if String.eqb content "" then ret tt
        else
          update "chat-input" (with_disabled true) ;;
          catch
            (_ <- apiRequest ("/activities/" ++ NumberToString currentActivityIdForView
                              ++ "/messages") "POST"
                    (Some (JObj [("content", JStr content)])) true ;;
             update "chat-input" (with_value "") ;;
             update "chat-input" (with_disabled false) ;;
             loadActivityChat)
            (fun err =>
               update "chat-input" (with_disabled false) ;;
               showToast (or_str (Some (message err)) "Failed to send message") true)
    end.

(** *** The task list *)

(** The status of a row as [loadTasks] words it; [None] is [null] or
    [undefined]. *)
Definition normalizedStatus (status : option string) : string :=
  toLowerCase (trim (default "" status)).

Definition isPendingCompletion (status : option string) : bool :=
  String.eqb (normalizedStatus status) "pending completion"
  || String.eqb (default "" status) "Pending Completion".

Definition isCompletedStatus (status : option string) : bool :=
  String.eqb (normalizedStatus status) "completed"
  || String.eqb (normalizedStatus status) "done"
  || (includes "complete" (normalizedStatus status) && negb (isPendingCompletion status)).

(** The class of the button that carries the name of the task. *)
Definition taskNameClass (status : option string) (daysLeft : option Z) : string :=
  if isCompletedStatus status then "task-name-link task-name--completed"
  else
    match daysLeft with
    | Some n =>
        if (n <? 0)%Z then "task-name-link task-name--overdue"
        else if (n <=? 3)%Z then "task-name-link task-name--warning"
        else "task-name-link"
    | None => "task-name-link"
    end.

(** The cell of the working days left. *)
Inductive DaysLeftCell :=
| DaysCompleted                          (* the tick of a completed task *)
| DaysSpan (class text : string)         (* the number in a span *)
| DaysNone.                              (* the dash *)

Definition daysLeftContent (status : option string) (daysLeft : option Z) : DaysLeftCell :=
  if isCompletedStatus status then DaysCompleted
  else
    match daysLeft with
    | Some n =>
        DaysSpan
          (if (n <? 0)%Z then "days-left days-left--overdue"
           else if (n <=? 3)%Z then "days-left days-left--warning"
           else "days-left")
          (escapeHtml (Some (pretty n)))
    | None => DaysNone
    end.

(** *** The assignee rows *)

(** [refreshTaskAssigneeRowsOptions()]: every member select is refilled
    with the option values [members] and put back on its value, which
    sticks where it is still among the options. *)
Definition refreshTaskAssigneeRowsOptions (members : list string) (rows : list AssigneeRow)
  : list AssigneeRow :=
  map (fun row =>
         mkAssigneeRow
           (match row_sel row with
            | Some cur =>
                Some (if negb (String.eqb cur "") && existsb (String.eqb cur) members
                      then cur else "")
            | None => None
            end)
           (row_shareEl row) (row_leadEl row))
      rows.

(** [addTaskAssigneeRow()]: a row with an empty select, an empty share
    and a clear lead box is appended. *)
Definition addTaskAssigneeRow (members : list string) (rows : list AssigneeRow)
  : list AssigneeRow :=
  refreshTaskAssigneeRowsOptions members
    (rows ++ [mkAssigneeRow (Some "") (Some "") (Some false)])%list.

(** The Remove button of row [i]. *)
Definition removeTaskAssigneeRow (i : nat) (rows : list AssigneeRow) : list AssigneeRow :=
  delete i rows.

Definition with_lead (b : bool) (row : AssigneeRow) : AssigneeRow :=
  mkAssigneeRow (row_sel row) (row_shareEl row) (Some b).

(** A click on the lead box of row [i]: the browser flips the box, then
    its [onchange] handler clears every other box if this one is now
    ticked. *)
Definition clickLead (i : nat) (rows : list AssigneeRow) : list AssigneeRow :=
  match rows !! i with
  | Some row =>
      match row_leadEl row with
      | Some b =>
          let checked := negb b in
          let rows1 := <[i := with_lead checked row]> rows in
          if checked then
            imap (fun j r =>
                    if bool_decide (j = i) then r
                    else match row_leadEl r with
                         | Some _ => with_lead false r
                         | None => r
                         end)
                 rows1
          else rows1
      | None => rows
      end
  | None => rows
  end.

End Dashboard.

(** * Verification *)

Import Js Browser Api Auth Dashboard.
Open Scope js_scope.

(** ** Vocabulary of the statements *)

(** [c] leaves the component [f] of the world as it found it. *)
Definition keeps {A X} (f : World -> X) (c : M A) : Prop :=
  forall w, f (snd (c w)) = f w.

(** The request [apiRequest] builds in the world [w]. *)
Definition built (endpoint method : string) (data : option json) (useAuth : bool)
    (w : World) : Request :=
  match apiRequest_options endpoint method data useAuth w with
  | (Returned req, _) => req
  | (Thrown _, _) => mkRequest "" "" ∅ None
  end.

Definition built_form (endpoint method file : string) (w : World) : Request :=
  match apiRequestFormData_options endpoint method file w with
  | (Returned req, _) => req
  | (Thrown _, _) => mkRequest "" "" ∅ None
  end.

Definition admin_role (r : string) : bool :=
  String.eqb r "admin" || String.eqb r "division head".

Definition lead_role (r : string) : bool :=
  index_of r ["admin"; "division head"; "group head"; "team lead"; "project director"].

(** The role the permission checks read from storage. *)
Definition stored_role (w : World) : string :=
  toLowerCase (or_str (localStorage w !! "role") "member").

(** The role [getEffectiveRole] answers with. *)
Definition effective_role (w : World) : string :=
  match effectiveDisplayRole w with
  | Some r => toLowerCase r
  | None => stored_role w
  end.

(** The page after [setupRoleBasedUI]: the elements it has assigned. *)
Definition setup_dom (userRole : option string) (w : World) : gmap string Element :=
  let r := toLowerCase (or_str userRole "member") in
  let m1 :=
    alter (with_hidden (negb (lead_role r))) "task-closure-group"
      (alter (with_display (if lead_role r then "" else "none")) "remove-member-card"
         (alter (with_display (if admin_role r then "" else "none")) "delete-team-card"
            (alter (with_display "none") "member-section"
               (alter (with_display (if lead_role r then "" else "none")) "team-section"
                  (dom w))))) in
  let m2 :=
    if bool_decide (is_Some (dom w !! "users-section"))
    then alter (with_display (if admin_role r then "block" else "none")) "users-section" m1
    else m1 in
  let m3 :=
    if bool_decide (is_Some (dom w !! "task-multi-assign-wrap"))
       && bool_decide (is_Some (dom w !! "task-single-assign-wrap"))
    then
      let m30 :=
        alter (with_display "none") "task-share-wrap"
          (alter (with_display "none") "task-lead-wrap"
             (alter (with_display "none") "task-single-assign-wrap"
                (alter (with_display "none") "task-multi-assign-wrap" m2))) in
      if lead_role (effective_role w)
      then alter (with_display "block") "task-multi-assign-wrap" m30
      else if admin_role (stored_role w)
      then alter (with_display "") "task-share-wrap"
             (alter (with_display "") "task-lead-wrap"
                (alter (with_display "") "task-single-assign-wrap" m30))
      else m30
    else m2 in
  alter (with_display
           (if negb (admin_role (stored_role w)) && negb (lead_role (effective_role w))
            then "block" else "none"))
    "task-type-hint" m3.

(** *** What a callback may do to the stored role *)

Definition lowercase (v : string) : Prop := toLowerCase v = v.

(** The role key after a step: untouched, removed, or a lowercase string. *)
Definition role_kept_or_lowercase (w w' : World) : Prop :=
  localStorage w' !! "role" = localStorage w !! "role" \/
  localStorage w' !! "role" = None \/
  exists v, localStorage w' !! "role" = Some v /\ lowercase v.

Definition writes_lowercase {A} (c : M A) : Prop :=
  forall w, role_kept_or_lowercase w (snd (c w)).

(** The stored role replaced by [r]. *)
Definition with_stored_role (r : string) (w : World) : World :=
  set_localStorage (insert "role" r) w.

(** *** A session used in the examples *)

Definition dashboard_page : gmap string Element :=
  list_to_map (map (fun k => (k, blank_element))
    ["toast"; "user-role"; "team-section"; "member-section"; "delete-team-card";
     "remove-member-card"; "task-closure-group"; "users-section";
     "task-multi-assign-wrap"; "task-single-assign-wrap"; "task-lead-wrap";
     "task-share-wrap"; "task-type-hint"; "add-member-team"; "delete-team-select";
     "completion-proof-modal"; "completion-proof-task-id"; "completion-proof-file";
     "completion-proof-submit"]).

(** A browser on the login page of a LAN deployment, nothing stored. *)
Definition login_page : World :=
  mkWorld ∅ "192.168.1.100" "http:" "/index.html" None None false
    {[ "auth-msg" := blank_element ]} [] [] [].

Definition member_login : json :=
  JObj [("session_token", JStr "s1"); ("user_id", JNum 7); ("username", JStr "asha");
        ("role", JStr "Member")].

Definition lead_team : Team := mkTeam 1 "Avionics" (Some "Team Lead").

(** The answer to [GET /users/me] once the user has been made an admin. *)
Definition admin_answer : FetchResult :=
  Resolved (mkResponse 200 "OK" (Some "application/json")
    (Some (JObj [("id", JNum 7); ("username", JStr "asha"); ("role", JStr "Admin")]))).

(** A member has logged in and opened the dashboard. *)
Definition member_dashboard : World :=
  after [LoggedIn member_login; DashboardOpened dashboard_page] login_page.

(** A team lead on the dashboard, and the same with an upper-case role. *)
Definition lead_world : World :=
  mkWorld {[ "session_token" := "s1"; "role" := "team lead" ]}
    "192.168.1.100" "http:" "/dashboard.html" None (Some "team lead") false
    dashboard_page [] [] [].

Definition lead_world_upper : World :=
  mkWorld {[ "session_token" := "s1"; "role" := "Team Lead" ]}
    "192.168.1.100" "http:" "/dashboard.html" None (Some "TEAM LEAD") false
    dashboard_page [] [] [].

(** [c] adds to the requests sent only requests that satisfy [P]. *)
Definition sends {A} (P : Request -> Prop) (c : M A) : Prop :=
  forall w, exists new, sent (snd (c w)) = (sent w ++ new)%list /\ Forall P new.

Definition no_token (req : Request) : Prop := headers req !! "X-Session-Token" = None.

Definition logged_in_world : World :=
  mkWorld {[ "session_token" := "s1"; "role" := "member" ]}
    "192.168.1.100" "http:" "/dashboard.html" None None false
    dashboard_page [] [] [].

(** The [result] both request functions read off a response: the parsed
    body when the content type is JSON ([None] when parsing rejects), the
    status text wrapped as a detail otherwise. *)
Definition result_of (response : Response) : option json :=
  match contentType response with
  | Some ct =>
      if negb (String.eqb ct "") && includes "application/json" ct
      then payload response
      else Some (JObj [("detail", JStr (or_str (Some (statusText response)) "Request failed"))])
  | None => Some (JObj [("detail", JStr (or_str (Some (statusText response)) "Request failed"))])
  end.

(** What is thrown on a 401 whose body reads as [result]. *)
Definition expired (result : json) : Exn :=
  match prop result "detail" with
  | Some detail => Error (if truthy_val detail then ToString_val detail else "Session expired")
  | None => null_property
  end.

(** What is thrown on another failed status whose body reads as [result]. *)
Definition failure (result : json) : Exn :=
  match prop result "detail" with
  | Some detail =>
      Error (if truthy_val detail then ToString_val detail
             else match detail with
                  | Some (JStr d) => d
                  | _ => JSON_stringify result
                  end)
  | None => null_property
  end.

(** Storage with the four session keys removed. *)
Definition cleared (storage : gmap string string) : gmap string string :=
  delete "role" (delete "username" (delete "user_id" (delete "session_token" storage))).

(** The world after the 401 branch. *)
Definition signed_out (w : World) : World :=
  let w1 := set_localStorage cleared w in
  if includes "dashboard" (pathname w) then set_href (Some "index.html") w1 else w1.

(** Answers used in the examples. *)
Definition expired_401 : Response :=
  mkResponse 401 "Unauthorized" (Some "application/json")
    (Some (JObj [("detail", JStr "Invalid or expired session")])).

Definition unreadable_401 : Response :=
  mkResponse 401 "Unauthorized" (Some "application/json") None.

Definition bare_401 : Response :=
  mkResponse 401 "Unauthorized" (Some "application/json") (Some (JObj [])).

Definition unreadable_200 : Response :=
  mkResponse 200 "OK" (Some "application/json") None.

Definition bare_500 : Response :=
  mkResponse 500 "Internal Server Error" (Some "application/json") (Some (JObj [])).

Definition tasks_200 : Response :=
  mkResponse 200 "OK" (Some "application/json") (Some (JArr [])).

Definition refused_400 : Response :=
  mkResponse 400 "Bad Request" (Some "application/json")
    (Some (JObj [("detail", JStr "Team has members")])).

(** The logged-in member about to receive [r]. *)
Definition receiving (r : Response) : World := set_network [Resolved r] logged_in_world.

(** The value of the script constant [BASE_URL] in [w]. *)
Definition base_of (w : World) : string :=
  match BASE_URL w with
  | (Returned b, _) => b
  | (Thrown _, _) => ""
  end.

(** The toast element after [showToast]. *)
Definition toasted (msg : string) (isError : bool) (el : Element) : Element :=
  with_hidden false
    (with_className ("toast " ++ (if isError then "error" else "success"))
       (with_textContent msg el)).

(** The text of the select of the delete-team card, as sent in the URL. *)
Definition team_id_text (v : string) : string :=
  match parseInt v with
  | Some n => pretty n
  | None => "NaN"
  end.

(** The four status entries of the drop-down of [t]. *)
Definition status_entries (t : Task) : list SelectOption :=
  [mkOption "To Do" "To Do" (bool_decide (Dashboard.status t = Some "To Do")) false;
   mkOption "In Progress" "In Progress" (bool_decide (Dashboard.status t = Some "In Progress")) false;
   mkOption "Pending Completion" "Pending"
     (bool_decide (Dashboard.status t = Some "Pending Completion")) false;
   mkOption "Completed" "Completed" (bool_decide (Dashboard.status t = Some "Completed")) false].

Definition status_values : list string :=
  ["To Do"; "In Progress"; "Pending Completion"; "Completed"].

(** The status select [loadTasks] renders for [t], if the row renders. *)
Definition status_control (today : Today) (t : Task) (w : World) : option ActionSelect :=
  match loadTasks_row today t w with
  | (Returned row, _) => Some (fst (row_actions row))
  | (Thrown _, _) => None
  end.

(** The buttons beside the status of [t]. *)
Definition status_buttons (today : Today) (t : Task) (w : World) : list StatusButton :=
  match loadTasks_row today t w with
  | (Returned row, _) => row_statusExtraBtns row
  | (Thrown _, _) => []
  end.

Definition admin_world : World :=
  mkWorld {[ "session_token" := "s2"; "user_id" := "1"; "role" := "admin" ]}
    "192.168.1.100" "http:" "/dashboard.html" None None false
    dashboard_page [] [] [].

(** 3 November 2026, a Tuesday. *)
Definition a_tuesday : Today := mkToday 2026 10 3.

Definition pending_task : Task :=
  mkTask 7 (Some 2%Z) (Some "Pending Completion") (Some "2026-11-10") (Some 5%Z) (Some "asha")
    false (Some "pending") (Some 11%Z) None None None None None None.

Definition todo_task : Task :=
  mkTask 8 (Some 2%Z) (Some "To Do") (Some "2026-11-10") (Some 5%Z) (Some "asha")
    false None None None None None None None None.

(** The admin has chosen team 3 in the delete-team card; the server will
    refuse. *)
Definition team_selected : World :=
  mkWorld {[ "session_token" := "s2"; "user_id" := "1"; "role" := "admin" ]}
    "192.168.1.100" "http:" "/dashboard.html" None (Some "admin") false
    (<[ "delete-team-select" := with_value "3" blank_element ]> dashboard_page)
    [Resolved refused_400] [] [].

(** The extension button [loadTasks] renders for [t]. *)
Definition ext_button (t : Task) (w : World) : option ExtButton :=
  match extCellHtml t w with
  | (Returned btn, _) => Some btn
  | (Thrown _, _) => None
  end.

(** A click on the button opens a new extension request. *)
Definition opens (btn : ExtButton) : Prop :=
  exists taskId due, In (AOpenExtensionRequest taskId due) (extBtnAttrs btn).

(** A click on the button starts the review of the pending request. *)
Definition reviews (btn : ExtButton) : Prop :=
  exists requestId taskId, In (AReviewExtensionRequest requestId taskId) (extBtnAttrs btn).

Definition is_disabled (btn : ExtButton) : Prop := In ADisabled (extBtnAttrs btn).

(** No extension cycle is running: the status is absent (or empty),
    approved or rejected. *)
Definition extension_settled (t : Task) : Prop :=
  truthy_str (extension_status t) = false \/
  extension_status t = Some "approved" \/
  extension_status t = Some "rejected".

Definition extension_pending_task : Task :=
  mkTask 9 (Some 2%Z) (Some "In Progress") (Some "2026-11-10") (Some 5%Z) (Some "asha")
    false None None (Some "pending") (Some "vendor delay") (Some "2026-11-20") (Some 4%Z)
    None None.

(** Monday to Friday, on day numbers. *)
Definition is_weekday (day : Z) : bool :=
  negb (getUTCDay day =? 0)%Z && negb (getUTCDay day =? 6)%Z.

(** The number of weekdays among the days [a], ..., [b - 1]. *)
Definition weekdays (a b : Z) : Z :=
  Z.of_nat (length (List.filter is_weekday (seqZ a (b - a)))).

(** The three numbers [computeWorkingDaysLeft] reads in a string. *)
Definition parsed (s : string) : option (Z * Z * Z) :=
  match split "-" s with
  | [p0; p1; p2] =>
      match parseInt p0, parseInt p1, parseInt p2 with
      | Some year, Some month, Some day => Some (year, month, day)
      | _, _, _ => None
      end
  | _ => None
  end.

(** The day number of today. *)
Definition today_utc (today : Today) : option Z :=
  Date_UTC (getFullYear today) (getMonth today) (getDate today).

(** A non-empty run of decimal digits. *)
Definition all_digits (s : string) : bool :=
  negb (String.eqb s "") && forallb is_digit (list_ascii_of_string s).

(** The three-part numeric form, as the specification words it: three
    runs of digits separated by hyphens. *)
Definition spec_numeric_form (s : string) : bool :=
  match split "-" s with
  | [a; b; c] => all_digits a && all_digits b && all_digits c
  | _ => false
  end.

(** The role key holds nothing, or a lowercase string. *)
Definition role_lowercase (w : World) : Prop :=
  forall v, localStorage w !! "role" = Some v -> lowercase v.

(** The role of an [OwnRoleSet] event is one a quick button passes. *)
Definition from_button (e : Event) : Prop :=
  match e with
  | OwnRoleSet _ newRole => exists role label, In (label, newRole) (renderUsers_buttons role)
  | _ => True
  end.

(** ** Vocabulary of the further properties *)

(** What [apiRequest] makes of the answer [response] in the world [w],
    the request already sent. *)
Definition settle_result (response : Response) (w : World) : Result json * World :=
  match result_of response with
  | None => (Thrown bad_json, w)
  | Some result =>
      if (Browser.status response =? 401)%Z then (Thrown (expired result), signed_out w)
      else if ok response then (Returned result, w)
      else (Thrown (failure result), w)
  end.

(** The world once [req] has gone out and the network has answered. *)
Definition requested (req : Request) (w : World) : World :=
  set_network (tail (network w)) (set_sent (fun l => (l ++ [req])%list) w).

Definition gateway_502 : Response := mkResponse 502 "Bad Gateway" (Some "text/html") None.

(** The message element after [showAuthMsg]. *)
Definition auth_msg (text : string) (isError : bool) (el : Element) : Element :=
  with_hidden false
    (with_className ("auth-msg " ++ (if isError then "error" else "success"))
       (with_textContent text el)).

(** The body [login] posts for what the two inputs hold. *)
Definition login_data (u p : Element) : json :=
  JObj [("username", JStr (trim (value u))); ("password", JStr (value p))].

(** [(role || "member").toLowerCase()] on a property of the answer;
    [None] where the role is truthy and no string. *)
Definition server_role (role : jsval) : option string :=
  match role with
  | Some (JStr s) => Some (toLowerCase (or_str (Some s) "member"))
  | Some r => if truthy r then None else Some "member"
  | None => Some "member"
  end.

(** Storage after a login that the answer [fields] lets in. *)
Definition logged_in (username : string) (fields : list (string * json)) (role : string)
    (storage : gmap string string) : gmap string string :=
  <["role" := role]>
    (<["username" := if truthy_val (assoc "username" fields)
                     then ToString_val (assoc "username" fields) else username]>
       (<["user_id" := ToString_val (assoc "user_id" fields)]>
          (<["session_token" := ToString_val (assoc "session_token" fields)]> storage))).

(** The answer carries a session token. *)
Definition carries_token (result : json) : bool :=
  match prop result "session_token" with
  | Some v => truthy_val v
  | None => false
  end.

Definition filled_login : World :=
  mkWorld ∅ "192.168.1.100" "http:" "/index.html" None None false
    {[ "auth-msg" := blank_element;
       "username" := with_value " asha " blank_element;
       "password" := with_value "s3cret" blank_element ]} [] [] [].

Definition login_ok : Response :=
  mkResponse 200 "OK" (Some "application/json")
    (Some (JObj [("session_token", JStr "s1"); ("user_id", JNum 7); ("role", JStr "Team Lead")])).

Definition answered_login : World := set_network [Resolved login_ok] filled_login.

(** The body [signup] posts for what the three inputs hold. *)
Definition signup_data (u p r : Element) : json :=
  JObj [("username", JStr (trim (value u))); ("password", JStr (value p));
        ("role", JStr (if String.eqb (value r) "Admin" then "admin" else "member"))].

(** The inputs let [signup] go on to its request. *)
Definition signup_filled (u p : Element) : bool :=
  negb (String.eqb (trim (value u)) "") && negb (String.eqb (value p) "")
  && negb (String.eqb (toLowerCase (trim (value u))) (toLowerCase (value p))).

(** The inputs let [resetPassword] go on to its request. *)
Definition reset_password_filled (id name new confirm : Element) : bool :=
  negb (bad_id (parseInt (value id)))
  && negb (String.eqb (trim (value name)) "") && negb (String.eqb (value new) "")
  && negb (String.eqb (value confirm) "")
  && String.eqb (value new) (value confirm).

(** The inputs let [resetUsername] go on to its request. *)
Definition reset_username_filled (id pw name : Element) : bool :=
  negb (bad_id (parseInt (value id)))
  && negb (String.eqb (value pw) "") && negb (String.eqb (trim (value name)) "").

Definition login_refused : Response :=
  mkResponse 401 "Unauthorized" (Some "application/json")
    (Some (JObj [("detail", JStr "Invalid username or password")])).

Definition filled_signup : World :=
  mkWorld ∅ "192.168.1.100" "http:" "/index.html" None None false
    {[ "auth-msg" := blank_element;
       "reg-username" := with_value "asha" blank_element;
       "reg-password" := with_value "s3cret" blank_element;
       "reg-role" := with_value "Division Head" blank_element ]} [] [] [].

Definition filled_reset : World :=
  mkWorld ∅ "192.168.1.100" "http:" "/index.html" None None false
    {[ "auth-msg" := blank_element;
       "reset-password-user-id" := with_value "7" blank_element;
       "reset-password-username" := with_value "asha" blank_element;
       "reset-new-password" := with_value "n3w" blank_element;
       "reset-new-password-confirm" := with_value "n3w" blank_element ]} [] [] [].

(** The role the user has in the team is one of the three leading team
    roles. *)
Definition team_privileged (t : Team) : bool :=
  index_of (trim (toLowerCase (or_str (user_role t) "")))
    ["project director"; "group head"; "team lead"].

(** The working days left on day [t] for a task due on day [u]. *)
Definition days_left (t u : Z) : Z :=
  if (t =? u)%Z then 0%Z else if (t <? u)%Z then weekdays t u else (- weekdays u t)%Z.

(** What a caller of [apiRequest] gets for the answer [response]: the
    value, or what is thrown. *)
Definition answer_of (response : Response) : Result json :=
  match result_of response with
  | None => Thrown bad_json
  | Some result =>
      if (Browser.status response =? 401)%Z then Thrown (expired result)
      else if ok response then Returned result
      else Thrown (failure result)
  end.

(** The same, by what the network holds for the request. *)
Definition outcome (net : list FetchResult) : Result json :=
  match net with
  | Resolved response :: _ => answer_of response
  | _ => Thrown fetch_failed
  end.

Definition proof_chosen : World :=
  mkWorld {[ "session_token" := "s1"; "role" := "member" ]}
    "192.168.1.100" "http:" "/dashboard.html" None None false
    (<[ "completion-proof-task-id" := with_value "7" blank_element ]>
       (<[ "completion-proof-file" := with_files ["proof.pdf"] blank_element ]>
          (<[ "completion-proof-submit" := blank_element ]> dashboard_page)))
    [Resolved bare_500] [] [].

(** No character of [s] can end or split a parameter of a query string:
    each is kept by [encodeURIComponent] or is the percent sign. *)
Definition query_safe (s : string) : Prop :=
  Forall (fun c => uri_unreserved c = true \/ c = "%"%char) (list_ascii_of_string s).

(** The request [logout] sends for the token [token]. *)
Definition logout_request (token : string) (w : World) : Request :=
  mkRequest (base_of w ++ "/logout?session_token=" ++ encodeURIComponent token) "POST" ∅ None.

Definition naming_team : World :=
  mkWorld {[ "session_token" := "s2"; "user_id" := "1"; "role" := "admin" ]}
    "192.168.1.100" "http:" "/dashboard.html" None (Some "admin") false
    (<[ "team-name" := with_value "  Avionics " blank_element ]> dashboard_page)
    [Resolved refused_400] [] [].

(** The role [addMemberToTeam] reads from the page. *)
Definition member_role (w : World) : string :=
  match dom w !! "add-member-role" with
  | Some e => value e
  | None => "Member"
  end.

Definition adding_member : World :=
  mkWorld {[ "session_token" := "s2"; "user_id" := "1"; "role" := "admin" ]}
    "192.168.1.100" "http:" "/dashboard.html" None (Some "admin") false
    (<[ "add-member-team" := with_value "3" blank_element ]>
       (<[ "add-member-user" := with_value "7" blank_element ]>
          (<[ "add-member-role" := with_value "Team Lead&admin=1" blank_element ]>
             dashboard_page)))
    [] [] [].

(** The value of an input that may be missing. *)
Definition value_or_empty (w : World) (id : string) : string :=
  match dom w !! id with
  | Some e => value e
  | None => ""
  end.

(** The assignees [createTask] takes from the rows in the world [w]. *)
Definition task_assignees (rows : option (list AssigneeRow)) (w : World) : list Assignment :=
  if lead_role (effective_role w) then getTaskAssigneesFromRows rows else [].

(** The payload [createTask] builds in the world [w]. *)
Definition task_payload (rows : option (list AssigneeRow)) (w : World) : list (string * json) :=
  createTask_payload (value_or_empty w "task-team") (value_or_empty w "task-activity")
    (trim (value_or_empty w "task-title")) (trim (value_or_empty w "task-desc"))
    (value_or_empty w "task-priority") (value_or_empty w "task-due")
    (value_or_empty w "task-assignee") (value_or_empty w "task-lead")
    (value_or_empty w "task-share") (value_or_empty w "task-closure")
    (match dom w !! "task-type" with
     | Some e => or_str (Some (value e)) "Normal"
     | None => "Normal"
     end)
    (task_assignees rows w).

(** The six inputs [createTask] reads without a test are on the page. *)
Definition task_form (w : World) : Prop :=
  is_Some (dom w !! "task-team") /\ is_Some (dom w !! "task-activity") /\
  is_Some (dom w !! "task-title") /\ is_Some (dom w !! "task-desc") /\
  is_Some (dom w !! "task-priority") /\ is_Some (dom w !! "task-due").

Definition two_rows : list AssigneeRow :=
  [mkAssigneeRow (Some "7") (Some "250") (Some true);
   mkAssigneeRow (Some "") (Some "40") (Some false)].

(** The lead box of a row is ticked. *)
Definition ticked (row : AssigneeRow) : bool :=
  match row_leadEl row with
  | Some true => true
  | _ => false
  end.

(** What happens to the assignee list between two submissions: the
    handlers of dashboard.js, and the edits of the user, which run no
    handler. *)
Inductive RowEvent :=
| AddRow                                  (* the Add button: addTaskAssigneeRow *)
| RemoveRow (i : nat)                     (* the Remove button of row i *)
| ClickLead (i : nat)                     (* a click on the lead box of row i *)
| MembersLoaded (members : list string)   (* loadTeamMembersForAssignee answered *)
| ChooseMember (i : nat) (v : string)     (* the user picks an option of the select *)
| TypeShare (i : nat) (v : string)        (* the user types into the share input *)
| ListCleared.                            (* createTask succeeded *)

(** [_taskAssigneesMembers] (the option values) and the rows. *)
Definition row_step (st : list string * list AssigneeRow) (e : RowEvent)
  : list string * list AssigneeRow :=
  let (members, rows) := st in
  match e with
  | AddRow => (members, addTaskAssigneeRow members rows)
  | RemoveRow i => (members, removeTaskAssigneeRow i rows)
  | ClickLead i => (members, clickLead i rows)
  | MembersLoaded ms => (ms, refreshTaskAssigneeRowsOptions ms rows)
  | ChooseMember i v =>
      (members,
       match rows !! i with
       | Some row =>
           if String.eqb v "" || existsb (String.eqb v) members
           then <[i := mkAssigneeRow (Some v) (row_shareEl row) (row_leadEl row)]> rows
           else rows
       | None => rows
       end)
  | TypeShare i v =>
      (members,
       match rows !! i with
       | Some row => <[i := mkAssigneeRow (row_sel row) (Some v) (row_leadEl row)]> rows
       | None => rows
       end)
  | ListCleared => (members, [])
  end.

Definition leads (rows : list AssigneeRow) : nat := length (List.filter ticked rows).

(** A page with the task form filled in by a team lead, and one row of
    the assignee list. *)
Definition task_form_filled : World :=
  mkWorld {[ "session_token" := "s2"; "user_id" := "1"; "role" := "Team Lead" ]}
    "192.168.1.100" "http:" "/dashboard.html" None None false
    (<[ "task-team" := with_value "3" blank_element ]>
       (<[ "task-activity" := blank_element ]>
          (<[ "task-title" := with_value "  Order pumps " blank_element ]>
             (<[ "task-desc" := blank_element ]>
                (<[ "task-priority" := with_value "High" blank_element ]>
                   (<[ "task-due" := blank_element ]>
                      (<[ "task-assignee" := with_value "9" blank_element ]>
                         dashboard_page)))))))
    [] [] [].

(** No hyphen in [s]. *)
Definition no_hyphen (s : string) : bool :=
  forallb (fun c => negb (Ascii.eqb c "-")) (list_ascii_of_string s).

(** A calendar date of the years 0 to 9999. *)
Definition calendar_date (today : Today) : Prop :=
  (0 <= getFullYear today <= 9999 /\ 0 <= getMonth today <= 11 /\
   1 <= getDate today <= 31)%Z.

(** Monday 2 November 2026; the task was due on Saturday 31 October. *)
Definition a_monday : Today := mkToday 2026 10 2.

(** How often the character [c] occurs in [s]. *)
Fixpoint occurrences (c : ascii) (s : string) : nat :=
  match s with
  | EmptyString => 0
  | String d r => (if Ascii.eqb c d then 1 else 0) + occurrences c r
  end.

(** The double and the single quote. *)
Definition is_quote (c : ascii) : Prop := c = ascii_of_nat 34 \/ c = ascii_of_nat 39.

(** A message typed into the chat of activity 12; the server will refuse
    it. *)
Definition typing_in_chat : World :=
  mkWorld {[ "session_token" := "s2"; "user_id" := "1"; "role" := "member" ]}
    "192.168.1.100" "http:" "/dashboard.html" None None true
    (<[ "chat-input" := with_value " Pumps ordered " blank_element ]> dashboard_page)
    [Resolved refused_400] [] [].

(** ** What a callback leaves alone *)

Lemma lower_ascii_idem c : lower_ascii (lower_ascii c) = lower_ascii c.
Proof. destruct c as [[] [] [] [] [] [] [] []]; reflexivity. Qed.

Lemma toLowerCase_idem s : toLowerCase (toLowerCase s) = toLowerCase s.
Proof. induction s as [|c s IH]; simpl; [done|]. by rewrite lower_ascii_idem, IH. Qed.

Lemma keeps_bind {A B X} (f : World -> X) (c : M A) (k : A -> M B) :
  keeps f c -> (forall a, keeps f (k a)) -> keeps f (bind c k).
Proof.
  intros Hc Hk w. unfold bind. specialize (Hc w).
  destruct (c w) as [[a|e] w1]; simpl in *; [rewrite Hk|]; done.
Qed.

Lemma keeps_catch {A X} (f : World -> X) (c : M A) (h : Exn -> M A) :
  keeps f c -> (forall e, keeps f (h e)) -> keeps f (catch c h).
Proof.
  intros Hc Hh w. unfold catch. specialize (Hc w).
  destruct (c w) as [[a|e] w1]; simpl in *; [|rewrite Hh]; done.
Qed.

Lemma keeps_finally {A X} (f : World -> X) (c : M A) (g : M unit) :
  keeps f c -> keeps f g -> keeps f (finally c g).
Proof.
  intros Hc Hg w. unfold finally. specialize (Hc w).
  destruct (c w) as [r w1]; simpl in *. specialize (Hg w1).
  destruct (g w1) as [[[]|e] w2]; simpl in *; congruence.
Qed.

Lemma keeps_when {X} (f : World -> X) b (c : M unit) :
  keeps f c -> keeps f (when b c).
Proof. intros Hc. destruct b; simpl; [done|]. by intros w. Qed.

Ltac keeps_step :=
  first
    [ apply keeps_bind; [|intros ?]
    | apply keeps_catch; [|intros ?]
    | apply keeps_finally
    | apply keeps_when
    | (intros ?; reflexivity)
    | match goal with
      | |- keeps _ (if ?b then _ else _) => destruct b
      | |- keeps _ (match ?x with _ => _ end) => destruct x
      end ].

Ltac keeps := repeat keeps_step.

Lemma showToast_storage m e : keeps localStorage (showToast m e).
Proof. unfold showToast. keeps. Qed.

Lemma setup_storage r : keeps localStorage (setupRoleBasedUI r).
Proof. unfold setupRoleBasedUI, canUseMultiAssign, canAssignTask, getEffectiveRole. keeps. Qed.

Lemma setup_sent r : keeps sent (setupRoleBasedUI r).
Proof. unfold setupRoleBasedUI, canUseMultiAssign, canAssignTask, getEffectiveRole. keeps. Qed.

(** ** Requests: what is built and what is sent *)

Lemma apiRequest_options_run e m d u w :
  apiRequest_options e m d u w = (Returned (built e m d u w), w).
Proof.
  unfold built, apiRequest_options, bind, ret, getSessionToken, getItem, gets, BASE_URL.
  destruct u; reflexivity.
Qed.

Lemma apiRequestFormData_options_run e m f w :
  apiRequestFormData_options e m f w = (Returned (built_form e m f w), w).
Proof. reflexivity. Qed.

Lemma fetch_sent req w : sent (snd (fetch req w)) = (sent w ++ [req])%list.
Proof. unfold fetch. destruct (network w) as [|[|r] rest]; reflexivity. Qed.

Lemma fetch_keeps_storage req : keeps localStorage (fetch req).
Proof. intros w. unfold fetch. destruct (network w) as [|[|r] rest]; reflexivity. Qed.

Lemma fetch_keeps_dom req : keeps dom (fetch req).
Proof. intros w. unfold fetch. destruct (network w) as [|[|r] rest]; reflexivity. Qed.

Lemma fetch_keeps_calls req : keeps calls (fetch req).
Proof. intros w. unfold fetch. destruct (network w) as [|[|r] rest]; reflexivity. Qed.

Lemma fetch_keeps_eff req : keeps effectiveDisplayRole (fetch req).
Proof. intros w. unfold fetch. destruct (network w) as [|[|r] rest]; reflexivity. Qed.

Lemma fetch_keeps_path req : keeps pathname (fetch req).
Proof. intros w. unfold fetch. destruct (network w) as [|[|r] rest]; reflexivity. Qed.

Lemma get_prop_keeps {X} (f : World -> X) v k : keeps f (get_prop v k).
Proof. unfold get_prop. keeps. Qed.

Lemma settle_keeps_sent r : keeps sent (apiRequest_settle r).
Proof. unfold apiRequest_settle, get_prop. keeps. Qed.

Lemma settle_keeps_dom r : keeps dom (apiRequest_settle r).
Proof. unfold apiRequest_settle, get_prop. keeps. Qed.

Lemma settle_keeps_calls r : keeps calls (apiRequest_settle r).
Proof. unfold apiRequest_settle, get_prop. keeps. Qed.

Lemma settle_keeps_eff r : keeps effectiveDisplayRole (apiRequest_settle r).
Proof. unfold apiRequest_settle, get_prop. keeps. Qed.

Lemma settle_form_keeps_sent r : keeps sent (apiRequestFormData_settle r).
Proof. unfold apiRequestFormData_settle, get_prop. keeps. Qed.

(** One call of [apiRequest] is one [fetch], whatever comes back. *)
Lemma apiRequest_sent e m d u w :
  sent (snd (apiRequest e m d u w)) = (sent w ++ [built e m d u w])%list.
Proof.
  unfold apiRequest, bind. rewrite apiRequest_options_run.
  pose proof (fetch_sent (built e m d u w) w) as Hf.
  destruct (fetch (built e m d u w) w) as [[r|x] w1]; simpl in *; [|done].
  by rewrite settle_keeps_sent.
Qed.

Lemma apiRequestFormData_sent e m f w :
  sent (snd (apiRequestFormData e m f w)) = (sent w ++ [built_form e m f w])%list.
Proof.
  unfold apiRequestFormData, bind. rewrite apiRequestFormData_options_run.
  pose proof (fetch_sent (built_form e m f w) w) as Hf.
  destruct (fetch (built_form e m f w) w) as [[r|x] w1]; simpl in *; [|done].
  by rewrite settle_form_keeps_sent.
Qed.

Lemma apiRequest_keeps_dom e m d u : keeps dom (apiRequest e m d u).
Proof.
  unfold apiRequest. apply keeps_bind; [intros w; by rewrite apiRequest_options_run|intros req].
  apply keeps_bind; [apply fetch_keeps_dom|intros r; apply settle_keeps_dom].
Qed.

Lemma apiRequest_keeps_calls e m d u : keeps calls (apiRequest e m d u).
Proof.
  unfold apiRequest. apply keeps_bind; [intros w; by rewrite apiRequest_options_run|intros req].
  apply keeps_bind; [apply fetch_keeps_calls|intros r; apply settle_keeps_calls].
Qed.

Lemma apiRequest_keeps_eff e m d u : keeps effectiveDisplayRole (apiRequest e m d u).
Proof.
  unfold apiRequest. apply keeps_bind; [intros w; by rewrite apiRequest_options_run|intros req].
  apply keeps_bind; [apply fetch_keeps_eff|intros r; apply settle_keeps_eff].
Qed.

(** A request followed by callbacks that send nothing sends once. *)
Lemma request_once {A} e m d u (k : json -> M A) (h : Exn -> M A) w :
  (forall x, keeps sent (k x)) -> (forall x, keeps sent (h x)) ->
  sent (snd (catch (x <- apiRequest e m d u ;; k x) h w)) = (sent w ++ [built e m d u w])%list.
Proof.
  intros Hk Hh. unfold catch, bind.
  pose proof (apiRequest_sent e m d u w) as Hs.
  destruct (apiRequest e m d u w) as [[x|x] w1]; simpl in *.
  - specialize (Hk x w1). destruct (k x w1) as [[a|y] w2]; simpl in *.
    + congruence.
    + rewrite Hh. congruence.
  - rewrite Hh. congruence.
Qed.

(** ** The permission checks and the role-based sections *)

Lemma getEffectiveRole_run w : getEffectiveRole w = (Returned (effective_role w), w).
Proof.
  unfold getEffectiveRole, effective_role, stored_role, bind, gets, getItem, ret.
  by destruct (effectiveDisplayRole w).
Qed.

Lemma isUserAdmin_run w : isUserAdmin w = (Returned (admin_role (stored_role w)), w).
Proof. reflexivity. Qed.

Lemma canAssignTask_run w : canAssignTask w = (Returned (admin_role (stored_role w)), w).
Proof. reflexivity. Qed.

Lemma canUseMultiAssign_run w :
  canUseMultiAssign w = (Returned (lead_role (effective_role w)), w).
Proof. unfold canUseMultiAssign, bind. by rewrite getEffectiveRole_run. Qed.

Lemma effective_role_set_dom f w : effective_role (set_dom f w) = effective_role w.
Proof. reflexivity. Qed.

Lemma effective_role_set_calls f w : effective_role (set_calls f w) = effective_role w.
Proof. reflexivity. Qed.

Lemma stored_role_set_dom f w : stored_role (set_dom f w) = stored_role w.
Proof. reflexivity. Qed.

Lemma stored_role_set_calls f w : stored_role (set_calls f w) = stored_role w.
Proof. reflexivity. Qed.

Lemma lead_role_create r :
  admin_role r || String.eqb r "team lead" || String.eqb r "project director"
  || String.eqb r "group head" = lead_role r.
Proof.
  unfold admin_role, lead_role, index_of; simpl.
  destruct (String.eqb r "admin"), (String.eqb r "division head"), (String.eqb r "team lead"),
    (String.eqb r "project director"), (String.eqb r "group head"); reflexivity.
Qed.

Lemma lead_role_remove r :
  admin_role r || String.eqb r "project director" || String.eqb r "group head"
  || String.eqb r "team lead" = lead_role r.
Proof.
  unfold admin_role, lead_role, index_of; simpl.
  destruct (String.eqb r "admin"), (String.eqb r "division head"), (String.eqb r "team lead"),
    (String.eqb r "project director"), (String.eqb r "group head"); reflexivity.
Qed.

Lemma lead_role_closure r :
  (if String.eqb r "team lead" || String.eqb r "group head" || String.eqb r "project director"
      || String.eqb r "division head" || String.eqb r "admin" then false else true)
  = negb (lead_role r).
Proof.
  unfold admin_role, lead_role, index_of; simpl.
  destruct (String.eqb r "admin"), (String.eqb r "division head"), (String.eqb r "team lead"),
    (String.eqb r "project director"), (String.eqb r "group head"); reflexivity.
Qed.

Lemma admin_is_lead r : admin_role r = true -> lead_role r = true.
Proof.
  unfold admin_role, lead_role, index_of; simpl.
  destruct (String.eqb r "admin"), (String.eqb r "division head"); simpl; intros; done.
Qed.

Lemma setupRoleBasedUI_run userRole w :
  exists w',
    setupRoleBasedUI userRole w = (Returned tt, w') /\
    dom w' = setup_dom userRole w /\
    localStorage w' = localStorage w /\
    effectiveDisplayRole w' = effectiveDisplayRole w /\
    sent w' = sent w.
Proof.
  unfold setupRoleBasedUI, setup_dom.
  set (r := toLowerCase (or_str userRole "member")).
  fold (admin_role r).
  rewrite lead_role_create, lead_role_remove, lead_role_closure.
  generalize (lead_role r) (admin_role r). intros lr ar.
  unfold bind, update, modify, getElementById, gets, when, ret.
  cbn [fst snd dom set_dom set_calls].
  rewrite !lookup_alter_ne by done.
  destruct (bool_decide (is_Some (dom w !! "users-section"))); [destruct ar|];
    unfold call, modify, bind, ret; cbn [fst snd dom set_dom set_calls];
    rewrite !lookup_alter_ne by done;
    destruct (bool_decide (is_Some (dom w !! "task-multi-assign-wrap")));
    destruct (bool_decide (is_Some (dom w !! "task-single-assign-wrap")));
    repeat (cbn [fst snd dom set_dom set_calls andb negb];
            rewrite ?canUseMultiAssign_run, ?canAssignTask_run;
            repeat first [rewrite effective_role_set_dom | rewrite effective_role_set_calls
                         | rewrite stored_role_set_dom | rewrite stored_role_set_calls];
            try match goal with
                | |- context [(if ?b then _ else _) ?x] => destruct b eqn:?
                end);
    (eexists; split; [reflexivity|];
     cbn [dom set_dom set_calls localStorage effectiveDisplayRole sent negb andb];
     repeat match goal with
            | H : _ = true |- _ => rewrite ?H; clear H
            | H : _ = false |- _ => rewrite ?H; clear H
            end;
     repeat split).
Qed.

Lemma setup_dom_sections userRole w :
  let r := toLowerCase (or_str userRole "member") in
  let m := setup_dom userRole w in
  m !! "team-section"
    = with_display (if lead_role r then "" else "none") <$> dom w !! "team-section" /\
  m !! "delete-team-card"
    = with_display (if admin_role r then "" else "none") <$> dom w !! "delete-team-card" /\
  m !! "remove-member-card"
    = with_display (if lead_role r then "" else "none") <$> dom w !! "remove-member-card" /\
  m !! "task-closure-group"
    = with_hidden (negb (lead_role r)) <$> dom w !! "task-closure-group" /\
  m !! "users-section"
    = with_display (if admin_role r then "block" else "none") <$> dom w !! "users-section".
Proof.
  intros r m. subst m. unfold setup_dom. fold r. cbv zeta.
  generalize (lead_role r) (admin_role r)
    (lead_role (effective_role w)) (admin_role (stored_role w)). intros lr ar le sa.
  destruct (bool_decide (is_Some (dom w !! "users-section"))) eqn:Hus;
  destruct (bool_decide (is_Some (dom w !! "task-multi-assign-wrap")));
  destruct (bool_decide (is_Some (dom w !! "task-single-assign-wrap")));
  destruct le, sa; cbn [andb];
  repeat split;
  repeat first [rewrite lookup_alter_ne by done | rewrite lookup_alter_eq];
  try reflexivity.
  all: apply bool_decide_eq_false in Hus; rewrite <- eq_None_not_Some in Hus;
    rewrite Hus; reflexivity.
Qed.

Lemma setup_dom_assign userRole w :
  is_Some (dom w !! "task-multi-assign-wrap") ->
  is_Some (dom w !! "task-single-assign-wrap") ->
  let m := setup_dom userRole w in
  m !! "task-multi-assign-wrap"
    = with_display (if lead_role (effective_role w) then "block" else "none")
        <$> dom w !! "task-multi-assign-wrap" /\
  m !! "task-single-assign-wrap"
    = with_display (if negb (lead_role (effective_role w)) && admin_role (stored_role w)
                    then "" else "none")
        <$> dom w !! "task-single-assign-wrap".
Proof.
  intros Hm Hs m. subst m. unfold setup_dom. cbv zeta.
  rewrite (bool_decide_eq_true_2 _ Hm), (bool_decide_eq_true_2 _ Hs).
  destruct Hm as [em Hm], Hs as [es Hs].
  generalize (lead_role (toLowerCase (or_str userRole "member")))
    (admin_role (toLowerCase (or_str userRole "member")))
    (lead_role (effective_role w)) (admin_role (stored_role w)). intros lr ar le sa.
  destruct (bool_decide (is_Some (dom w !! "users-section")));
  destruct le, sa; cbn [andb negb];
  split;
  repeat first [rewrite lookup_alter_ne by done | rewrite lookup_alter_eq];
  rewrite ?Hm, ?Hs; reflexivity.
Qed.

Lemma setup_dom_hint userRole w :
  setup_dom userRole w !! "task-type-hint"
    = with_display (if negb (admin_role (stored_role w)) && negb (lead_role (effective_role w))
                    then "block" else "none")
        <$> dom w !! "task-type-hint".
Proof.
  unfold setup_dom. cbv zeta.
  generalize (lead_role (toLowerCase (or_str userRole "member")))
    (admin_role (toLowerCase (or_str userRole "member")))
    (lead_role (effective_role w)) (admin_role (stored_role w)). intros lr ar le sa.
  destruct (bool_decide (is_Some (dom w !! "users-section")));
  destruct (bool_decide (is_Some (dom w !! "task-multi-assign-wrap")));
  destruct (bool_decide (is_Some (dom w !! "task-single-assign-wrap")));
  destruct le, sa; cbn [andb negb];
  repeat first [rewrite lookup_alter_ne by done | rewrite lookup_alter_eq];
  reflexivity.
Qed.

(** ** Writes to the role key *)

Lemma role_step_trans w w1 w2 :
  role_kept_or_lowercase w w1 -> role_kept_or_lowercase w1 w2 -> role_kept_or_lowercase w w2.
Proof.
  unfold role_kept_or_lowercase. intros [H1|[H1|H1]] [H2|[H2|H2]]; rewrite ?H2; auto.
Qed.

Lemma wl_keeps {A} (c : M A) : keeps localStorage c -> writes_lowercase c.
Proof. intros H w. left. by rewrite H. Qed.

Lemma wl_bind_post {A B} (P : A -> Prop) (c : M A) (k : A -> M B) :
  (forall w a w1, c w = (Returned a, w1) -> P a) ->
  writes_lowercase c -> (forall a, P a -> writes_lowercase (k a)) ->
  writes_lowercase (bind c k).
Proof.
  intros HP Hc Hk w. unfold bind. specialize (Hc w). specialize (HP w).
  destruct (c w) as [[a|e] w1]; simpl in *; [|done].
  eapply role_step_trans; [exact Hc|]. apply Hk. by eapply HP.
Qed.

Lemma wl_bind {A B} (c : M A) (k : A -> M B) :
  writes_lowercase c -> (forall a, writes_lowercase (k a)) -> writes_lowercase (bind c k).
Proof. intros Hc Hk. apply (wl_bind_post (fun _ => True)); auto. Qed.

Lemma wl_catch {A} (c : M A) (h : Exn -> M A) :
  writes_lowercase c -> (forall e, writes_lowercase (h e)) -> writes_lowercase (catch c h).
Proof.
  intros Hc Hh w. unfold catch. specialize (Hc w).
  destruct (c w) as [[a|e] w1]; simpl in *; [done|].
  eapply role_step_trans; [exact Hc|]. apply Hh.
Qed.

Lemma wl_when b (c : M unit) : writes_lowercase c -> writes_lowercase (when b c).
Proof. intros Hc. destruct b; simpl; [done|]. intros w. by left. Qed.

Lemma wl_setItem_other k v : k <> "role" -> writes_lowercase (setItem k v).
Proof.
  intros Hk w. unfold role_kept_or_lowercase. left.
  change (localStorage (snd (setItem k v w))) with (<[k:=v]> (localStorage w)).
  by rewrite lookup_insert_ne.
Qed.

Lemma wl_setItem_role v : lowercase v -> writes_lowercase (setItem "role" v).
Proof.
  intros Hv w. unfold role_kept_or_lowercase. right. right. exists v.
  change (localStorage (snd (setItem "role" v w))) with (<["role":=v]> (localStorage w)).
  by rewrite lookup_insert_eq.
Qed.

Lemma wl_removeItem k : writes_lowercase (removeItem k).
Proof.
  intros w. unfold role_kept_or_lowercase.
  change (localStorage (snd (removeItem k w))) with (delete k (localStorage w)).
  destruct (decide (k = "role")) as [->|Hk].
  - right. left. by rewrite lookup_delete_eq.
  - left. by rewrite lookup_delete_ne.
Qed.

Lemma role_or_member_lowercase role w a w1 :
  role_or_member role w = (Returned a, w1) -> lowercase a.
Proof.
  unfold role_or_member, lowered, lowercase.
  destruct role as [[| | |s| |]|]; simpl;
    repeat case_match; unfold ret, throw; intros [= <- <-];
    try apply toLowerCase_idem; reflexivity.
Qed.

Ltac wl_step :=
  first
    [ apply wl_bind; [|intros ?]
    | apply wl_catch; [|intros ?]
    | apply wl_when
    | apply wl_removeItem
    | (apply wl_setItem_other; discriminate)
    | (apply wl_keeps; intros ?; reflexivity)
    | match goal with
      | |- writes_lowercase (if ?b then _ else _) => destruct b
      | |- writes_lowercase (match ?x with _ => _ end) => destruct x
      end ].

Ltac wl := repeat wl_step.

Lemma wl_settle r : writes_lowercase (apiRequest_settle r).
Proof. unfold apiRequest_settle, get_prop, navigate. wl. Qed.

Lemma wl_apiRequest e m d u : writes_lowercase (apiRequest e m d u).
Proof.
  unfold apiRequest. apply wl_bind.
  - apply wl_keeps. intros w. by rewrite apiRequest_options_run.
  - intros req. apply wl_bind; [apply wl_keeps, fetch_keeps_storage|intros; apply wl_settle].
Qed.

Lemma wl_setup r : writes_lowercase (setupRoleBasedUI r).
Proof. apply wl_keeps, setup_storage. Qed.

Lemma wl_header : writes_lowercase updateHeaderRole.
Proof. apply wl_keeps. unfold updateHeaderRole, getEffectiveRole. keeps. Qed.

Lemma wl_login_then username res : writes_lowercase (Auth.login_then username res).
Proof.
  unfold Auth.login_then, get_prop, Auth.showAuthMsg, navigate.
  apply wl_bind; [wl|intros st]. destruct (truthy_val st); [|wl].
  do 6 (apply wl_bind; [wl|intros ?]).
  eapply (wl_bind_post lowercase).
  - intros w x w1. apply role_or_member_lowercase.
  - apply wl_keeps. unfold role_or_member, lowered. keeps.
  - intros role Hrole. apply wl_bind; [by apply wl_setItem_role|intros; wl].
Qed.

Lemma wl_sync_then me : writes_lowercase (sync_then me).
Proof.
  unfold sync_then, get_prop. destruct (negb (truthy me)); [wl|].
  apply wl_bind; [wl|intros me_role].
  eapply (wl_bind_post lowercase).
  - intros w x w1. apply role_or_member_lowercase.
  - apply wl_keeps. unfold role_or_member, lowered. keeps.
  - intros serverRole Hrole. apply wl_bind; [wl|intros]. apply wl_bind; [wl|intros].
    apply wl_bind; [wl|intros stored]. apply wl_bind; [|intros; apply wl_header].
    apply wl_when. apply wl_bind; [by apply wl_setItem_role|intros].
    apply wl_bind; [apply wl_setup|intros]. wl.
Qed.

Lemma wl_page_load_settled r : writes_lowercase (page_load_settled r).
Proof.
  unfold page_load_settled. apply wl_catch; [|intros; wl].
  apply wl_bind; [unfold settled; wl|intros]. apply wl_bind; [apply wl_settle|intros].
  apply wl_sync_then.
Qed.

Lemma wl_updateUserRole userId newRole :
  lowercase newRole -> writes_lowercase (updateUserRole userId newRole).
Proof.
  intros Hl. unfold updateUserRole, showToast. apply wl_catch; [|intros; wl].
  apply wl_bind; [apply wl_apiRequest|intros]. apply wl_bind; [wl|intros].
  apply wl_bind; [wl|intros]. apply wl_bind; [|intros; wl]. apply wl_when.
  apply wl_bind; [by apply wl_setItem_role|intros]. apply wl_bind; [apply wl_header|intros].
  apply wl_bind; [apply wl_setup|intros]. wl.
Qed.

Lemma buttons_lowercase role label newRole :
  In (label, newRole) (renderUsers_buttons role) -> lowercase newRole.
Proof.
  unfold renderUsers_buttons.
  destruct (negb _), (negb _); simpl; intros H;
    repeat (destruct H as [[= <- <-]|H]; [reflexivity|]); destruct H.
Qed.

(** ** Letter case of a role string *)

Lemma lower_empty r r' : toLowerCase r = toLowerCase r' -> String.eqb r "" = String.eqb r' "".
Proof. destruct r, r'; simpl; intros H; try discriminate H; reflexivity. Qed.

Lemma or_str_case r r' :
  toLowerCase r = toLowerCase r' ->
  toLowerCase (or_str (Some r) "member") = toLowerCase (or_str (Some r') "member").
Proof.
  intros H. unfold or_str. rewrite (lower_empty r r' H).
  destruct (String.eqb r' ""); [reflexivity|exact H].
Qed.

Lemma role_or_member_case r r' :
  toLowerCase r = toLowerCase r' ->
  role_or_member (Some (JStr r)) = role_or_member (Some (JStr r')).
Proof.
  intros H. unfold role_or_member, truthy, lowered. rewrite (lower_empty r r' H).
  destruct (negb (String.eqb r' "")); [by rewrite H|reflexivity].
Qed.

Lemma assoc_last_ne k k' v fields :
  k <> k' -> assoc k (fields ++ [(k', v)])%list = assoc k fields.
Proof.
  intros Hk. induction fields as [|[k0 v0] rest IH]; simpl.
  - destruct (String.eqb_spec k k'); [done|reflexivity].
  - by rewrite IH.
Qed.

Lemma assoc_last_eq k v fields : assoc k (fields ++ [(k, v)])%list = Some v.
Proof.
  induction fields as [|[k0 v0] rest IH]; simpl.
  - by rewrite String.eqb_refl.
  - by rewrite IH.
Qed.

Lemma stored_role_with r w :
  stored_role (with_stored_role r w) = toLowerCase (or_str (Some r) "member").
Proof.
  unfold stored_role, with_stored_role.
  change (localStorage (set_localStorage (insert "role" r) w)) with (<["role":=r]> (localStorage w)).
  by rewrite lookup_insert_eq.
Qed.

Lemma checks_case r r' w :
  toLowerCase r = toLowerCase r' ->
  fst (isUserAdmin (with_stored_role r w)) = fst (isUserAdmin (with_stored_role r' w)) /\
  fst (canAssignTask (with_stored_role r w)) = fst (canAssignTask (with_stored_role r' w)) /\
  fst (getEffectiveRole (with_stored_role r w)) = fst (getEffectiveRole (with_stored_role r' w)) /\
  fst (canUseMultiAssign (with_stored_role r w)) = fst (canUseMultiAssign (with_stored_role r' w)).
Proof.
  intros H.
  rewrite !getEffectiveRole_run, !canUseMultiAssign_run.
  rewrite (isUserAdmin_run (with_stored_role r w)), (isUserAdmin_run (with_stored_role r' w)).
  rewrite (canAssignTask_run (with_stored_role r w)), (canAssignTask_run (with_stored_role r' w)).
  cbn [fst]. unfold effective_role.
  change (effectiveDisplayRole (with_stored_role r w)) with (effectiveDisplayRole w).
  change (effectiveDisplayRole (with_stored_role r' w)) with (effectiveDisplayRole w).
  rewrite !stored_role_with, (or_str_case r r' H). done.
Qed.

Lemma login_then_case username fields r r' w :
  toLowerCase r = toLowerCase r' ->
  Auth.login_then username (JObj (fields ++ [("role", JStr r)])) w
  = Auth.login_then username (JObj (fields ++ [("role", JStr r')])) w.
Proof.
  intros H. unfold Auth.login_then, get_prop, prop, bind, ret.
  repeat rewrite assoc_last_eq. repeat (rewrite assoc_last_ne by discriminate).
  cbv beta iota zeta.
  by rewrite (role_or_member_case r r' H).
Qed.

Lemma sync_then_case fields r r' w :
  toLowerCase r = toLowerCase r' ->
  sync_then (JObj (fields ++ [("role", JStr r)])) w
  = sync_then (JObj (fields ++ [("role", JStr r')])) w.
Proof.
  intros H. unfold sync_then, get_prop, prop, bind, ret. cbn [truthy negb].
  repeat rewrite assoc_last_eq. repeat (rewrite assoc_last_ne by discriminate).
  cbv beta iota zeta.
  by rewrite (role_or_member_case r r' H).
Qed.

(** ** C3: the permission resolver *)

Lemma setup_dom_ext u1 u2 w1 w2 :
  toLowerCase (or_str u1 "member") = toLowerCase (or_str u2 "member") ->
  stored_role w1 = stored_role w2 -> effective_role w1 = effective_role w2 ->
  dom w1 = dom w2 -> setup_dom u1 w1 = setup_dom u2 w2.
Proof. intros H1 H2 H3 H4. unfold setup_dom. by rewrite H1, H2, H3, H4. Qed.

(** C3, amended.  The resolver reads two role strings, not one.
    [canAssignTask] holds iff the stored role, lowercased, is admin or
    division head; [canUseMultiAssign] holds iff the effective role is one
    of admin, division head, group head, team lead, project director.
    [setupRoleBasedUI] shows the team-creation, remove-member and closure
    sections to the leading roles and the delete-team card and the user
    management to admin and division head, going by its argument; the
    assignment sections go by the two checks.  When the lowercased
    argument, the stored role, the effective role and the page are equal,
    so are the two answers and the page left behind. *)
Theorem C3_permissions_follow_role_strings :
  (forall w, canAssignTask w = (Returned (admin_role (stored_role w)), w)) /\
  (forall w, canUseMultiAssign w = (Returned (lead_role (effective_role w)), w)) /\
  (forall userRole w,
     let r := toLowerCase (or_str userRole "member") in
     exists w',
       setupRoleBasedUI userRole w = (Returned tt, w') /\
       dom w' !! "team-section"
         = with_display (if lead_role r then "" else "none") <$> dom w !! "team-section" /\
       dom w' !! "delete-team-card"
         = with_display (if admin_role r then "" else "none") <$> dom w !! "delete-team-card" /\
       dom w' !! "remove-member-card"
         = with_display (if lead_role r then "" else "none") <$> dom w !! "remove-member-card" /\
       dom w' !! "task-closure-group"
         = with_hidden (negb (lead_role r)) <$> dom w !! "task-closure-group" /\
       dom w' !! "users-section"
         = with_display (if admin_role r then "block" else "none") <$> dom w !! "users-section" /\
       (is_Some (dom w !! "task-multi-assign-wrap") ->
        is_Some (dom w !! "task-single-assign-wrap") ->
        dom w' !! "task-multi-assign-wrap"
          = with_display (if lead_role (effective_role w) then "block" else "none")
              <$> dom w !! "task-multi-assign-wrap" /\
        dom w' !! "task-single-assign-wrap"
          = with_display (if negb (lead_role (effective_role w)) && admin_role (stored_role w)
                          then "" else "none")
              <$> dom w !! "task-single-assign-wrap")) /\
  (forall u1 u2 w1 w2,
     toLowerCase (or_str u1 "member") = toLowerCase (or_str u2 "member") ->
     stored_role w1 = stored_role w2 ->
     effective_role w1 = effective_role w2 ->
     dom w1 = dom w2 ->
     fst (canAssignTask w1) = fst (canAssignTask w2) /\
     fst (canUseMultiAssign w1) = fst (canUseMultiAssign w2) /\
     dom (snd (setupRoleBasedUI u1 w1)) = dom (snd (setupRoleBasedUI u2 w2))).
Proof.
  split; [exact canAssignTask_run|]. split; [exact canUseMultiAssign_run|]. split.
  - intros userRole w r.
    destruct (setupRoleBasedUI_run userRole w) as (w' & Hrun & Hdom & _).
    exists w'. split; [exact Hrun|]. rewrite Hdom.
    destruct (setup_dom_sections userRole w) as (H1 & H2 & H3 & H4 & H5).
    repeat (split; [assumption|]).
    intros Hm Hs. exact (setup_dom_assign userRole w Hm Hs).
  - intros u1 u2 w1 w2 Hu Hs He Hd.
    rewrite (canAssignTask_run w1), (canAssignTask_run w2).
    rewrite !canUseMultiAssign_run. cbn [fst]. rewrite Hs, He.
    split; [reflexivity|]. split; [reflexivity|].
    destruct (setupRoleBasedUI_run u1 w1) as (w1' & E1 & D1 & _).
    destruct (setupRoleBasedUI_run u2 w2) as (w2' & E2 & D2 & _).
    rewrite E1, E2. cbn [snd]. rewrite D1, D2.
    by apply setup_dom_ext.
Qed.

(** C3 as stated lets one role string decide everything.  Two sessions
    with the same stored role differ in [canUseMultiAssign]: in one the
    user is team lead of a team.  Two sessions with the same effective
    role differ in [canAssignTask] and in the single-assign section: in
    one the user has been made an admin since the teams loaded. *)
Lemma C3_counterexample :
  let plain := after [TeamsLoaded []] member_dashboard in
  let lead := after [TeamsLoaded [lead_team]] member_dashboard in
  let stale := after [TeamsLoaded []; UserSynced admin_answer] member_dashboard in
  (localStorage plain !! "role" = Some "member" /\
   localStorage lead !! "role" = Some "member" /\
   fst (canUseMultiAssign plain) = Returned false /\
   fst (canUseMultiAssign lead) = Returned true) /\
  (fst (getEffectiveRole plain) = Returned "member" /\
   fst (getEffectiveRole stale) = Returned "member" /\
   fst (canAssignTask plain) = Returned false /\
   fst (canAssignTask stale) = Returned true /\
   (display <$> dom plain !! "task-single-assign-wrap") = Some "none" /\
   (display <$> dom stale !! "task-single-assign-wrap") = Some "").
Proof. vm_compute. repeat split. Qed.

(** The last part of C3 for a team lead, the role spelled in two ways. *)
Lemma C3_witness :
  fst (canAssignTask lead_world) = fst (canAssignTask lead_world_upper) /\
  fst (canUseMultiAssign lead_world) = fst (canUseMultiAssign lead_world_upper) /\
  dom (snd (setupRoleBasedUI (Some "Team Lead") lead_world))
  = dom (snd (setupRoleBasedUI (Some "team lead") lead_world_upper)).
Proof.
  refine (proj2 (proj2 (proj2 C3_permissions_follow_role_strings))
            (Some "Team Lead") (Some "team lead") lead_world lead_world_upper _ _ _ _).
  - vm_compute; reflexivity.
  - vm_compute; reflexivity.
  - vm_compute; reflexivity.
  - reflexivity.
Defined.

(** ** C6: the session header *)

Lemma sends_keeps {A} P (c : M A) : keeps sent c -> sends P c.
Proof. intros H w. exists []. rewrite H, app_nil_r. by split. Qed.

Lemma sends_bind {A B} P (c : M A) (k : A -> M B) :
  sends P c -> (forall a, sends P (k a)) -> sends P (bind c k).
Proof.
  intros Hc Hk w. unfold bind. destruct (Hc w) as (n1 & E1 & F1).
  destruct (c w) as [[a|e] w1]; simpl in *; [|by exists n1].
  destruct (Hk a w1) as (n2 & E2 & F2). exists (n1 ++ n2)%list.
  rewrite E2, E1, app_assoc. split; [done|by apply Forall_app].
Qed.

Lemma sends_catch {A} P (c : M A) (h : Exn -> M A) :
  sends P c -> (forall e, sends P (h e)) -> sends P (catch c h).
Proof.
  intros Hc Hh w. unfold catch. destruct (Hc w) as (n1 & E1 & F1).
  destruct (c w) as [[a|e] w1]; simpl in *; [by exists n1|].
  destruct (Hh e w1) as (n2 & E2 & F2). exists (n1 ++ n2)%list.
  rewrite E2, E1, app_assoc. split; [done|by apply Forall_app].
Qed.

Lemma sends_apiRequest P e m d u :
  (forall w, P (built e m d u w)) -> sends P (apiRequest e m d u).
Proof.
  intros HP w. exists [built e m d u w]. rewrite apiRequest_sent. split; [done|].
  constructor; [apply HP|constructor].
Qed.

Lemma built_headers_auth e m d w :
  headers (built e m d true w)
  = if truthy_str (localStorage w !! "session_token")
    then <["X-Session-Token" := or_str (localStorage w !! "session_token") ""]>
           {["Content-Type" := "application/json"]}
    else {["Content-Type" := "application/json"]}.
Proof. reflexivity. Qed.

Lemma built_headers_open e m d w :
  headers (built e m d false w) = {["Content-Type" := "application/json"]}.
Proof. reflexivity. Qed.

Lemma built_no_token e m d w : no_token (built e m d false w).
Proof. unfold no_token. rewrite built_headers_open. by apply lookup_singleton_ne. Qed.

Ltac sends_step :=
  first
    [ (apply sends_apiRequest; intros ?; apply built_no_token)
    | apply sends_bind; [|intros ?]
    | apply sends_catch; [|intros ?]
    | (apply sends_keeps; intros ?; reflexivity)
    | (apply sends_keeps; unfold element; intros w; destruct (dom w !! _); reflexivity)
    | match goal with
      | |- sends _ (if ?b then _ else _) => destruct b
      | |- sends _ (match ?x with _ => _ end) => destruct x
      end ].

Ltac sends_tac := repeat sends_step.

Lemma login_then_sent username res : keeps sent (Auth.login_then username res).
Proof. unfold Auth.login_then, get_prop, role_or_member, lowered, Auth.showAuthMsg, navigate. keeps. Qed.

Lemma login_sends : sends no_token Auth.login.
Proof.
  unfold Auth.login, Auth.login_then, get_prop, role_or_member, lowered,
    Auth.showAuthMsg, navigate.
  sends_tac.
Qed.

Lemma signup_sends : sends no_token Auth.signup.
Proof. unfold Auth.signup, Auth.showAuthMsg. sends_tac. Qed.

Lemma resetUsername_sends : sends no_token Auth.resetUsername.
Proof. unfold Auth.resetUsername, Auth.showAuthMsg. sends_tac. Qed.

Lemma resetPassword_sends : sends no_token Auth.resetPassword.
Proof. unfold Auth.resetPassword, Auth.showAuthMsg. sends_tac. Qed.

(** C6.  With useAuth true and a session token stored, the one request
    [apiRequest] sends carries that token in the X-Session-Token header.
    With useAuth false the request carries no such header, and [login],
    [signup], [resetUsername] and [resetPassword] send only requests
    without it. *)
Theorem C6_session_token_header :
  (forall endpoint method data w,
     fst (isLoggedIn w) = Returned true ->
     exists token,
       localStorage w !! "session_token" = Some token /\
       sent (snd (apiRequest endpoint method data true w))
         = (sent w ++ [built endpoint method data true w])%list /\
       headers (built endpoint method data true w) !! "X-Session-Token" = Some token) /\
  (forall endpoint method data w,
     sent (snd (apiRequest endpoint method data false w))
       = (sent w ++ [built endpoint method data false w])%list /\
     headers (built endpoint method data false w) !! "X-Session-Token" = None) /\
  sends no_token Auth.login /\
  sends no_token Auth.signup /\
  sends no_token Auth.resetUsername /\
  sends no_token Auth.resetPassword.
Proof.
  split; [|split; [|auto using login_sends, signup_sends, resetUsername_sends, resetPassword_sends]].
  - intros e m d w Hlog. unfold isLoggedIn, getSessionToken, getItem, bind, gets, ret in Hlog.
    cbn [fst] in Hlog. injection Hlog as Hlog.
    destruct (localStorage w !! "session_token") as [token|] eqn:Htok; [|discriminate].
    exists token. split; [reflexivity|]. split; [apply apiRequest_sent|].
    rewrite built_headers_auth, Htok, Hlog.
    unfold or_str. unfold truthy_str in Hlog. apply negb_true_iff in Hlog. rewrite Hlog.
    apply lookup_insert_eq.
  - intros e m d w. split; [apply apiRequest_sent|apply built_no_token].
Qed.

(** The first part of C6 for GET /tasks in a logged-in session. *)
Lemma C6_witness :
  exists token,
    localStorage logged_in_world !! "session_token" = Some token /\
    sent (snd (apiRequest "/tasks" "GET" None true logged_in_world))
      = (sent logged_in_world ++ [built "/tasks" "GET" None true logged_in_world])%list /\
    headers (built "/tasks" "GET" None true logged_in_world) !! "X-Session-Token" = Some token.
Proof.
  refine (proj1 C6_session_token_header "/tasks" "GET" None logged_in_world _).
  vm_compute. reflexivity.
Defined.

(** ** C4: the 401 branch *)

Lemma ok_not_401 response : ok response = true -> (Browser.status response =? 401)%Z = false.
Proof. unfold ok. intros H. apply andb_true_iff in H as [H1 H2]. lia. Qed.

Lemma settle_401 response result w :
  Browser.status response = 401%Z -> result_of response = Some result ->
  apiRequest_settle response w = (Thrown (expired result), signed_out w).
Proof.
  intros Hs Hr. unfold apiRequest_settle, result_of, expired, signed_out in *.
  rewrite Hs. change (401 =? 401)%Z with true. cbv iota.
  unfold bind, removeItem, modify, gets, when, navigate, get_prop, throw, ret.
  destruct (contentType response) as [ct|];
    [destruct (negb (String.eqb ct "") && includes "application/json" ct);
      [rewrite Hr|]|];
    try injection Hr as <-; cbn [fst snd pathname set_localStorage];
    destruct (includes "dashboard" (pathname w)); cbn;
    try (destruct (prop result "detail")); reflexivity.
Qed.

Lemma settle_form_401 response result w :
  Browser.status response = 401%Z -> result_of response = Some result ->
  apiRequestFormData_settle response w = (Thrown (expired result), signed_out w).
Proof. exact (settle_401 response result w). Qed.

Lemma settle_unreadable response w :
  result_of response = None -> apiRequest_settle response w = (Thrown bad_json, w).
Proof.
  unfold apiRequest_settle, result_of, bind, throw, ret.
  destruct (contentType response) as [ct|]; [|discriminate].
  destruct (negb (String.eqb ct "") && includes "application/json" ct); [|discriminate].
  by intros ->.
Qed.

Lemma settle_ok response result w :
  ok response = true -> result_of response = Some result ->
  apiRequest_settle response w = (Returned result, w).
Proof.
  intros Hok Hr. unfold apiRequest_settle, result_of in *.
  rewrite (ok_not_401 _ Hok), Hok. unfold bind, ret. cbn [negb].
  destruct (contentType response) as [ct|];
    [destruct (negb (String.eqb ct "") && includes "application/json" ct); [rewrite Hr|]|];
    try injection Hr as <-; reflexivity.
Qed.

Lemma settle_failed response result w :
  ok response = false -> Browser.status response <> 401%Z -> result_of response = Some result ->
  apiRequest_settle response w = (Thrown (failure result), w).
Proof.
  intros Hok Hs Hr. unfold apiRequest_settle, result_of, failure in *.
  apply Z.eqb_neq in Hs. rewrite Hs, Hok. unfold bind, ret, get_prop, throw. cbn [negb].
  destruct (contentType response) as [ct|];
    [destruct (negb (String.eqb ct "") && includes "application/json" ct); [rewrite Hr|]|];
    try injection Hr as <-; cbn; try (destruct (prop result "detail")); reflexivity.
Qed.

(** A completed call: the request went out, the answer was settled. *)
Lemma apiRequest_answered e m d u response rest w :
  network w = Resolved response :: rest ->
  apiRequest e m d u w
  = apiRequest_settle response
      (set_network rest (set_sent (fun l => (l ++ [built e m d u w])%list) w)).
Proof.
  intros Hn. unfold apiRequest, bind. rewrite apiRequest_options_run.
  unfold fetch. rewrite Hn. reflexivity.
Qed.

Lemma apiRequestFormData_answered e m f response rest w :
  network w = Resolved response :: rest ->
  apiRequestFormData e m f w
  = apiRequestFormData_settle response
      (set_network rest (set_sent (fun l => (l ++ [built_form e m f w])%list) w)).
Proof.
  intros Hn. unfold apiRequestFormData, bind. rewrite apiRequestFormData_options_run.
  unfold fetch. rewrite Hn. reflexivity.
Qed.

Lemma apiRequest_unanswered e m d u w :
  match network w with Resolved _ :: _ => False | _ => True end ->
  fst (apiRequest e m d u w) = Thrown fetch_failed.
Proof.
  intros Hn. unfold apiRequest, bind. rewrite apiRequest_options_run.
  unfold fetch. destruct (network w) as [|[|r] rest]; [reflexivity|reflexivity|destruct Hn].
Qed.

Lemma signed_out_facts w :
  localStorage (signed_out w) = cleared (localStorage w) /\
  href (signed_out w) = (if includes "dashboard" (pathname w) then Some "index.html" else href w) /\
  sent (signed_out w) = sent w /\ network (signed_out w) = network w /\
  dom (signed_out w) = dom w /\ calls (signed_out w) = calls w.
Proof. unfold signed_out. destruct (includes "dashboard" (pathname w)); repeat split. Qed.

Lemma expired_detail fields detail :
  assoc "detail" fields = Some detail -> truthy detail = true ->
  expired (JObj fields) = Error (ToString detail).
Proof. intros Ha Ht. unfold expired, prop. rewrite Ha. cbn. by rewrite Ht. Qed.

Lemma expired_no_detail fields :
  truthy_val (assoc "detail" fields) = false -> expired (JObj fields) = Error "Session expired".
Proof. intros Ht. unfold expired, prop. by rewrite Ht. Qed.




(** ** C9: values and errors of apiRequest *)

Lemma built_body e m d u w :
  body (built e m d u w)
  = match d with
    | Some v =>
        if truthy v && (String.eqb m "POST" || String.eqb m "PUT")
        then Some (BodyText (JSON_stringify v)) else None
    | None => None
    end.
Proof. destruct u; reflexivity. Qed.

Lemma built_url e m d u w : url (built e m d u w) = base_of w ++ e.
Proof. destruct u; reflexivity. Qed.

Lemma built_method e m d u w : method (built e m d u w) = m.
Proof. destruct u; reflexivity. Qed.

Lemma built_form_parts e m f w :
  url (built_form e m f w) = base_of w ++ e /\ method (built_form e m f w) = m /\
  body (built_form e m f w) = Some (BodyForm f).
Proof. repeat split. Qed.

Lemma failure_detail fields detail :
  assoc "detail" fields = Some detail -> truthy detail = true ->
  failure (JObj fields) = Error (ToString detail).
Proof. intros Ha Ht. unfold failure, prop. rewrite Ha. cbn. by rewrite Ht. Qed.

Lemma apiRequest_returns e m d u w v w' :
  apiRequest e m d u w = (Returned v, w') ->
  exists response rest,
    network w = Resolved response :: rest /\ ok response = true /\
    result_of response = Some v.
Proof.
  intros H.
  destruct (network w) as [|[|response] rest] eqn:Hn.
  - pose proof (apiRequest_unanswered e m d u w) as Hu. rewrite Hn, H in Hu.
    discriminate (Hu I).
  - pose proof (apiRequest_unanswered e m d u w) as Hu. rewrite Hn, H in Hu.
    discriminate (Hu I).
  - exists response, rest. split; [reflexivity|].
    rewrite (apiRequest_answered e m d u response rest w Hn) in H.
    destruct (result_of response) as [result|] eqn:Hr.
    + destruct (ok response) eqn:Hok.
      * rewrite (settle_ok _ result _ Hok Hr) in H. injection H as <- _. done.
      * destruct (decide (Browser.status response = 401%Z)) as [Hs|Hs].
        -- rewrite (settle_401 _ result _ Hs Hr) in H. discriminate H.
        -- rewrite (settle_failed _ result _ Hok Hs Hr) in H. discriminate H.
    + rewrite (settle_unreadable _ _ Hr) in H. discriminate H.
Qed.




(** ** C7: deleting a team *)

Lemma catch_thrown {A B} (c : M A) (k : A -> M B) (h : Exn -> M B) w e w1 :
  c w = (Thrown e, w1) -> catch (x <- c ;; k x) h w = h e w1.
Proof. intros H. unfold catch, bind. by rewrite H. Qed.

Lemma catch_returned {A B} (c : M A) (k : A -> M B) (h : Exn -> M B) w v w1 :
  c w = (Returned v, w1) -> catch (x <- c ;; k x) h w = catch (k v) h w1.
Proof. intros H. unfold catch, bind. by rewrite H. Qed.

(** A response that is not ok makes [apiRequest] throw, whatever its body;
    the page and the pending reloads are left alone. *)
Lemma apiRequest_fails e m d u response rest w :
  network w = Resolved response :: rest -> ok response = false ->
  exists x w1,
    apiRequest e m d u w = (Thrown x, w1) /\
    dom w1 = dom w /\ calls w1 = calls w /\
    sent w1 = (sent w ++ [built e m d u w])%list.
Proof.
  intros Hn Hok. rewrite (apiRequest_answered e m d u response rest w Hn).
  destruct (result_of response) as [result|] eqn:Hr.
  - destruct (decide (Browser.status response = 401%Z)) as [Hs|Hs].
    + rewrite (settle_401 _ result _ Hs Hr). eexists _, _. split; [reflexivity|].
      destruct (signed_out_facts
        (set_network rest (set_sent (fun l => (l ++ [built e m d u w])%list) w)))
        as (_ & _ & H3 & _ & H5 & H6).
      rewrite H3, H5, H6. repeat split.
    + rewrite (settle_failed _ result _ Hok Hs Hr). eexists _, _. repeat split.
  - rewrite (settle_unreadable _ _ Hr). eexists _, _. repeat split.
Qed.

Lemma apiRequest_succeeds e m d u response rest result w :
  network w = Resolved response :: rest -> ok response = true ->
  result_of response = Some result ->
  apiRequest e m d u w
  = (Returned result,
     set_network rest (set_sent (fun l => (l ++ [built e m d u w])%list) w)).
Proof.
  intros Hn Hok Hr.
  by rewrite (apiRequest_answered e m d u response rest w Hn), (settle_ok _ result _ Hok Hr).
Qed.

Lemma showToast_run msg isError w :
  showToast msg isError w = (Returned tt, set_dom (alter (toasted msg isError) "toast") w).
Proof. reflexivity. Qed.

Lemma confirmDeleteTeam_unfold ok w sel :
  dom w !! "delete-team-select" = Some sel -> value sel <> "" ->
  confirmDeleteTeam ok w
  = (if negb ok then ret tt
     else
       catch
         (_ <- apiRequest ("/teams/" ++ team_id_text (value sel)) "DELETE" None true ;;
          showToast "Team deleted" false ;;
          loadUserTeams ;;
          loadTasks ;;
          loadActivityLogs)
         (fun err => showToast (or_str (Some (message err)) "Failed to delete team") true)) w.
Proof.
  intros Hsel Hv. unfold confirmDeleteTeam, bind, getElementById, gets. rewrite Hsel.
  apply String.eqb_neq in Hv. rewrite Hv. reflexivity.
Qed.




(** ** C1 and C2: the status control and the completion proof *)

Lemma statusOpts_run t w :
  exists extras, statusOpts t w = (Returned (status_entries t ++ extras)%list, w).
Proof.
  unfold statusOpts, bind. rewrite isUserAdmin_run.
  destruct (admin_role (stored_role w) || can_approve_completion t).
  - rewrite canAssignTask_run. eexists. reflexivity.
  - exists []. unfold ret. by rewrite app_nil_r.
Qed.

Lemma extCellHtml_run t w : exists btn, extCellHtml t w = (Returned btn, w).
Proof.
  unfold extCellHtml.
  destruct (truthy_str (extension_status t)); [|by eexists].
  destruct (extension_status t) as [st|]; [|by eexists].
  destruct (String.eqb st "rejected" || String.eqb st "approved"); [by eexists|].
  destruct (String.eqb st "pending"); [|by eexists].
  unfold bind. rewrite isUserAdmin_run. destruct (admin_role (stored_role w)); by eexists.
Qed.

Lemma loadTasks_row_run today t w :
  exists row extras,
    loadTasks_row today t w = (Returned row, w) /\
    sel_disabled (fst (row_actions row))
      = bool_decide (Dashboard.status t = Some "Pending Completion") /\
    sel_options (fst (row_actions row)) = (status_entries t ++ extras)%list /\
    sel_taskId (fst (row_actions row)) = Dashboard.id t /\
    sel_activityId (fst (row_actions row)) = activity_id t /\
    row_statusExtraBtns row
      = (if bool_decide ((if truthy_str (completion_status t) then completion_status t else None)
                         = Some "pending") && can_approve_completion t
         then [ViewCompletionAttachment
                 (if truthy_num (completion_request_id t) then completion_request_id t else None);
               ReviewCompletionRequest
                 (if truthy_num (completion_request_id t) then completion_request_id t else None)
                 (Dashboard.id t)]
         else []).
Proof.
  unfold loadTasks_row, bind.
  destruct (statusOpts_run t w) as (extras & ->).
  destruct (extCellHtml_run t w) as (btn & ->).
  eexists _, extras. split; [reflexivity|].
  unfold buildActionsCellHtml. cbn [row_actions row_statusExtraBtns].
  destruct (negb (String.eqb (or_str (task_type t) "Normal") "Procurement")); repeat split.
Qed.

Lemma status_value_is_no_action target :
  In target status_values ->
  String.eqb target "__change_due_date__" = false /\
  String.eqb target "__unassign_task__" = false /\
  String.eqb target "__delete_task__" = false /\
  String.eqb target "__delete_activity__" = false.
Proof.
  unfold status_values. intros H.
  repeat (destruct H as [<-|H]; [repeat split|]). destruct H.
Qed.

Lemma handleActionSelect_status taskId activityId target input ok w :
  In target status_values ->
  handleActionSelect taskId activityId target input ok w = updateStatus taskId target w.
Proof.
  intros H. destruct (status_value_is_no_action target H) as (H1 & H2 & H3 & H4).
  unfold handleActionSelect. by rewrite H1, H2, H3, H4.
Qed.

Lemma updateStatus_admin taskId st w :
  admin_role (stored_role w) = true ->
  sent (snd (updateStatus taskId st w))
  = (sent w ++ [built ("/tasks/" ++ pretty taskId ++ "/status") "PUT"
                  (Some (JObj [("status", JStr st)])) true w])%list.
Proof.
  intros Ha. unfold updateStatus, bind at 1. rewrite isUserAdmin_run, Ha.
  rewrite andb_false_r.
  apply request_once; intros;
    unfold showToast, loadTasks, loadActivityLogs, refresh_chat, loadActivityChat, call; keeps.
Qed.

Lemma openCompletionProofModal_keeps taskId :
  keeps sent (openCompletionProofModal taskId) /\
  keeps calls (openCompletionProofModal taskId) /\
  keeps localStorage (openCompletionProofModal taskId).
Proof. unfold openCompletionProofModal. repeat split; keeps. Qed.

Lemma openCompletionProofModal_opens taskId w modal taskIdEl fileEl :
  dom w !! "completion-proof-modal" = Some modal ->
  dom w !! "completion-proof-task-id" = Some taskIdEl ->
  dom w !! "completion-proof-file" = Some fileEl ->
  let w' := snd (openCompletionProofModal taskId w) in
  dom w' !! "completion-proof-modal" = Some (with_hidden false modal) /\
  dom w' !! "completion-proof-task-id" = Some (with_value (pretty taskId) taskIdEl) /\
  dom w' !! "completion-proof-file" = Some (with_files [] (with_value "" fileEl)).
Proof.
  intros Hm Ht Hf. unfold openCompletionProofModal, bind, getElementById, gets.
  rewrite Hm, Ht, Hf. unfold update, modify, ret. cbn [fst snd dom set_dom].
  repeat split;
    repeat first [rewrite lookup_alter_ne by done | rewrite lookup_alter_eq];
    rewrite ?Hm, ?Ht, ?Hf; reflexivity.
Qed.

Lemma updateStatus_member taskId w :
  admin_role (stored_role w) = false ->
  updateStatus taskId "Completed" w = openCompletionProofModal taskId w.
Proof. intros Ha. unfold updateStatus, bind. by rewrite isUserAdmin_run, Ha. Qed.

Lemma built_form_dom e m f g w : built_form e m f (set_dom g w) = built_form e m f w.
Proof. reflexivity. Qed.

Lemma request_form_once {A} e m f (k : json -> M A) (h : Exn -> M A) w :
  (forall x, keeps sent (k x)) -> (forall x, keeps sent (h x)) ->
  sent (snd (catch (x <- apiRequestFormData e m f ;; k x) h w))
  = (sent w ++ [built_form e m f w])%list.
Proof.
  intros Hk Hh. unfold catch, bind.
  pose proof (apiRequestFormData_sent e m f w) as Hs.
  destruct (apiRequestFormData e m f w) as [[x|x] w1]; simpl in *.
  - specialize (Hk x w1). destruct (k x w1) as [[a|y] w2]; simpl in *.
    + congruence.
    + rewrite Hh. congruence.
  - rewrite Hh. congruence.
Qed.

Lemma finally_sent {A} (c : M A) (f : M unit) w :
  keeps sent f -> sent (snd (finally c f w)) = sent (snd (c w)).
Proof.
  intros Hf. unfold finally. destruct (c w) as [r w1]. specialize (Hf w1).
  destruct (f w1) as [[[]|x] w2]; exact Hf.
Qed.

Lemma submitCompletionProof_sends w taskIdEl fileEl file more :
  dom w !! "completion-proof-task-id" = Some taskIdEl ->
  dom w !! "completion-proof-file" = Some fileEl ->
  files fileEl = file :: more ->
  sent (snd (submitCompletionProof w))
  = (sent w ++ [built_form ("/tasks/" ++ value taskIdEl ++ "/completion-requests") "POST" file w])%list.
Proof.
  intros Ht Hf Hfiles. unfold submitCompletionProof, bind at 1, getElementById, gets.
  rewrite Ht. unfold bind at 1. rewrite Hf, Hfiles.
  unfold bind at 1, update at 1, modify. cbn [fst snd].
  rewrite finally_sent by (unfold update; keeps).
  rewrite request_form_once.
  - reflexivity.
  - intros; unfold showToast, closeCompletionProofModal, loadTasks, loadActivityLogs,
      refresh_chat, loadActivityChat, call; keeps.
  - intros; unfold showToast; keeps.
Qed.

Lemma submitCompletionProof_no_file w taskIdEl fileEl :
  dom w !! "completion-proof-task-id" = Some taskIdEl ->
  dom w !! "completion-proof-file" = Some fileEl ->
  files fileEl = [] ->
  sent (snd (submitCompletionProof w)) = sent w.
Proof.
  intros Ht Hf Hfiles. unfold submitCompletionProof, bind, getElementById, gets.
  by rewrite Ht, Hf, Hfiles.
Qed.

Lemma isUserAdmin_true w : fst (isUserAdmin w) = Returned true -> admin_role (stored_role w) = true.
Proof. rewrite isUserAdmin_run. by intros [= ->]. Qed.

Lemma isUserAdmin_false w : fst (isUserAdmin w) = Returned false -> admin_role (stored_role w) = false.
Proof. rewrite isUserAdmin_run. by intros [= ->]. Qed.

(** A task in Pending Completion: its status select is disabled, and the
    buttons to view the proof and to approve or reject show exactly to one
    who may approve a pending request. *)
Lemma pending_buttons today t w :
  Dashboard.status t = Some "Pending Completion" ->
  exists sel,
    status_control today t w = Some sel /\
    sel_disabled sel = true /\
    (status_buttons today t w <> []
     <-> completion_status t = Some "pending" /\ can_approve_completion t = true).
Proof.
  intros Hs. unfold status_control, status_buttons.
  destruct (loadTasks_row_run today t w) as (row & extras & -> & Hd & _ & _ & _ & Hb).
  eexists. split; [reflexivity|]. split; [rewrite Hd; by apply bool_decide_eq_true|].
  rewrite Hb.
  destruct (completion_status t) as [cs|] eqn:Hcs.
  - destruct (decide (cs = "pending")) as [->|E].
    + cbn. destruct (can_approve_completion t); cbn.
      * split; [by intros _|discriminate].
      * split; [by intros []|by intros [_ ?]].
    + assert ((if truthy_str (Some cs) then Some cs else None) <> Some "pending") as Hne.
      { destruct (truthy_str (Some cs)); congruence. }
      rewrite (bool_decide_eq_false_2 _ Hne). cbn.
      split; [by intros []|intros [[= ?] _]; done].
  - cbn. split; [by intros []|by intros [? _]].
Qed.

(** C1, amended.  Whether a move to Completed needs proof is decided by
    [isUserAdmin], which reads the stored global role.  When it answers
    false, [updateStatus] with the status Completed is
    [openCompletionProofModal]: nothing is sent and no reload is started,
    and the modal is shown, loaded with the task id and an empty file
    input.  [submitCompletionProof] then posts the chosen file as form
    data to /tasks/{id}/completion-requests, once, and sends nothing when
    no file is chosen.  When [isUserAdmin] answers true, [updateStatus]
    sends one PUT /tasks/{id}/status carrying the chosen status.  A task
    the server reports in Pending Completion has its status select
    disabled, and the buttons to approve or reject show exactly when the
    completion request is pending and the viewer may approve it. *)
Theorem C1_completion_needs_proof_unless_admin :
  (forall taskId w,
     fst (isUserAdmin w) = Returned false ->
     updateStatus taskId "Completed" w = openCompletionProofModal taskId w /\
     sent (snd (updateStatus taskId "Completed" w)) = sent w /\
     calls (snd (updateStatus taskId "Completed" w)) = calls w) /\
  (forall taskId w modal taskIdEl fileEl,
     dom w !! "completion-proof-modal" = Some modal ->
     dom w !! "completion-proof-task-id" = Some taskIdEl ->
     dom w !! "completion-proof-file" = Some fileEl ->
     let w' := snd (openCompletionProofModal taskId w) in
     dom w' !! "completion-proof-modal" = Some (with_hidden false modal) /\
     dom w' !! "completion-proof-task-id" = Some (with_value (pretty taskId) taskIdEl) /\
     dom w' !! "completion-proof-file" = Some (with_files [] (with_value "" fileEl))) /\
  (forall w taskIdEl fileEl file more,
     dom w !! "completion-proof-task-id" = Some taskIdEl ->
     dom w !! "completion-proof-file" = Some fileEl ->
     files fileEl = file :: more ->
     exists req,
       sent (snd (submitCompletionProof w)) = (sent w ++ [req])%list /\
       url req = base_of w ++ "/tasks/" ++ value taskIdEl ++ "/completion-requests" /\
       method req = "POST" /\
       body req = Some (BodyForm file)) /\
  (forall w taskIdEl fileEl,
     dom w !! "completion-proof-task-id" = Some taskIdEl ->
     dom w !! "completion-proof-file" = Some fileEl ->
     files fileEl = [] ->
     sent (snd (submitCompletionProof w)) = sent w) /\
  (forall taskId st w,
     fst (isUserAdmin w) = Returned true ->
     exists req,
       sent (snd (updateStatus taskId st w)) = (sent w ++ [req])%list /\
       url req = base_of w ++ "/tasks/" ++ pretty taskId ++ "/status" /\
       method req = "PUT" /\
       body req = Some (BodyText (JSON_stringify (JObj [("status", JStr st)])))) /\
  (forall today t w,
     Dashboard.status t = Some "Pending Completion" ->
     exists sel,
       status_control today t w = Some sel /\
       sel_disabled sel = true /\
       (status_buttons today t w <> []
        <-> completion_status t = Some "pending" /\ can_approve_completion t = true)).
Proof.
  split; [|split; [exact openCompletionProofModal_opens|split; [|split;
    [exact submitCompletionProof_no_file|split]]]].
  - intros taskId w Ha. apply isUserAdmin_false in Ha.
    rewrite (updateStatus_member taskId w Ha).
    destruct (openCompletionProofModal_keeps taskId) as (H1 & H2 & _).
    by rewrite H1, H2.
  - intros w taskIdEl fileEl file more Ht Hf Hfiles.
    eexists. split; [exact (submitCompletionProof_sends w taskIdEl fileEl file more Ht Hf Hfiles)|].
    repeat split.
  - intros taskId st w Ha. apply isUserAdmin_true in Ha.
    eexists. split; [exact (updateStatus_admin taskId st w Ha)|].
    rewrite built_url, built_method, built_body. repeat split.
  - exact pending_buttons.
Qed.

(** C1 as stated goes by the effective role.  A member opens the
    dashboard and the teams load; the answer to GET /users/me then says
    the user is an admin.  The stored role is now admin while the
    effective role is still member, and choosing Completed for task 7
    sends the PUT directly. *)
Lemma C1_counterexample :
  let stale := after [TeamsLoaded []; UserSynced admin_answer] member_dashboard in
  fst (getEffectiveRole stale) = Returned "member" /\
  map (fun r => (url r, method r, body r)) (sent (snd (updateStatus 7 "Completed" stale)))
  = (map (fun r => (url r, method r, body r)) (sent stale)
     ++ [("http://192.168.1.100:8000/tasks/7/status", "PUT",
          Some (BodyText (JSON_stringify (JObj [("status", JStr "Completed")]))))])%list.
Proof. vm_compute. split; reflexivity. Qed.

(** The first part of C1 for a logged-in member and task 7. *)
Lemma C1_witness :
  updateStatus 7 "Completed" logged_in_world = openCompletionProofModal 7 logged_in_world /\
  sent (snd (updateStatus 7 "Completed" logged_in_world)) = sent logged_in_world /\
  calls (snd (updateStatus 7 "Completed" logged_in_world)) = calls logged_in_world.
Proof.
  refine (proj1 C1_completion_needs_proof_unless_admin 7%Z logged_in_world _).
  vm_compute. reflexivity.
Defined.




(** ** C5: extension requests *)

Ltac in_attrs :=
  repeat match goal with
         | H : In _ _ |- _ => simpl in H
         | H : _ \/ _ |- _ => destruct H as [H|H]
         | H : False |- _ => destruct H
         | H : _ = _ |- _ => discriminate H
         end.

Lemma ext_button_pending t w :
  extension_status t = Some "pending" ->
  exists btn,
    ext_button t w = Some btn /\
    extBtnLabel btn = "Pending" /\
    ~ opens btn /\
    (admin_role (stored_role w) = true -> reviews btn /\ ~ is_disabled btn) /\
    (admin_role (stored_role w) = false -> is_disabled btn /\ ~ reviews btn).
Proof.
  intros Hs. unfold ext_button, extCellHtml. rewrite Hs.
  change (truthy_str (Some "pending")) with true. cbv iota.
  change (String.eqb "pending" "rejected" || String.eqb "pending" "approved") with false.
  change (String.eqb "pending" "pending") with true. cbv iota.
  unfold bind. rewrite isUserAdmin_run. unfold opens, reviews, is_disabled.
  destruct (admin_role (stored_role w)); unfold ret; cbv iota beta;
    (eexists; split; [reflexivity|]); cbn [extBtnLabel extBtnAttrs app];
    (split; [reflexivity|]); (split; [intros (? & ? & H); in_attrs|]);
    split; intros Ha; try discriminate Ha.
  - split; [eexists _, _; right; left; reflexivity|intros H; in_attrs].
  - split; [right; left; reflexivity|intros (? & ? & H); in_attrs].
Qed.

Lemma ext_button_opens t w :
  exists btn,
    ext_button t w = Some btn /\
    (opens btn <-> extension_settled t) /\
    (opens btn ->
     In (AOpenExtensionRequest (Dashboard.id t)
           (or_str (if truthy_str (due_date t) then due_date t else None) ""))
        (extBtnAttrs btn)).
Proof.
  unfold ext_button, extCellHtml, opens, extension_settled.
  destruct (extension_status t) as [st|] eqn:Hs.
  2:{ cbn. eexists. split; [reflexivity|]. cbn [extBtnAttrs app]. split.
      - split; [auto|]. intros _. eexists _, _. right. left. reflexivity.
      - intros _. right. left. reflexivity. }
  destruct (String.eqb_spec st "") as [->|Hne].
  { cbn. eexists. split; [reflexivity|]. cbn [extBtnAttrs app]. split.
    - split; [auto|]. intros _. eexists _, _. right. left. reflexivity.
    - intros _. right. left. reflexivity. }
  assert (Ht : truthy_str (Some st) = true).
  { unfold truthy_str. apply String.eqb_neq in Hne. by rewrite Hne. }
  rewrite Ht. cbv iota.
  destruct (String.eqb_spec st "rejected") as [->|Hr].
  { cbn [orb]. eexists. split; [reflexivity|]. cbn [extBtnAttrs app]. split.
    - split; [auto|]. intros _. eexists _, _. right. left. reflexivity.
    - intros _. right. left. reflexivity. }
  destruct (String.eqb_spec st "approved") as [->|Ha].
  { cbn [orb]. eexists. split; [reflexivity|]. cbn [extBtnAttrs app]. split.
    - split; [auto|]. intros _. eexists _, _. right. left. reflexivity.
    - intros _. right. left. reflexivity. }
  cbn [orb]. cbv iota.
  destruct (String.eqb st "pending").
  - unfold bind. rewrite isUserAdmin_run.
    destruct (admin_role (stored_role w)); unfold ret; cbv iota beta;
      (eexists; split; [reflexivity|]); cbn [extBtnAttrs app]; split;
      try (intros (? & ? & H); in_attrs);
      (split; [intros (? & ? & H); in_attrs|intros [H|[H|H]]; congruence]).
  - unfold ret. eexists. split; [reflexivity|]. cbn [extBtnAttrs app]. split.
    + split; [intros (? & ? & H); in_attrs|intros [H|[H|H]]; congruence].
    + intros (? & ? & H); in_attrs.
Qed.

Lemma is_ymd_nonempty s : is_ymd s = true -> String.eqb s "" = false.
Proof. destruct s; [discriminate|reflexivity]. Qed.

Lemma openExtensionRequest_sends taskId proposed reason w :
  sent (snd (openExtensionRequest taskId proposed reason w)) = sent w \/
  sent (snd (openExtensionRequest taskId proposed reason w))
  = (sent w ++ [built ("/tasks/" ++ pretty taskId ++ "/extension-requests") "POST"
                  (Some (JObj [("requested_due_date", JStr (trim (or_str proposed "")));
                               ("reason", JStr (or_str reason ""))])) true w])%list.
Proof.
  unfold openExtensionRequest.
  destruct (taskId =? 0)%Z; [by left|].
  destruct (negb (truthy_str proposed)); [by left|].
  destruct (negb (is_ymd (trim (or_str proposed "")))); [by left|].
  destruct (negb (truthy_str reason)); [by left|].
  right. apply request_once; intros;
    unfold showToast, loadTasks, loadActivityLogs, refresh_chat, loadActivityChat, call; keeps.
Qed.

Lemma openExtensionRequest_posts taskId p r w :
  taskId <> 0%Z -> is_ymd (trim p) = true -> r <> "" ->
  sent (snd (openExtensionRequest taskId (Some p) (Some r) w))
  = (sent w ++ [built ("/tasks/" ++ pretty taskId ++ "/extension-requests") "POST"
                  (Some (JObj [("requested_due_date", JStr (trim p)); ("reason", JStr r)]))
                  true w])%list.
Proof.
  intros Hid Hp Hr. unfold openExtensionRequest.
  apply Z.eqb_neq in Hid. rewrite Hid.
  assert (Hpne : String.eqb p "" = false).
  { destruct p; [discriminate Hp|reflexivity]. }
  apply String.eqb_neq in Hr.
  unfold truthy_str, or_str. rewrite Hpne, Hr, Hp. cbn [negb].
  apply request_once; intros;
    unfold showToast, loadTasks, loadActivityLogs, refresh_chat, loadActivityChat, call; keeps.
Qed.

Lemma review_approve requestId taskId btn d w :
  requestId <> 0%Z -> admin_role (stored_role w) = true -> is_ymd (trim d) = true ->
  sent (snd (reviewExtensionRequest requestId taskId btn true (Some d) w))
  = (sent w ++ [built ("/tasks/extension-requests/" ++ pretty requestId) "PUT"
                  (Some (JObj [("status", JStr "approved"); ("new_due_date", JStr (trim d))]))
                  true w])%list.
Proof.
  intros Hid Ha Hd. unfold reviewExtensionRequest.
  apply Z.eqb_neq in Hid. rewrite Hid. unfold bind at 1. rewrite isUserAdmin_run, Ha.
  cbn [negb]. cbv iota. rewrite (is_ymd_nonempty _ Hd), Hd. cbn [negb]. cbv iota.
  apply request_once; intros;
    unfold showToast, loadTasks, loadActivityLogs, refresh_chat, loadActivityChat, call; keeps.
Qed.

Lemma review_reject requestId taskId btn finalInput w :
  requestId <> 0%Z -> admin_role (stored_role w) = true ->
  sent (snd (reviewExtensionRequest requestId taskId btn false finalInput w))
  = (sent w ++ [built ("/tasks/extension-requests/" ++ pretty requestId) "PUT"
                  (Some (JObj [("status", JStr "rejected")])) true w])%list.
Proof.
  intros Hid Ha. unfold reviewExtensionRequest.
  apply Z.eqb_neq in Hid. rewrite Hid. unfold bind at 1. rewrite isUserAdmin_run, Ha.
  cbn [negb]. cbv iota.
  apply request_once; intros;
    unfold showToast, loadTasks, loadActivityLogs, refresh_chat, loadActivityChat, call; keeps.
Qed.

Lemma review_member requestId taskId btn approve finalInput w :
  admin_role (stored_role w) = false ->
  sent (snd (reviewExtensionRequest requestId taskId btn approve finalInput w)) = sent w.
Proof.
  intros Ha. unfold reviewExtensionRequest. destruct (requestId =? 0)%Z; [reflexivity|].
  unfold bind. by rewrite isUserAdmin_run, Ha.
Qed.



(** ** C8: working days left *)

Lemma weekdays_nil a : weekdays a a = 0%Z.
Proof. unfold weekdays. by rewrite Z.sub_diag. Qed.

Lemma weekdays_step a b :
  (a < b)%Z ->
  weekdays a b = ((if is_weekday a then 1 else 0) + weekdays (a + 1) b)%Z.
Proof.
  intros Hab. unfold weekdays. rewrite (seqZ_cons a (b - a)) by lia.
  replace (Z.pred (b - a)) with (b - (a + 1))%Z by lia.
  replace (Z.succ a) with (a + 1)%Z by lia.
  cbn [List.filter]. destruct (is_weekday a); cbn [length]; lia.
Qed.

(** The loop stops at [end_], having counted the weekdays it passed. *)
Lemma count_days_spec n cursor end_ days :
  (end_ - cursor = Z.of_nat n)%Z ->
  count_days n cursor end_ days = (end_, (days + weekdays cursor end_)%Z).
Proof.
  revert cursor days. induction n as [|n IH]; intros cursor days Hn.
  - assert (cursor = end_) as -> by lia. cbn. rewrite weekdays_nil. f_equal. lia.
  - cbn [count_days]. assert (Hlt : (cursor <? end_)%Z = true) by (apply Z.ltb_lt; lia).
    rewrite Hlt. rewrite IH by lia. rewrite (weekdays_step cursor end_) by lia.
    unfold is_weekday. f_equal.
    destruct (negb (getUTCDay cursor =? 0)%Z && negb (getUTCDay cursor =? 6)%Z); lia.
Qed.

Lemma computeWorkingDaysLeft_parsed today s y m d t u :
  s <> "" -> parsed s = Some (y, m, d) ->
  today_utc today = Some t -> Date_UTC y (m - 1) d = Some u ->
  computeWorkingDaysLeft today (Some s)
  = Some (if (t =? u)%Z then 0 else if (t <? u)%Z then weekdays t u else - weekdays u t)%Z.
Proof.
  intros Hs Hp Ht Hu. unfold computeWorkingDaysLeft, parsed, today_utc in *.
  apply String.eqb_neq in Hs. cbn [truthy_str negb]. rewrite Hs. cbn [negb].
  change (default "" (Some s)) with s.
  destruct (split "-" s) as [|p0 [|p1 [|p2 [|]]]]; try discriminate Hp.
  destruct (parseInt p0), (parseInt p1), (parseInt p2); try discriminate Hp.
  injection Hp as -> -> ->. cbv zeta. rewrite Ht, Hu.
  destruct (Z.eqb_spec t u) as [->|Hne]; [reflexivity|].
  destruct (Z.ltb_spec t u) as [Hlt|Hge].
  - rewrite count_days_spec by lia. cbn [snd]. f_equal.
  - rewrite count_days_spec by lia. cbn [snd]. f_equal.
Qed.

Lemma computeWorkingDaysLeft_null_string today s :
  s <> "" ->
  computeWorkingDaysLeft today (Some s) = None <->
  parsed s = None \/
  exists y m d, parsed s = Some (y, m, d) /\
    (today_utc today = None \/ Date_UTC y (m - 1) d = None).
Proof.
  intros Hs. unfold computeWorkingDaysLeft, parsed, today_utc.
  apply String.eqb_neq in Hs. cbn [truthy_str negb]. rewrite Hs. cbn [negb].
  change (default "" (Some s)) with s.
  destruct (split "-" s) as [|p0 [|p1 [|p2 [|]]]];
    try (split; [intros _; left; reflexivity|intros _; reflexivity]).
  destruct (parseInt p0) as [y|], (parseInt p1) as [m|], (parseInt p2) as [d|];
    try (split; [intros _; left; reflexivity|intros _; reflexivity]).
  cbv zeta.
  destruct (Date_UTC (getFullYear today) (getMonth today) (getDate today)) as [t|].
  2:{ split; [intros _; right; exists y, m, d; auto|intros _; reflexivity]. }
  destruct (Date_UTC y (m - 1) d) as [u|] eqn:Hu.
  2:{ split; [intros _; right; exists y, m, d; auto|intros _; reflexivity]. }
  split.
  - destruct (t =? u)%Z; discriminate.
  - intros [H|(y0 & m0 & d0 & [= <- <- <-] & [H|H])]; [discriminate H|discriminate H|].
    rewrite Hu in H. discriminate H.
Qed.

Lemma computeWorkingDaysLeft_null today s :
  computeWorkingDaysLeft today s = None <->
  truthy_str s = false \/
  exists s', s = Some s' /\
    (parsed s' = None \/
     exists y m d, parsed s' = Some (y, m, d) /\
       (today_utc today = None \/ Date_UTC y (m - 1) d = None)).
Proof.
  destruct (truthy_str s) eqn:Ht.
  - destruct s as [s'|]; [|discriminate Ht].
    assert (Hs : s' <> "").
    { intros ->. discriminate Ht. }
    rewrite (computeWorkingDaysLeft_null_string today s' Hs). split.
    + intros H. right. exists s'. auto.
    + intros [H|(s0 & [= <-] & H)]; [discriminate H|exact H].
  - split; [auto|]. intros _. unfold computeWorkingDaysLeft. by rewrite Ht.
Qed.

Lemma digit_is_no_hyphen c : is_digit c = true -> Ascii.eqb c "-" = false.
Proof. destruct c as [[] [] [] [] [] [] [] []]; try discriminate; reflexivity. Qed.

Lemma digit_val_range c : is_digit c = true -> (0 <= digit_val c <= 9)%Z.
Proof. destruct c as [[] [] [] [] [] [] [] []]; try discriminate; intros _; cbv; split; discriminate. Qed.

Lemma parseInt_digit c r :
  is_digit c = true -> parseInt (String c r) = digits_prefix (String c r) None.
Proof. destruct c as [[] [] [] [] [] [] [] []]; try discriminate; reflexivity. Qed.

Lemma is_ymd_inv s :
  is_ymd s = true ->
  exists y1 y2 y3 y4 m1 m2 a1 a2,
    s = String y1 (String y2 (String y3 (String y4 (String "-"
          (String m1 (String m2 (String "-" (String a1 (String a2 ""))))))))) /\
    is_digit y1 = true /\ is_digit y2 = true /\ is_digit y3 = true /\ is_digit y4 = true /\
    is_digit m1 = true /\ is_digit m2 = true /\ is_digit a1 = true /\ is_digit a2 = true.
Proof.
  unfold is_ymd.
  destruct s as [|y1 [|y2 [|y3 [|y4 [|d1 [|m1 [|m2 [|d2 [|a1 [|a2 [|x s]]]]]]]]]]];
    cbn [list_ascii_of_string]; try discriminate.
  intros H.
  repeat match goal with
         | H : _ && _ = true |- _ => apply andb_true_iff in H as [? ?]
         end.
  repeat match goal with
         | H : Ascii.eqb _ _ = true |- _ => apply Ascii.eqb_eq in H; subst
         end.
  exists y1, y2, y3, y4, m1, m2, a1, a2. repeat split; assumption.
Qed.

(** A well-formed date string parses, to the numbers it spells. *)
Lemma is_ymd_parsed s :
  is_ymd s = true ->
  exists y m d,
    parsed s = Some (y, m, d) /\
    (0 <= y <= 9999)%Z /\ (0 <= m <= 99)%Z /\ (0 <= d <= 99)%Z.
Proof.
  intros H.
  destruct (is_ymd_inv s H)
    as (y1 & y2 & y3 & y4 & m1 & m2 & a1 & a2 & -> & Hy1 & Hy2 & Hy3 & Hy4 & Hm1 & Hm2 & Ha1 & Ha2).
  unfold parsed. cbn [split].
  rewrite (digit_is_no_hyphen _ Hy1), (digit_is_no_hyphen _ Hy2), (digit_is_no_hyphen _ Hy3),
    (digit_is_no_hyphen _ Hy4), (digit_is_no_hyphen _ Hm1), (digit_is_no_hyphen _ Hm2),
    (digit_is_no_hyphen _ Ha1), (digit_is_no_hyphen _ Ha2).
  change (Ascii.eqb "-" "-") with true. cbv iota.
  rewrite (parseInt_digit _ _ Hy1), (parseInt_digit _ _ Hm1), (parseInt_digit _ _ Ha1).
  cbn [digits_prefix]. rewrite Hy1, Hy2, Hy3, Hy4, Hm1, Hm2, Ha1, Ha2.
  cbn [default from_option].
  pose proof (digit_val_range _ Hy1). pose proof (digit_val_range _ Hy2).
  pose proof (digit_val_range _ Hy3). pose proof (digit_val_range _ Hy4).
  pose proof (digit_val_range _ Hm1). pose proof (digit_val_range _ Hm2).
  pose proof (digit_val_range _ Ha1). pose proof (digit_val_range _ Ha2).
  eexists _, _, _. split; [reflexivity|]. unfold Datatypes.id. lia.
Qed.

Lemma month_start_range leap mn : (0 <= month_start leap mn <= 335)%Z.
Proof.
  unfold month_start.
  repeat match goal with |- context [if ?b then _ else _] => destruct b end; lia.
Qed.

(** Every date a well-formed string can spell is within the range of Date. *)
Lemma Date_UTC_in_range y m d :
  (0 <= y <= 9999)%Z -> (0 <= m <= 99)%Z -> (0 <= d <= 99)%Z ->
  is_Some (Date_UTC y (m - 1) d).
Proof.
  intros Hy Hm Hd. unfold Date_UTC.
  set (yr := if ((0 <=? y) && (y <=? 99))%Z then (1900 + y)%Z else y).
  assert (Hyr : (0 <= yr <= 9999)%Z).
  { subst yr. destruct ((0 <=? y) && (y <=? 99))%Z eqn:E; [|lia].
    apply andb_true_iff in E as [_ E]. apply Z.leb_le in E. lia. }
  assert (Hday : (-100000000 <= MakeDay yr (m - 1) d <= 100000000)%Z).
  { unfold MakeDay, DayFromYear.
    pose proof (month_start_range (InLeapYear (yr + (m - 1) / 12)) ((m - 1) mod 12)).
    generalize dependent (month_start (InLeapYear (yr + (m - 1) / 12)) ((m - 1) mod 12)).
    intros ms Hms. Z.to_euclidean_division_equations. lia. }
  assert (Hb : ((-100000000 <=? MakeDay yr (m - 1) d) && (MakeDay yr (m - 1) d <=? 100000000))%Z
               = true).
  { apply andb_true_iff. split; apply Z.leb_le; lia. }
  rewrite Hb. eauto.
Qed.

Lemma computeWorkingDaysLeft_well_formed today s :
  is_ymd s = true -> is_Some (today_utc today) ->
  is_Some (computeWorkingDaysLeft today (Some s)).
Proof.
  intros Hs [t Ht].
  destruct (is_ymd_parsed s Hs) as (y & m & d & Hp & Hy & Hm & Hd).
  destruct (Date_UTC_in_range y m d Hy Hm Hd) as [u Hu].
  assert (Hne : s <> "") by (intros ->; discriminate Hs).
  rewrite (computeWorkingDaysLeft_parsed today s y m d t u Hne Hp Ht Hu). eauto.
Qed.

Lemma weekdays_split a b c :
  (a <= b <= c)%Z -> weekdays a c = (weekdays a b + weekdays b c)%Z.
Proof.
  intros H. unfold weekdays.
  replace (c - a)%Z with ((b - a) + (c - b))%Z by lia.
  rewrite seqZ_app by lia. rewrite List.filter_app, length_app.
  replace (a + (b - a))%Z with b by lia. lia.
Qed.

Lemma weekdays_nonneg a b : (0 <= weekdays a b)%Z.
Proof. unfold weekdays. lia. Qed.




(** ** C10: the stored role and letter case *)

Lemma wl_invariant {A} (c : M A) w :
  writes_lowercase c -> role_lowercase w -> role_lowercase (snd (c w)).
Proof.
  intros Hc Hw v Hv. destruct (Hc w) as [H|[H|(v' & H & Hl)]].
  - apply Hw. by rewrite <- H.
  - congruence.
  - congruence.
Qed.

Lemma wl_element id : writes_lowercase (element id).
Proof. apply wl_keeps. intros w. unfold element. by destruct (dom w !! id). Qed.

Lemma wl_login : writes_lowercase Auth.login.
Proof.
  unfold Auth.login, Auth.showAuthMsg.
  apply wl_bind; [apply wl_element|intros username_el]. cbv zeta.
  apply wl_bind; [apply wl_element|intros password_el]. cbv zeta.
  destruct (_ || _); [wl|]. apply wl_bind; [wl|intros].
  apply wl_catch; [|intros; wl].
  apply wl_bind; [apply wl_apiRequest|intros; apply wl_login_then].
Qed.

Lemma wl_setUserRoleConfirm role label newRole userId ok :
  In (label, newRole) (renderUsers_buttons role) ->
  writes_lowercase (setUserRoleConfirm userId newRole ok).
Proof.
  intros H. unfold setUserRoleConfirm. destruct (negb ok); [wl|].
  apply wl_updateUserRole. by eapply buttons_lowercase.
Qed.

Lemma wl_page_load : writes_lowercase page_load.
Proof.
  apply wl_keeps. unfold page_load, isLoggedIn, getSessionToken, getUserId, navigate, send.
  apply keeps_bind; [keeps|intros logged]. destruct (negb logged); [keeps|].
  apply keeps_bind; [keeps|intros]. apply keeps_bind; [unfold updateHeaderRole, getEffectiveRole; keeps|intros].
  apply keeps_bind; [apply setup_storage|intros].
  apply keeps_bind; [intros w; by rewrite apiRequest_options_run|intros]. keeps.
Qed.

Lemma wl_loadUserTeams_then teams : writes_lowercase (loadUserTeams_then teams).
Proof.
  apply wl_keeps. unfold loadUserTeams_then.
  apply keeps_bind; [keeps|intros].
  apply keeps_bind; [destruct (_ || _); keeps|intros].
  apply keeps_bind; [unfold updateHeaderRole, getEffectiveRole; keeps|intros].
  apply keeps_bind; [keeps|intros]. apply keeps_bind; [apply setup_storage|intros].
  apply keeps_bind; [unfold getEffectiveRole; keeps|intros]. keeps.
Qed.

Lemma wl_run_event e : from_button e -> writes_lowercase (run_event e).
Proof.
  destruct e as [res|page|teams|r|userId newRole]; simpl; intros H.
  - apply wl_catch; [apply wl_login_then|intros; wl].
  - apply wl_bind; [wl|intros]. apply wl_bind; [apply wl_page_load|intros].
    unfold loadUserTeams, loadTasks. wl.
  - apply wl_loadUserTeams_then.
  - apply wl_page_load_settled.
  - destruct H as (role & label & H). by eapply wl_setUserRoleConfirm.
Qed.

Lemma after_role_lowercase events w :
  Forall from_button events -> role_lowercase w -> role_lowercase (after events w).
Proof.
  unfold after. intros H. revert w. induction H as [|e events He _ IH]; intros w Hw; simpl.
  - exact Hw.
  - apply IH. by apply wl_invariant; [apply wl_run_event|].
Qed.



(** * Further properties of the code *)

(** ** Numbers written and read back *)

Lemma pretty_N_char_digit x :
  (x < 10)%N ->
  is_digit (pretty_N_char x) = true /\ digit_val (pretty_N_char x) = Z.of_N x.
Proof.
  intros H.
  assert (x = 0 \/ x = 1 \/ x = 2 \/ x = 3 \/ x = 4 \/ x = 5 \/ x = 6 \/ x = 7 \/ x = 8 \/ x = 9)%N
    as Hx by lia.
  repeat (destruct Hx as [->|Hx]; [by vm_compute|]). subst x. by vm_compute.
Qed.

(** Reading the digits [pretty_N_go] has put in front of [s]. *)
Lemma digits_prefix_pretty_N_go x s acc :
  (0 < x)%N ->
  exists k : Z,
    (0 <= k)%Z /\
    digits_prefix (pretty_N_go x s) acc
    = digits_prefix s (Some (default 0%Z acc * 10 ^ k + Z.of_N x)%Z).
Proof.
  revert s acc. induction (N.lt_wf_0 x) as [x _ IH]. intros s acc Hx.
  rewrite pretty_N_go_step by done.
  destruct (pretty_N_char_digit (x `mod` 10)%N) as [Hd Hv]; [by apply N.mod_lt|].
  destruct (decide (x `div` 10 = 0)%N) as [E|E].
  - rewrite E, pretty_N_go_0. cbn [digits_prefix]. rewrite Hd, Hv.
    exists 1%Z. split; [lia|]. do 2 f_equal.
    pose proof (N.div_mod x 10 ltac:(lia)) as Hdm. rewrite E in Hdm.
    rewrite Hdm at 2. rewrite N.mul_0_r, N.add_0_l. lia.
  - destruct (IH (x `div` 10)%N) with (s := String (pretty_N_char (x `mod` 10)) s) (acc := acc)
      as (k & Hk & ->); [apply N.div_lt; lia|by apply N.neq_0_lt_0|].
    cbn [digits_prefix]. rewrite Hd, Hv. exists (k + 1)%Z. split; [lia|].
    do 2 f_equal. cbn [default]. rewrite Z.pow_add_r by lia.
    pose proof (N.div_mod x 10 ltac:(lia)) as Hdm.
    apply (f_equal Z.of_N) in Hdm. rewrite N2Z.inj_add, N2Z.inj_mul in Hdm.
    generalize dependent (Z.of_N (x `div` 10)). generalize dependent (Z.of_N (x `mod` 10)).
    intros. change (Z.of_N 10) with 10%Z in Hdm. rewrite Hdm.
    change (10 ^ 1)%Z with 10%Z. unfold Datatypes.id. ring.
Qed.

Lemma pretty_N_go_head x s :
  (0 < x)%N -> exists c r, pretty_N_go x s = String c r /\ is_digit c = true.
Proof.
  revert s. induction (N.lt_wf_0 x) as [x _ IH]. intros s Hx.
  rewrite pretty_N_go_step by done.
  destruct (pretty_N_char_digit (x `mod` 10)%N) as [Hd Hv]; [by apply N.mod_lt|].
  destruct (decide (x `div` 10 = 0)%N) as [E|E].
  - rewrite E, pretty_N_go_0. eauto.
  - apply IH; [apply N.div_lt; lia|by apply N.neq_0_lt_0].
Qed.

Lemma digit_not_ws c : is_digit c = true -> is_ws c = false.
Proof. destruct c as [[] [] [] [] [] [] [] []]; vm_compute; intros; congruence. Qed.

Lemma digit_not_sign c : is_digit c = true -> c <> "-"%char /\ c <> "+"%char.
Proof. destruct c as [[] [] [] [] [] [] [] []]; vm_compute; intros; split; congruence. Qed.

Lemma parseInt_digits c r :
  is_digit c = true -> parseInt (String c r) = digits_prefix (String c r) None.
Proof.
  intros H. unfold parseInt. cbn [trimStart]. rewrite (digit_not_ws c H).
  destruct (digit_not_sign c H) as [H1 H2].
  destruct c as [[] [] [] [] [] [] [] []]; try reflexivity; congruence.
Qed.

Lemma parseInt_pretty_pos p : parseInt (pretty (Zpos p)) = Some (Zpos p).
Proof.
  change (pretty (Zpos p)) with (pretty_N_go (Npos p) "").
  destruct (pretty_N_go_head (Npos p) "") as (c & r & E & Hc); [lia|].
  rewrite E, (parseInt_digits c r Hc), <- E.
  destruct (digits_prefix_pretty_N_go (Npos p) "" None) as (k & _ & ->); [lia|].
  cbn. reflexivity.
Qed.

(** [parseInt(String(n), 10)] is [n]. *)
Lemma parseInt_pretty (n : Z) : parseInt (pretty n) = Some n.
Proof.
  destruct n as [|p|p].
  - reflexivity.
  - apply parseInt_pretty_pos.
  - change (pretty (Zneg p)) with (String "-"%char (pretty_N_go (Npos p) "")).
    unfold parseInt. cbn [trimStart]. change (is_ws "-") with false. cbv iota.
    destruct (digits_prefix_pretty_N_go (Npos p) "" None) as (k & _ & ->); [lia|].
    cbn. reflexivity.
Qed.

(** ** api.js: what an answer does to the session *)

Lemma settle_run response w : apiRequest_settle response w = settle_result response w.
Proof.
  unfold settle_result. destruct (result_of response) as [result|] eqn:Hr.
  - destruct (Z.eqb_spec (Browser.status response) 401) as [Hs|Hs].
    + by apply settle_401.
    + destruct (ok response) eqn:Hok.
      * by apply settle_ok.
      * by apply settle_failed.
  - by apply settle_unreadable.
Qed.

Lemma settle_form_run response w :
  apiRequestFormData_settle response w = settle_result response w.
Proof. exact (settle_run response w). Qed.

(** A call of [apiRequest], by what the network holds. *)
Lemma apiRequest_run e m d u w :
  apiRequest e m d u w
  = match network w with
    | Resolved response :: _ => settle_result response (requested (built e m d u w) w)
    | _ => (Thrown fetch_failed, requested (built e m d u w) w)
    end.
Proof.
  unfold apiRequest, bind. rewrite apiRequest_options_run. unfold fetch, requested.
  destruct (network w) as [|[|response] rest] eqn:Hn; cbn [tail].
  - unfold set_network, set_sent. cbn. by rewrite Hn.
  - reflexivity.
  - apply settle_run.
Qed.

Lemma apiRequestFormData_run e m f w :
  apiRequestFormData e m f w
  = match network w with
    | Resolved response :: _ => settle_result response (requested (built_form e m f w) w)
    | _ => (Thrown fetch_failed, requested (built_form e m f w) w)
    end.
Proof.
  unfold apiRequestFormData, bind. rewrite apiRequestFormData_options_run.
  unfold fetch, requested.
  destruct (network w) as [|[|response] rest] eqn:Hn; cbn [tail].
  - unfold set_network, set_sent. cbn. by rewrite Hn.
  - reflexivity.
  - apply settle_form_run.
Qed.

Lemma settle_result_session response w :
  Browser.status response <> 401%Z ->
  localStorage (snd (settle_result response w)) = localStorage w /\
  href (snd (settle_result response w)) = href w.
Proof.
  intros Hs. unfold settle_result. apply Z.eqb_neq in Hs. rewrite Hs.
  destruct (result_of response); [destruct (ok response)|]; done.
Qed.

(** X1.  Whatever answer arrives whose status is not 401 (or when the
    request fails to be answered), apiRequest and apiRequestFormData leave
    localStorage and the location of the page exactly as they were: only a
    401 signs the user out. *)
Theorem session_survives_every_answer_but_401 :
  (forall endpoint method data useAuth w,
     (forall response rest, network w = Resolved response :: rest ->
                            Browser.status response <> 401%Z) ->
     localStorage (snd (apiRequest endpoint method data useAuth w)) = localStorage w /\
     href (snd (apiRequest endpoint method data useAuth w)) = href w) /\
  (forall endpoint method file w,
     (forall response rest, network w = Resolved response :: rest ->
                            Browser.status response <> 401%Z) ->
     localStorage (snd (apiRequestFormData endpoint method file w)) = localStorage w /\
     href (snd (apiRequestFormData endpoint method file w)) = href w).
Proof.
  split.
  - intros e m d u w H. rewrite apiRequest_run.
    destruct (network w) as [|[|response] rest] eqn:Hn; try done.
    destruct (settle_result_session response (requested (built e m d u w) w)); [by eapply H|].
    done.
  - intros e m f w H. rewrite apiRequestFormData_run.
    destruct (network w) as [|[|response] rest] eqn:Hn; try done.
    destruct (settle_result_session response (requested (built_form e m f w) w));
      [by eapply H|].
    done.
Qed.

Lemma session_survives_witness :
  localStorage (snd (apiRequest "/tasks" "GET" None true (receiving bare_500)))
  = localStorage (receiving bare_500) /\
  href (snd (apiRequest "/tasks" "GET" None true (receiving bare_500)))
  = href (receiving bare_500).
Proof.
  refine (proj1 session_survives_every_answer_but_401 "/tasks" "GET" None true
            (receiving bare_500) _).
  intros response rest [= <- _]. vm_compute. discriminate.
Defined.

Lemma or_str_nonempty a d : d <> "" -> String.eqb (or_str a d) "" = false.
Proof.
  intros Hd. unfold or_str. destruct a as [s|]; [destruct (String.eqb_spec s "")|];
    by apply String.eqb_neq.
Qed.

(** X2.  When the answer is not ok and its content type is missing or is not
    JSON, apiRequest throws an Error whose message is the status text of the
    answer, or Request failed when the status text is empty. *)
Theorem non_json_failure_carries_status_text endpoint method data useAuth response rest w :
  network w = Resolved response :: rest ->
  ok response = false ->
  (forall ct, contentType response = Some ct -> includes "application/json" ct = false) ->
  fst (apiRequest endpoint method data useAuth w)
  = Thrown (Error (or_str (Some (statusText response)) "Request failed")).
Proof.
  intros Hn Hok Hct. rewrite apiRequest_run, Hn. unfold settle_result, result_of.
  assert (forall X Y : option json,
            match contentType response with
            | Some ct => if negb (String.eqb ct "") && includes "application/json" ct
                         then X else Y
            | None => Y
            end = Y) as Hsel.
  { intros X Y. destruct (contentType response) as [ct|] eqn:E; [|done].
    by rewrite (Hct ct eq_refl), andb_false_r. }
  rewrite Hsel, Hok. unfold expired, failure, prop. cbn [assoc].
  change (String.eqb "detail" "detail") with true. cbv iota.
  cbn [truthy_val truthy ToString_val ToString].
  rewrite (or_str_nonempty _ "Request failed") by discriminate. cbn [negb].
  by destruct (Browser.status response =? 401)%Z.
Qed.

Lemma non_json_failure_witness :
  fst (apiRequest "/tasks" "GET" None true (receiving gateway_502))
  = Thrown (Error (or_str (Some (statusText gateway_502)) "Request failed")).
Proof.
  refine (non_json_failure_carries_status_text "/tasks" "GET" None true gateway_502 []
            (receiving gateway_502) _ _ _).
  - reflexivity.
  - reflexivity.
  - intros ct [= <-]. reflexivity.
Defined.

(** ** auth.js: the sign-in, registration and reset forms *)

Lemma showAuthMsg_run text isError w :
  Auth.showAuthMsg text isError w
  = (Returned tt, set_dom (alter (auth_msg text isError) "auth-msg") w).
Proof. reflexivity. Qed.

Lemma element_run id e w : dom w !! id = Some e -> element id w = (Returned e, w).
Proof. intros H. unfold element. by rewrite H. Qed.

Lemma bind_run {A B} (c : M A) (k : A -> M B) w a w1 :
  c w = (Returned a, w1) -> bind c k w = k a w1.
Proof. intros H. unfold bind. by rewrite H. Qed.

Lemma login_unfold w u p :
  dom w !! "username" = Some u -> dom w !! "password" = Some p ->
  Auth.login w
  = if String.eqb (trim (value u)) "" || String.eqb (value p) ""
    then Auth.showAuthMsg "Please enter username and password" true w
    else
      catch
        (res <- apiRequest "/login" "POST" (Some (login_data u p)) false ;;
         Auth.login_then (trim (value u)) res)
        (fun err =>
           Auth.showAuthMsg (or_str (Some (message err)) "Invalid username or password") true)
        (set_dom (alter (auth_msg "Signing in…" false) "auth-msg") w).
Proof.
  intros Hu Hp. unfold Auth.login.
  rewrite (bind_run _ _ _ _ _ (element_run _ _ _ Hu)). cbv zeta.
  rewrite (bind_run _ _ _ _ _ (element_run _ _ _ Hp)). cbv zeta.
  destruct (String.eqb (trim (value u)) "" || String.eqb (value p) ""); [reflexivity|].
  by rewrite (bind_run _ _ _ _ _ (showAuthMsg_run _ _ _)).
Qed.



Lemma role_or_member_run v w :
  role_or_member v w
  = match server_role v with
    | Some r => (Returned r, w)
    | None => (Thrown (mkExn TypeErrorK "toLowerCase is not a function"), w)
    end.
Proof.
  unfold role_or_member, server_role, lowered.
  destruct v as [[| [] | z | s | l | f]|]; cbn; try reflexivity.
  - destruct (negb (z =? 0)%Z); reflexivity.
  - unfold or_str. destruct (String.eqb s ""); reflexivity.
Qed.

Lemma login_then_accepts username fields role w :
  truthy_val (assoc "session_token" fields) = true ->
  server_role (assoc "role" fields) = Some role ->
  Auth.login_then username (JObj fields) w
  = (Returned tt,
     set_href (Some "dashboard.html")
       (set_localStorage (logged_in username fields role) w)).
Proof.
  intros Ht Hr. unfold Auth.login_then, get_prop, prop, bind, ret. rewrite Ht.
  unfold setItem, modify, navigate. cbn [fst snd]. rewrite role_or_member_run, Hr.
  reflexivity.
Qed.



Lemma element_keeps {X} (f : World -> X) id : keeps f (element id).
Proof. intros w. unfold element. by destruct (dom w !! id). Qed.

Lemma cleared_subseteq (storage : gmap string string) : cleared storage ⊆ storage.
Proof.
  unfold cleared.
  repeat (etrans; [apply delete_subseteq|]). done.
Qed.

Lemma settle_result_storage response w :
  localStorage (snd (settle_result response w)) ⊆ localStorage w /\
  (href (snd (settle_result response w)) = href w \/
   href (snd (settle_result response w)) = Some "index.html").
Proof.
  unfold settle_result.
  destruct (result_of response); [|by split; [|left]].
  destruct (Browser.status response =? 401)%Z.
  - cbn [snd]. destruct (signed_out_facts w) as (-> & -> & _). split; [apply cleared_subseteq|].
    destruct (includes "dashboard" (pathname w)); auto.
  - destruct (ok response); by split; [|left].
Qed.

Lemma login_then_rejects username result w :
  carries_token result = false ->
  localStorage (snd (Auth.login_then username result w)) = localStorage w /\
  href (snd (Auth.login_then username result w)) = href w.
Proof.
  unfold carries_token, Auth.login_then, get_prop, bind.
  destruct (prop result "session_token") as [v|] eqn:Hp; [|done].
  intros Ht. cbn [ret fst snd]. rewrite Ht.
  destruct (prop result "detail"); done.
Qed.

(** X5.  When no answer with a session token arrives, login adds or changes
    no key of localStorage (keys can only disappear, on a 401), and the page
    stays where it is or, on a 401, goes to index.html. *)
Theorem refused_login_stores_nothing w u p :
  dom w !! "username" = Some u -> dom w !! "password" = Some p ->
  (forall response rest result,
     network w = Resolved response :: rest -> ok response = true ->
     result_of response = Some result -> carries_token result = false) ->
  (forall k v, localStorage (snd (Auth.login w)) !! k = Some v -> localStorage w !! k = Some v) /\
  (href (snd (Auth.login w)) = href w \/ href (snd (Auth.login w)) = Some "index.html").
Proof.
  intros Hu Hp Hno. rewrite <- map_subseteq_spec.
  rewrite (login_unfold w u p Hu Hp).
  destruct (String.eqb (trim (value u)) "" || String.eqb (value p) ""); [by split; [|left]|].
  set (w0 := set_dom _ w). unfold catch, bind.
  rewrite apiRequest_run. change (network w0) with (network w).
  destruct (network w) as [|[|response] rest] eqn:Hn; try (by split; [|left]).
  pose proof (settle_result_storage response (requested
    (built "/login" "POST" (Some (login_data u p)) false w0) w0)) as Hs.
  unfold settle_result in *.
  destruct (result_of response) as [result|] eqn:Hr; [|by split; [|left]].
  destruct (Browser.status response =? 401)%Z; [exact Hs|].
  destruct (ok response) eqn:Hok; [|by split; [|left]].
  cbn [fst snd] in *.
  destruct (login_then_rejects (trim (value u)) result
              (requested (built "/login" "POST" (Some (login_data u p)) false w0) w0)
              (Hno response rest result eq_refl Hok Hr)) as [H1 H2].
  destruct (Auth.login_then _ result _) as [[[]|x] w2]; simpl in *.
  - rewrite H1, H2. by split; [|left].
  - rewrite H1, H2. by split; [|left].
Qed.

Lemma refused_login_witness :
  (forall k v,
     localStorage (snd (Auth.login (set_network [Resolved login_refused] filled_login))) !! k
     = Some v ->
     localStorage (set_network [Resolved login_refused] filled_login) !! k = Some v) /\
  (href (snd (Auth.login (set_network [Resolved login_refused] filled_login)))
   = href (set_network [Resolved login_refused] filled_login) \/
   href (snd (Auth.login (set_network [Resolved login_refused] filled_login)))
   = Some "index.html").
Proof.
  refine (refused_login_stores_nothing (set_network [Resolved login_refused] filled_login)
            (with_value " asha " blank_element) (with_value "s3cret" blank_element) _ _ _).
  - reflexivity.
  - reflexivity.
  - intros response rest result [= <- _] Hok. vm_compute in Hok. discriminate Hok.
Defined.

Lemma signup_unfold w u p r :
  dom w !! "reg-username" = Some u -> dom w !! "reg-password" = Some p ->
  dom w !! "reg-role" = Some r ->
  sent (snd (Auth.signup w))
  = if signup_filled u p
    then (sent w ++ [built "/users" "POST" (Some (signup_data u p r)) false w])%list
    else sent w.
Proof.
  intros Hu Hp Hr. unfold Auth.signup, signup_filled.
  rewrite (bind_run _ _ _ _ _ (element_run _ _ _ Hu)). cbv zeta.
  rewrite (bind_run _ _ _ _ _ (element_run _ _ _ Hp)). cbv zeta.
  rewrite (bind_run _ _ _ _ _ (element_run _ _ _ Hr)). cbv zeta.
  destruct (String.eqb (trim (value u)) ""); [reflexivity|].
  destruct (String.eqb (value p) ""); [reflexivity|]. cbn [orb negb andb].
  destruct (String.eqb (toLowerCase (trim (value u))) (toLowerCase (value p))); [reflexivity|].
  cbn [negb]. rewrite (bind_run _ _ _ _ _ (showAuthMsg_run _ _ _)).
  rewrite request_once; [reflexivity| |by intros x w'].
  intros x. unfold Auth.showAuthMsg.
  apply keeps_bind; [by intros ?|intros]. apply keeps_bind; [apply element_keeps|intros].
  apply keeps_bind; [by intros ?|intros]. apply keeps_bind; [apply element_keeps|intros].
  by intros ?.
Qed.



Lemma resetPassword_unfold w id name new confirm :
  dom w !! "reset-password-user-id" = Some id ->
  dom w !! "reset-password-username" = Some name ->
  dom w !! "reset-new-password" = Some new ->
  dom w !! "reset-new-password-confirm" = Some confirm ->
  sent (snd (Auth.resetPassword w))
  = if reset_password_filled id name new confirm
    then (sent w ++ [built "/auth/reset-password" "POST"
                       (Some (JObj [("user_id", JNum (default 0%Z (parseInt (value id))));
                                    ("username", JStr (trim (value name)));
                                    ("new_password", JStr (value new))])) false w])%list
    else sent w.
Proof.
  intros H1 H2 H3 H4. unfold Auth.resetPassword, reset_password_filled.
  rewrite (bind_run _ _ _ _ _ (element_run _ _ _ H1)).
  rewrite (bind_run _ _ _ _ _ (element_run _ _ _ H2)). cbv zeta.
  rewrite (bind_run _ _ _ _ _ (element_run _ _ _ H3)). cbv zeta.
  rewrite (bind_run _ _ _ _ _ (element_run _ _ _ H4)). cbv zeta.
  destruct (bad_id (parseInt (value id))); [reflexivity|].
  destruct (String.eqb (trim (value name)) ""); [reflexivity|].
  destruct (String.eqb (value new) ""); [reflexivity|].
  destruct (String.eqb (value confirm) ""); [reflexivity|]. cbn [orb negb andb].
  destruct (String.eqb (value new) (value confirm)); [|reflexivity]. cbn [negb].
  rewrite request_once; [reflexivity|by intros x w'|by intros x w'].
Qed.

Lemma resetUsername_unfold w id pw name :
  dom w !! "reset-username-user-id" = Some id ->
  dom w !! "reset-current-password" = Some pw ->
  dom w !! "reset-new-username" = Some name ->
  sent (snd (Auth.resetUsername w))
  = if reset_username_filled id pw name
    then (sent w ++ [built "/auth/reset-username" "POST"
                       (Some (JObj [("user_id", JNum (default 0%Z (parseInt (value id))));
                                    ("current_password", JStr (value pw));
                                    ("new_username", JStr (trim (value name)))])) false w])%list
    else sent w.
Proof.
  intros H1 H2 H3. unfold Auth.resetUsername, reset_username_filled.
  rewrite (bind_run _ _ _ _ _ (element_run _ _ _ H1)).
  rewrite (bind_run _ _ _ _ _ (element_run _ _ _ H2)). cbv zeta.
  rewrite (bind_run _ _ _ _ _ (element_run _ _ _ H3)). cbv zeta.
  destruct (bad_id (parseInt (value id))); [reflexivity|].
  destruct (String.eqb (value pw) ""); [reflexivity|].
  destruct (String.eqb (trim (value name)) ""); [reflexivity|]. cbn [orb negb andb].
  rewrite request_once; [reflexivity|by intros x w'|by intros x w'].
Qed.

Lemma bad_id_spec s :
  bad_id (parseInt s) = false <-> exists n, parseInt s = Some n /\ (0 < n)%Z.
Proof.
  unfold bad_id. destruct (parseInt s) as [n|]; split.
  - intros H. exists n. split; [done|]. lia.
  - intros (m & [= <-] & H). lia.
  - discriminate.
  - intros (m & H & _). discriminate.
Qed.



(** ** dashboard.js: the page load and the roles of the teams *)

Lemma updateHeaderRole_run w :
  exists w',
    updateHeaderRole w = (Returned tt, w') /\
    localStorage w' = localStorage w /\ calls w' = calls w /\ sent w' = sent w /\
    effectiveDisplayRole w' = effectiveDisplayRole w /\ href w' = href w.
Proof.
  unfold updateHeaderRole, bind. rewrite getEffectiveRole_run. eexists. split; [reflexivity|].
  repeat split.
Qed.

Lemma or_str_some r d : r <> "" -> or_str (Some r) d = r.
Proof. intros H. unfold or_str. apply String.eqb_neq in H. by rewrite H. Qed.

Lemma server_role_fixed v role :
  server_role v = Some role -> toLowerCase (or_str (Some role) "member") = role.
Proof.
  destruct v as [[| b | z | s | l | f]|]; unfold server_role.
  - intros [= <-]; reflexivity.
  - destruct b; [discriminate|intros [= <-]; reflexivity].
  - cbn. destruct (negb (z =? 0)%Z); [discriminate|intros [= <-]; reflexivity].
  - intros [= <-].
    rewrite (or_str_some (toLowerCase (or_str (Some s) "member")));
      [apply toLowerCase_idem|].
    unfold or_str. by destruct s as [|c s].
  - discriminate.
  - discriminate.
  - intros [= <-]; reflexivity.
Qed.

(** The callback of the role sync on an answer that names the role
    [role]. *)
Lemma sync_then_run fields role w :
  server_role (assoc "role" fields) = Some role ->
  exists w',
    sync_then (JObj fields) w = (Returned tt, w') /\
    stored_role w' = role /\
    (stored_role w = role ->
     localStorage w' !! "role" = localStorage w !! "role" /\ calls w' = calls w) /\
    (stored_role w <> role ->
     localStorage w' !! "role" = Some role /\
     exists before, calls w' = (before ++ ["loadUserTeams"; "loadTasks"])%list).
Proof.
  intros Hrole. unfold sync_then. cbn [truthy negb]. unfold get_prop, prop.
  rewrite bind_run with (a := assoc "role" fields) (w1 := w) by reflexivity.
  rewrite bind_run with (a := role) (w1 := w) by (by rewrite role_or_member_run, Hrole).
  rewrite bind_run with (a := assoc "username" fields) (w1 := w) by reflexivity.
  cbv zeta. set (serverName := if truthy_val _ then _ else _).
  set (w1 := if negb (String.eqb serverName "")
             then set_localStorage (insert "username" serverName) w else w).
  assert (Hw1 : when (negb (String.eqb serverName "")) (setItem "username" serverName) w
                = (Returned tt, w1)).
  { subst w1. by destruct (negb (String.eqb serverName "")). }
  rewrite (bind_run _ _ _ _ _ Hw1).
  assert (Hst : stored_role w1 = stored_role w).
  { subst w1. unfold stored_role. destruct (negb (String.eqb serverName "")); [|done].
    cbn. by rewrite lookup_insert_ne. }
  assert (Hrl : localStorage w1 !! "role" = localStorage w !! "role").
  { subst w1. destruct (negb (String.eqb serverName "")); [|done].
    cbn. by rewrite lookup_insert_ne. }
  assert (Hcl : calls w1 = calls w).
  { subst w1. by destruct (negb (String.eqb serverName "")). }
  rewrite bind_run with (a := localStorage w1 !! "role") (w1 := w1) by reflexivity.
  cbv zeta. fold (stored_role w1). rewrite Hst.
  destruct (String.eqb_spec role (stored_role w)) as [E|E]; cbn [negb when].
  - rewrite bind_run with (a := tt) (w1 := w1) by reflexivity.
    destruct (updateHeaderRole_run w1) as (w2 & -> & Hl & Hc & _).
    exists w2. split; [reflexivity|]. unfold stored_role in *. rewrite Hl, Hrl, Hc, Hcl.
    split; [done|]. split; [done|]. intros Hne. by destruct Hne.
  - destruct (setupRoleBasedUI_run (Some role)
                (set_localStorage (insert "role" role) w1)) as (w2 & Hrun & _ & Hl2 & _).
    assert (Hwhen : (setItem "role" role ;; setupRoleBasedUI (Some role) ;;
                     call "loadUserTeams" ;; call "loadTasks")
                      w1
                    = (Returned tt,
                       set_calls (fun l => (l ++ ["loadTasks"])%list)
                         (set_calls (fun l => (l ++ ["loadUserTeams"])%list) w2))).
    { unfold bind at 1. unfold setItem, modify. cbn [fst snd].
      unfold bind at 1. rewrite Hrun. reflexivity. }
    rewrite (bind_run _ _ _ _ _ Hwhen).
    destruct (updateHeaderRole_run
                (set_calls (fun l => (l ++ ["loadTasks"])%list)
                   (set_calls (fun l => (l ++ ["loadUserTeams"])%list) w2)))
      as (w3 & -> & Hl & Hc & _).
    exists w3. split; [reflexivity|].
    assert (Hrole3 : localStorage w3 !! "role" = Some role).
    { rewrite Hl. cbn. rewrite Hl2. cbn. apply lookup_insert_eq. }
    split; [|split].
    + unfold stored_role. rewrite Hrole3. by apply server_role_fixed with (v := assoc "role" fields).
    + intros Heq. by destruct E.
    + intros _. split; [done|]. exists (calls w2). rewrite Hc. cbn.
      by rewrite <- app_assoc.
Qed.

(** X8.  When GET /users/me succeeds on page load, the role kept in
    localStorage afterwards equals the role of the server in lower case
    (member when the answer has none). If it already did, the role key is
    not written and nothing is reloaded; if it did not, the new role is
    stored and loadUserTeams and loadTasks are called. A second identical
    answer reloads nothing. *)
Theorem role_sync_follows_server fields role response w :
  ok response = true ->
  result_of response = Some (JObj fields) ->
  server_role (assoc "role" fields) = Some role ->
  exists w',
    page_load_settled (Resolved response) w = (Returned tt, w') /\
    stored_role w' = role /\
    (stored_role w = role ->
     localStorage w' !! "role" = localStorage w !! "role" /\ calls w' = calls w) /\
    (stored_role w <> role ->
     localStorage w' !! "role" = Some role /\
     exists before, calls w' = (before ++ ["loadUserTeams"; "loadTasks"])%list) /\
    calls (snd (page_load_settled (Resolved response) w')) = calls w'.
Proof.
  intros Hok Hres Hrole.
  assert (Hrun : forall v, page_load_settled (Resolved response) v
                           = catch (sync_then (JObj fields)) (fun _ => ret tt) v).
  { intros v. unfold page_load_settled, settled, catch, bind, ret.
    by rewrite (settle_ok response (JObj fields) v Hok Hres). }
  rewrite Hrun. unfold catch at 1.
  destruct (sync_then_run fields role w Hrole) as (w' & -> & Hs & Hsame & Hdiff).
  exists w'. split; [reflexivity|]. split; [exact Hs|]. split; [exact Hsame|].
  split; [exact Hdiff|].
  rewrite Hrun. unfold catch.
  destruct (sync_then_run fields role w' Hrole) as (w'' & -> & _ & Hsame' & _).
  by destruct (Hsame' Hs).
Qed.

Lemma role_sync_witness :
  exists w',
    page_load_settled admin_answer member_dashboard = (Returned tt, w') /\
    stored_role w' = "admin" /\
    (stored_role member_dashboard = "admin" ->
     localStorage w' !! "role" = localStorage member_dashboard !! "role" /\
     calls w' = calls member_dashboard) /\
    (stored_role member_dashboard <> "admin" ->
     localStorage w' !! "role" = Some "admin" /\
     exists before, calls w' = (before ++ ["loadUserTeams"; "loadTasks"])%list) /\
    calls (snd (page_load_settled admin_answer w')) = calls w'.
Proof.
  refine (role_sync_follows_server
            [("id", JNum 7); ("username", JStr "asha"); ("role", JStr "Admin")] "admin"
            (mkResponse 200 "OK" (Some "application/json")
               (Some (JObj [("id", JNum 7); ("username", JStr "asha"); ("role", JStr "Admin")])))
            member_dashboard _ _ _); reflexivity.
Defined.

(** X9.  The callbacks of the page-load request GET /users/me never throw.
    When the request is not answered, or is answered not ok with a status
    other than 401, the page, localStorage and the location stay exactly as
    they were; a 401 with a JSON body signs the user out. *)
Theorem failed_role_sync_keeps_everything :
  (forall r w, fst (page_load_settled r w) = Returned tt) /\
  (forall w, page_load_settled Rejected w = (Returned tt, w)) /\
  (forall response w,
     ok response = false -> Browser.status response <> 401%Z ->
     page_load_settled (Resolved response) w = (Returned tt, w)) /\
  (forall response result w,
     Browser.status response = 401%Z -> result_of response = Some result ->
     page_load_settled (Resolved response) w = (Returned tt, signed_out w)).
Proof.
  split; [|split; [|split]].
  - intros r w. unfold page_load_settled, catch.
    by destruct (bind _ _ w) as [[[]|x] w1].
  - reflexivity.
  - intros response w Hok Hs. unfold page_load_settled, settled, catch, bind, ret.
    rewrite settle_run. unfold settle_result. apply Z.eqb_neq in Hs. rewrite Hs, Hok.
    by destruct (result_of response).
  - intros response result w Hs Hr. unfold page_load_settled, settled, catch, bind, ret.
    by rewrite (settle_401 response result w Hs Hr).
Qed.

Lemma failed_role_sync_witness :
  page_load_settled (Resolved bare_500) member_dashboard = (Returned tt, member_dashboard).
Proof.
  refine (proj1 (proj2 (proj2 failed_role_sync_keeps_everything)) bare_500 member_dashboard _ _).
  - reflexivity.
  - vm_compute. discriminate.
Defined.

Lemma first_team_role_none g teams :
  (forall t, In t teams -> team_privileged t = false) -> first_team_role g teams = g.
Proof.
  induction teams as [|t rest IH]; intros H; [reflexivity|]. cbn [first_team_role].
  pose proof (H t (or_introl eq_refl)) as Ht. unfold team_privileged in Ht. rewrite Ht.
  apply IH. intros t' Ht'. apply H. by right.
Qed.

Lemma first_team_role_some g teams :
  (exists t, In t teams /\ team_privileged t = true) ->
  In (first_team_role g teams) ["project director"; "group head"; "team lead"].
Proof.
  induction teams as [|t rest IH]; intros (t' & Hin & Hp); [destruct Hin|].
  cbn [first_team_role].
  destruct (index_of (trim (toLowerCase (or_str (user_role t) "")))
              ["project director"; "group head"; "team lead"]) eqn:E.
  - unfold index_of in E. cbn in E.
    repeat match type of E with
           | (String.eqb ?a ?b || _) = true =>
               destruct (String.eqb_spec a b) as [->|_]; [cbn; tauto|cbn in E]
           | (String.eqb ?a ?b) = true =>
               destruct (String.eqb_spec a b) as [->|_]; [cbn; tauto|discriminate E]
           end.
    discriminate E.
  - apply IH. destruct Hin as [<-|Hin]; [|eauto].
    unfold team_privileged in Hp. congruence.
Qed.

Lemma admin_role_team_role r :
  In r ["project director"; "group head"; "team lead"] ->
  admin_role r = false /\ lead_role r = true /\ toLowerCase r = r.
Proof. cbn. intros [<-|[<-|[<-|[]]]]; repeat split. Qed.

Lemma stored_role_lower w : toLowerCase (stored_role w) = stored_role w.
Proof. apply toLowerCase_idem. Qed.

Lemma loadUserTeams_then_run teams w :
  exists w',
    loadUserTeams_then teams w = (Returned tt, w') /\
    effectiveDisplayRole w'
    = Some (if admin_role (stored_role w) then stored_role w
            else first_team_role (stored_role w) teams) /\
    localStorage w' = localStorage w /\ sent w' = sent w.
Proof.
  unfold loadUserTeams_then.
  rewrite bind_run with (a := localStorage w !! "role") (w1 := w) by reflexivity.
  cbv zeta. fold (stored_role w). fold (admin_role (stored_role w)).
  set (eff := if admin_role (stored_role w) then stored_role w
              else first_team_role (stored_role w) teams).
  set (w1 := set_effectiveDisplayRole (Some eff) w).
  rewrite bind_run with (a := tt) (w1 := w1)
    by (subst w1 eff; by destruct (admin_role (stored_role w))).
  destruct (updateHeaderRole_run w1) as (w2 & Hh & Hl2 & _ & Hs2 & He2 & _).
  rewrite (bind_run _ _ _ _ _ Hh).
  rewrite bind_run with (a := effectiveDisplayRole w2) (w1 := w2) by reflexivity.
  destruct (setupRoleBasedUI_run (effectiveDisplayRole w2) w2) as (w3 & Hs & _ & Hl3 & He3 & Hs3).
  rewrite (bind_run _ _ _ _ _ Hs).
  rewrite bind_run with (a := effective_role w3) (w1 := w3) by apply getEffectiveRole_run.
  cbv zeta.
  rewrite bind_run with (a := dom w3 !! "add-member-team") (w1 := w3) by reflexivity.
  assert (He : effectiveDisplayRole w3 = Some eff) by (by rewrite He3, He2).
  assert (Hl : localStorage w3 = localStorage w) by (by rewrite Hl3, Hl2).
  assert (Hsent : sent w3 = sent w) by (by rewrite Hs3, Hs2).
  destruct (bool_decide (is_Some (dom w3 !! "add-member-team"))); cbn [when];
    [destruct (0 <? _)%nat|]; eexists; (split; [reflexivity|]); cbn; by rewrite He, Hl, Hsent.
Qed.

(** X10.  When loadUserTeams has its teams, a role held in a team never
    changes localStorage nor what isUserAdmin answers, and the effective
    role is admin or division head only if the stored global role is.
    canUseMultiAssign afterwards holds exactly when the stored global role
    is one of the five leading roles or the user is project director, group
    head or team lead in some team. *)
Theorem team_roles_lead_but_never_administer teams w :
  exists w',
    loadUserTeams_then teams w = (Returned tt, w') /\
    localStorage w' = localStorage w /\
    fst (isUserAdmin w') = fst (isUserAdmin w) /\
    admin_role (effective_role w') = admin_role (stored_role w) /\
    (fst (canUseMultiAssign w') = Returned true <->
     lead_role (stored_role w) = true \/
     exists t, In t teams /\ team_privileged t = true).
Proof.
  destruct (loadUserTeams_then_run teams w) as (w' & Hrun & He & Hl & _).
  exists w'. split; [exact Hrun|]. split; [exact Hl|].
  rewrite (isUserAdmin_run w'), (isUserAdmin_run w), canUseMultiAssign_run. cbn [fst].
  assert (Hst : stored_role w' = stored_role w) by (unfold stored_role; by rewrite Hl).
  rewrite Hst. split; [reflexivity|].
  unfold effective_role. rewrite He.
  destruct (admin_role (stored_role w)) eqn:Ha.
  - rewrite stored_role_lower, Ha. split; [reflexivity|].
    split; [intros _; left; by apply admin_is_lead|intros _; f_equal; by apply admin_is_lead].
  - destruct (existsb team_privileged teams) eqn:Hex;
      [apply existsb_exists in Hex|
       assert (Hno : ~ exists t, In t teams /\ team_privileged t = true)
         by (rewrite <- existsb_exists; congruence)].
    + destruct (admin_role_team_role _ (first_team_role_some (stored_role w) teams Hex))
        as (H1 & H2 & H3).
      rewrite H3, H1, H2. split; [reflexivity|]. split; auto.
    + rewrite first_team_role_none.
      * rewrite stored_role_lower, Ha. split; [reflexivity|].
        split; [intros [= ->]; by left|].
        intros [->|Hex']; [reflexivity|contradiction].
      * intros t Ht. destruct (team_privileged t) eqn:E; [|reflexivity].
        destruct Hno. eauto.
Qed.

Lemma dashboard_without_session page w :
  truthy_str (localStorage w !! "session_token") = false ->
  run_event (DashboardOpened page) w
  = (Returned tt,
     set_calls (fun l => (l ++ ["loadTasks"])%list)
       (set_calls (fun l => (l ++ ["loadUserTeams"])%list)
          (set_href (Some "index.html") (open_page "/dashboard.html" page w)))).
Proof.
  intros H. cbn [run_event]. unfold page_load, isLoggedIn, getSessionToken, getItem.
  unfold bind, modify, gets, ret. cbn [fst snd localStorage open_page]. rewrite H. reflexivity.
Qed.

(** X11.  Opening the dashboard without a session token sets the location to
    index.html, sends no request itself and writes nothing to localStorage
    or the page; the rest of the script still runs, so loadUserTeams and
    loadTasks are still called. *)
Theorem dashboard_without_session_redirects_and_still_loads page w :
  truthy_str (localStorage w !! "session_token") = false ->
  exists w',
    run_event (DashboardOpened page) w = (Returned tt, w') /\
    href w' = Some "index.html" /\
    sent w' = sent w /\
    dom w' = page /\
    localStorage w' = localStorage w /\
    calls w' = (calls w ++ ["loadUserTeams"; "loadTasks"])%list.
Proof.
  intros H. rewrite (dashboard_without_session page w H). eexists. split; [reflexivity|].
  cbn. by rewrite <- app_assoc.
Qed.

Lemma dashboard_without_session_witness :
  exists w',
    run_event (DashboardOpened dashboard_page) login_page = (Returned tt, w') /\
    href w' = Some "index.html" /\
    sent w' = sent login_page /\
    dom w' = dashboard_page /\
    localStorage w' = localStorage login_page /\
    calls w' = (calls login_page ++ ["loadUserTeams"; "loadTasks"])%list.
Proof.
  apply (dashboard_without_session_redirects_and_still_loads dashboard_page login_page).
  reflexivity.
Defined.

(** ** dashboard.js: the action menu and the reviews *)

(** The reloads after a change of the task table send nothing by
    themselves. *)
Ltac quiet :=
  intros;
  unfold showToast, loadTasks, loadUserTeams, loadActivityLogs, refresh_chat, loadActivityChat,
    closeCompletionProofModal, call, update;
  keeps.

(** X12.  Unassign task, Delete task and Delete activity of the action menu
    send nothing, reload nothing and store nothing when the confirm dialog
    is refused. Delete activity on a task without an activity sends nothing
    either way. Once confirmed, each sends exactly one request: DELETE
    /tasks/{id}, DELETE /activities/{activity id}, or PUT /tasks/{id}/assign
    with assigned_to null. *)
Theorem destructive_actions_wait_for_confirmation :
  (forall taskId activityId val input w,
     In val ["__unassign_task__"; "__delete_task__"; "__delete_activity__"] ->
     sent (snd (handleActionSelect taskId activityId val input false w)) = sent w /\
     calls (snd (handleActionSelect taskId activityId val input false w)) = calls w /\
     localStorage (snd (handleActionSelect taskId activityId val input false w))
     = localStorage w) /\
  (forall taskId input ok w,
     sent (snd (handleActionSelect taskId None "__delete_activity__" input ok w)) = sent w) /\
  (forall taskId activityId input w,
     exists req,
       sent (snd (handleActionSelect taskId activityId "__delete_task__" input true w))
       = (sent w ++ [req])%list /\
       url req = base_of w ++ "/tasks/" ++ pretty taskId /\ method req = "DELETE" /\
       body req = None) /\
  (forall taskId aid input w,
     exists req,
       sent (snd (handleActionSelect taskId (Some aid) "__delete_activity__" input true w))
       = (sent w ++ [req])%list /\
       url req = base_of w ++ "/activities/" ++ pretty aid /\ method req = "DELETE" /\
       body req = None) /\
  (forall taskId activityId input w,
     exists req,
       sent (snd (handleActionSelect taskId activityId "__unassign_task__" input true w))
       = (sent w ++ [req])%list /\
       url req = base_of w ++ "/tasks/" ++ pretty taskId ++ "/assign" /\ method req = "PUT" /\
       body req = Some (BodyText (JSON_stringify (JObj [("assigned_to", JNull)])))).
Proof.
  split; [|split; [|split; [|split]]].
  - intros taskId activityId val input w Hin. cbn in Hin.
    destruct Hin as [<-|[<-|[<-|[]]]]; unfold handleActionSelect; cbn [String.eqb Ascii.eqb];
      try (cbn; repeat split; fail).
    cbn. destruct activityId; repeat split.
  - intros taskId input ok w. reflexivity.
  - intros taskId activityId input w. eexists. split.
    + unfold handleActionSelect. cbn [String.eqb Ascii.eqb negb]. cbv iota.
      apply request_once; quiet.
    + rewrite built_url, built_method, built_body. repeat split.
  - intros taskId aid input w. eexists. split.
    + unfold handleActionSelect. cbn [String.eqb Ascii.eqb negb]. cbv iota.
      apply request_once; quiet.
    + rewrite built_url, built_method, built_body. repeat split.
  - intros taskId activityId input w. eexists. split.
    + unfold handleActionSelect. cbn [String.eqb Ascii.eqb negb]. cbv iota.
      apply request_once; quiet.
    + rewrite built_url, built_method, built_body. repeat split.
Qed.

Lemma destructive_actions_witness :
  sent (snd (handleActionSelect 7 (Some 2%Z) "__delete_task__" None false logged_in_world))
  = sent logged_in_world /\
  calls (snd (handleActionSelect 7 (Some 2%Z) "__delete_task__" None false logged_in_world))
  = calls logged_in_world /\
  localStorage (snd (handleActionSelect 7 (Some 2%Z) "__delete_task__" None false
                       logged_in_world))
  = localStorage logged_in_world.
Proof.
  refine (proj1 destructive_actions_wait_for_confirmation 7%Z (Some 2%Z) "__delete_task__"
            None logged_in_world _).
  simpl. tauto.
Defined.



(** X14.  reviewCompletionRequest does nothing for a missing or zero request
    id. For any other id it sends exactly one PUT
    /tasks/completion-requests/{id} whose status is approved or rejected
    according to the button, whatever role the user has: the client makes no
    permission check here. *)
Theorem completion_review_always_decides :
  (forall requestId approve w,
     truthy_num requestId = false ->
     reviewCompletionRequest requestId approve w = (Returned tt, w)) /\
  (forall n approve w,
     n <> 0%Z ->
     exists req,
       sent (snd (reviewCompletionRequest (Some n) approve w)) = (sent w ++ [req])%list /\
       url req = base_of w ++ "/tasks/completion-requests/" ++ pretty n /\
       method req = "PUT" /\
       body req = Some (BodyText (JSON_stringify
                    (JObj [("status", JStr (if approve then "approved" else "rejected"))])))).
Proof.
  split.
  - intros requestId approve w H. unfold reviewCompletionRequest. by rewrite H.
  - intros n approve w Hn. eexists. split.
    + unfold reviewCompletionRequest. cbn [truthy_num]. apply Z.eqb_neq in Hn. rewrite Hn.
      cbn [negb]. cbv iota. apply request_once; quiet.
    + rewrite built_url, built_method, built_body. repeat split.
Qed.

Lemma completion_review_witness :
  exists req,
    sent (snd (reviewCompletionRequest (Some 11%Z) false admin_world))
    = (sent admin_world ++ [req])%list /\
    url req = base_of admin_world ++ "/tasks/completion-requests/" ++ pretty 11%Z /\
    method req = "PUT" /\
    body req = Some (BodyText (JSON_stringify (JObj [("status", JStr "rejected")]))).
Proof.
  refine (proj2 completion_review_always_decides 11%Z false admin_world _). discriminate.
Defined.





(** ** dashboard.js: working days left, date by date *)

Lemma is_weekday_mod a : is_weekday a = is_weekday (a mod 7).
Proof.
  unfold is_weekday, getUTCDay. by rewrite <- (Z.add_mod_idemp_l a 4 7) by lia.
Qed.

Lemma weekdays_week a : weekdays a (a + 7) = 5%Z.
Proof.
  rewrite (weekdays_step a) by lia.
  rewrite (weekdays_step (a + 1)) by lia.
  rewrite (weekdays_step (a + 1 + 1)) by lia.
  rewrite (weekdays_step (a + 1 + 1 + 1)) by lia.
  rewrite (weekdays_step (a + 1 + 1 + 1 + 1)) by lia.
  rewrite (weekdays_step (a + 1 + 1 + 1 + 1 + 1)) by lia.
  rewrite (weekdays_step (a + 1 + 1 + 1 + 1 + 1 + 1)) by lia.
  replace (a + 1 + 1 + 1 + 1 + 1 + 1 + 1)%Z with (a + 7)%Z by lia. rewrite weekdays_nil.
  rewrite (is_weekday_mod a), (is_weekday_mod (a + 1)), (is_weekday_mod (a + 1 + 1)),
    (is_weekday_mod (a + 1 + 1 + 1)), (is_weekday_mod (a + 1 + 1 + 1 + 1)),
    (is_weekday_mod (a + 1 + 1 + 1 + 1 + 1)), (is_weekday_mod (a + 1 + 1 + 1 + 1 + 1 + 1)).
  assert (Hr : (0 <= a mod 7 < 7)%Z) by (apply Z.mod_pos_bound; lia).
  assert (Hk : forall k, ((a + k) mod 7 = (a mod 7 + k) mod 7)%Z)
    by (intros k; by rewrite Z.add_mod_idemp_l by lia).
  replace (a + 1 + 1)%Z with (a + 2)%Z by lia.
  replace (a + 2 + 1)%Z with (a + 3)%Z by lia.
  replace (a + 3 + 1)%Z with (a + 4)%Z by lia.
  replace (a + 4 + 1)%Z with (a + 5)%Z by lia.
  replace (a + 5 + 1)%Z with (a + 6)%Z by lia.
  rewrite !Hk.
  assert (a mod 7 = 0 \/ a mod 7 = 1 \/ a mod 7 = 2 \/ a mod 7 = 3 \/ a mod 7 = 4 \/
          a mod 7 = 5 \/ a mod 7 = 6)%Z as Hc by lia.
  destruct Hc as [->|[->|[->|[->|[->|[->| ->]]]]]]; reflexivity.
Qed.

Lemma weekdays_le a b : (a <= b)%Z -> (weekdays a b <= b - a)%Z.
Proof.
  intros H. unfold weekdays.
  pose proof (filter_length_le is_weekday (seqZ a (b - a))) as Hl.
  rewrite length_seqZ in Hl. lia.
Qed.

Lemma days_left_week t u : days_left t (u + 7) = (days_left t u + 5)%Z.
Proof.
  unfold days_left.
  destruct (Z.eqb_spec t u) as [->|Hne].
  - destruct (Z.eqb_spec u (u + 7)); [lia|]. destruct (Z.ltb_spec u (u + 7)); [|lia].
    by rewrite weekdays_week.
  - destruct (Z.ltb_spec t u).
    + destruct (Z.eqb_spec t (u + 7)); [lia|]. destruct (Z.ltb_spec t (u + 7)); [|lia].
      rewrite (weekdays_split t u (u + 7)) by lia. by rewrite weekdays_week.
    + destruct (Z.eqb_spec t (u + 7)) as [->|].
      * rewrite weekdays_week. lia.
      * destruct (Z.ltb_spec t (u + 7)).
        -- pose proof (weekdays_split u t (u + 7) ltac:(lia)) as Hs.
           rewrite weekdays_week in Hs. lia.
        -- pose proof (weekdays_split u (u + 7) t ltac:(lia)) as Hs.
           rewrite weekdays_week in Hs. lia.
Qed.

Lemma days_left_mono t u u' : (u <= u')%Z -> (days_left t u <= days_left t u')%Z.
Proof.
  intros H. unfold days_left.
  pose proof (weekdays_nonneg t u). pose proof (weekdays_nonneg t u').
  pose proof (weekdays_nonneg u t). pose proof (weekdays_nonneg u' t).
  pose proof (weekdays_nonneg u u').
  destruct (Z.eqb_spec t u) as [E|E], (Z.eqb_spec t u') as [E'|E'];
    destruct (Z.ltb_spec t u), (Z.ltb_spec t u'); try lia.
  - pose proof (weekdays_split t u u' ltac:(lia)). lia.
  - pose proof (weekdays_split u u' t ltac:(lia)). lia.
Qed.

Lemma days_left_sign t u :
  ((0 < days_left t u -> t < u) /\ (days_left t u < 0 -> u < t) /\
   Z.abs (days_left t u) <= Z.abs (u - t))%Z.
Proof.
  unfold days_left.
  pose proof (weekdays_nonneg t u). pose proof (weekdays_nonneg u t).
  destruct (Z.eqb_spec t u) as [E|E]; [lia|].
  destruct (Z.ltb_spec t u).
  - pose proof (weekdays_le t u ltac:(lia)). lia.
  - pose proof (weekdays_le u t ltac:(lia)). lia.
Qed.

Lemma computeWorkingDaysLeft_days_left today s y m d t u :
  s <> "" -> parsed s = Some (y, m, d) -> today_utc today = Some t ->
  Date_UTC y (m - 1) d = Some u ->
  computeWorkingDaysLeft today (Some s) = Some (days_left t u).
Proof. exact (computeWorkingDaysLeft_parsed today s y m d t u). Qed.

(** X17.  For due dates it can read, computeWorkingDaysLeft gives exactly
    five more working days for a due date seven days later, whatever today
    and the first due date are (before, on or after today). *)
Theorem a_week_more_is_five_working_days_more today s1 s2 y1 m1 d1 y2 m2 d2 t u :
  s1 <> "" -> s2 <> "" ->
  parsed s1 = Some (y1, m1, d1) -> parsed s2 = Some (y2, m2, d2) ->
  today_utc today = Some t ->
  Date_UTC y1 (m1 - 1) d1 = Some u -> Date_UTC y2 (m2 - 1) d2 = Some (u + 7)%Z ->
  exists n,
    computeWorkingDaysLeft today (Some s1) = Some n /\
    computeWorkingDaysLeft today (Some s2) = Some (n + 5)%Z.
Proof.
  intros H1 H2 P1 P2 Ht U1 U2. exists (days_left t u).
  rewrite (computeWorkingDaysLeft_days_left today s1 y1 m1 d1 t u H1 P1 Ht U1).
  rewrite (computeWorkingDaysLeft_days_left today s2 y2 m2 d2 t (u + 7) H2 P2 Ht U2).
  by rewrite days_left_week.
Qed.

Lemma a_week_more_witness :
  exists n,
    computeWorkingDaysLeft a_tuesday (Some "2026-10-30") = Some n /\
    computeWorkingDaysLeft a_tuesday (Some "2026-11-06") = Some (n + 5)%Z.
Proof.
  refine (a_week_more_is_five_working_days_more a_tuesday "2026-10-30" "2026-11-06"
            2026 10 30 2026 11 6 20760 20756 _ _ _ _ _ _ _);
    first [discriminate | vm_compute; reflexivity].
Defined.

(** X18.  For due dates it can read, computeWorkingDaysLeft is monotone in
    the due date: a later due date never has fewer working days left. The
    result is positive only for a due date after today and negative only for
    one before today, and its size never exceeds the number of calendar days
    between the two. *)
Theorem working_days_left_grow_with_the_due_date today s1 s2 y1 m1 d1 y2 m2 d2 t u1 u2 :
  s1 <> "" -> s2 <> "" ->
  parsed s1 = Some (y1, m1, d1) -> parsed s2 = Some (y2, m2, d2) ->
  today_utc today = Some t ->
  Date_UTC y1 (m1 - 1) d1 = Some u1 -> Date_UTC y2 (m2 - 1) d2 = Some u2 ->
  (u1 <= u2)%Z ->
  exists n1 n2,
    computeWorkingDaysLeft today (Some s1) = Some n1 /\
    computeWorkingDaysLeft today (Some s2) = Some n2 /\
    (n1 <= n2)%Z /\
    (0 < n1 -> t < u1)%Z /\ (n1 < 0 -> u1 < t)%Z /\
    (Z.abs n1 <= Z.abs (u1 - t))%Z.
Proof.
  intros H1 H2 P1 P2 Ht U1 U2 Hle. exists (days_left t u1), (days_left t u2).
  rewrite (computeWorkingDaysLeft_days_left today s1 y1 m1 d1 t u1 H1 P1 Ht U1).
  rewrite (computeWorkingDaysLeft_days_left today s2 y2 m2 d2 t u2 H2 P2 Ht U2).
  split; [reflexivity|]. split; [reflexivity|]. split; [by apply days_left_mono|].
  exact (days_left_sign t u1).
Qed.

Lemma working_days_left_grow_witness :
  exists n1 n2,
    computeWorkingDaysLeft a_tuesday (Some "2026-10-30") = Some n1 /\
    computeWorkingDaysLeft a_tuesday (Some "2026-11-10") = Some n2 /\
    (n1 <= n2)%Z /\
    (0 < n1 -> 20760 < 20756)%Z /\ (n1 < 0 -> 20756 < 20760)%Z /\
    (Z.abs n1 <= Z.abs (20756 - 20760))%Z.
Proof.
  refine (working_days_left_grow_with_the_due_date a_tuesday "2026-10-30" "2026-11-10"
            2026 10 30 2026 11 10 20760 20756 20767 _ _ _ _ _ _ _ _);
    first [discriminate | lia | vm_compute; reflexivity].
Defined.

(** ** dashboard.js: the proof upload and the role buttons *)

Lemma settle_result_page response w :
  dom (snd (settle_result response w)) = dom w /\
  calls (snd (settle_result response w)) = calls w /\
  chatPanelOpen (snd (settle_result response w)) = chatPanelOpen w.
Proof.
  unfold settle_result. destruct (result_of response); [|done].
  destruct (Browser.status response =? 401)%Z.
  - cbn [snd]. unfold signed_out. by destruct (includes "dashboard" (pathname w)).
  - by destruct (ok response).
Qed.

Lemma apiRequestFormData_page e m f w :
  dom (snd (apiRequestFormData e m f w)) = dom w /\
  calls (snd (apiRequestFormData e m f w)) = calls w /\
  chatPanelOpen (snd (apiRequestFormData e m f w)) = chatPanelOpen w.
Proof.
  rewrite apiRequestFormData_run. destruct (network w) as [|[|response] rest]; try done.
  apply (settle_result_page response (requested (built_form e m f w) w)).
Qed.

Lemma settle_result_fst response w : fst (settle_result response w) = answer_of response.
Proof.
  unfold settle_result, answer_of. destruct (result_of response); [|done].
  destruct (Browser.status response =? 401)%Z; [done|]. by destruct (ok response).
Qed.

Lemma apiRequestFormData_result e m f w :
  fst (apiRequestFormData e m f w) = outcome (network w).
Proof.
  rewrite apiRequestFormData_run. unfold outcome.
  destruct (network w) as [|[|response] rest]; try done. apply settle_result_fst.
Qed.

Lemma apiRequest_result e m d u w : fst (apiRequest e m d u w) = outcome (network w).
Proof.
  rewrite apiRequest_run. unfold outcome.
  destruct (network w) as [|[|response] rest]; try done. apply settle_result_fst.
Qed.

(** The run of [submitCompletionProof] with a file chosen. *)
Lemma submitCompletionProof_run w taskIdEl fileEl file more :
  dom w !! "completion-proof-task-id" = Some taskIdEl ->
  dom w !! "completion-proof-file" = Some fileEl ->
  files fileEl = file :: more ->
  exists w',
    submitCompletionProof w = (Returned tt, w') /\
    dom w' !! "completion-proof-submit"
    = with_disabled false <$> dom w !! "completion-proof-submit" /\
    dom w' !! "completion-proof-file" = dom w !! "completion-proof-file" /\
    match outcome (network w) with
    | Returned _ =>
        dom w' !! "completion-proof-modal"
        = with_hidden true <$> dom w !! "completion-proof-modal" /\
        calls w' = (calls w ++ "loadTasks"
                      :: (if chatPanelOpen w then ["loadActivityChat"] else []))%list
    | Thrown _ =>
        dom w' !! "completion-proof-modal" = dom w !! "completion-proof-modal" /\
        calls w' = calls w
    end.
Proof.
  intros Ht Hf Hfiles. unfold submitCompletionProof.
  rewrite bind_run with (a := Some taskIdEl) (w1 := w) by (unfold getElementById, gets; by rewrite Ht).
  rewrite bind_run with (a := Some fileEl) (w1 := w) by (unfold getElementById, gets; by rewrite Hf).
  rewrite Hfiles.
  set (w0 := set_dom (alter (with_disabled true) "completion-proof-submit") w).
  rewrite bind_run with (a := tt) (w1 := w0) by reflexivity.
  set (e := "/tasks/" ++ value taskIdEl ++ "/completion-requests").
  pose proof (apiRequestFormData_result e "POST" file w0) as Hres.
  change (network w0) with (network w) in Hres. rewrite <- Hres. clear Hres.
  destruct (apiRequestFormData_page e "POST" file w0) as (Hd & Hc & Hch).
  unfold finally, catch, bind.
  destruct (apiRequestFormData e "POST" file w0) as [[x|x] w1]; cbn [fst snd] in *.
  - unfold showToast, closeCompletionProofModal, loadTasks, loadActivityLogs, refresh_chat,
      loadActivityChat, call, update, modify, gets, when, ret, bind. cbn [fst snd].
    cbn [chatPanelOpen set_dom set_calls]. rewrite Hch.
    change (chatPanelOpen w0) with (chatPanelOpen w).
    destruct (chatPanelOpen w); cbn [fst snd]; eexists; (split; [reflexivity|]);
      cbn [dom calls set_dom set_calls]; rewrite Hd, Hc; subst w0; cbn [dom calls set_dom];
      repeat split;
      repeat first [rewrite lookup_alter_ne by done | rewrite lookup_alter_eq];
      try reflexivity;
      try (rewrite <- option_fmap_compose; by destruct (dom w !! "completion-proof-submit"));
      try (by rewrite <- app_assoc); try (by rewrite app_nil_r).
  - unfold showToast, update, modify, ret. cbn [fst snd]. eexists. split; [reflexivity|].
    cbn [dom calls set_dom set_calls]. rewrite Hd, Hc. subst w0. cbn [dom calls set_dom].
    repeat split;
      repeat first [rewrite lookup_alter_ne by done | rewrite lookup_alter_eq];
      try reflexivity;
      try (rewrite <- option_fmap_compose; by destruct (dom w !! "completion-proof-submit")).
Qed.

Lemma answer_of_ok response result :
  ok response = true -> result_of response = Some result ->
  answer_of response = Returned result.
Proof.
  intros Hok Hr. unfold answer_of. by rewrite Hr, (ok_not_401 response Hok), Hok.
Qed.

Lemma answer_of_failed response :
  ok response = false \/ result_of response = None ->
  exists x, answer_of response = Thrown x.
Proof.
  intros H. unfold answer_of. destruct (result_of response) as [result|]; [|eauto].
  destruct (Browser.status response =? 401)%Z; [eauto|].
  destruct H as [->|H]; [eauto|discriminate].
Qed.

Lemma outcome_failed net :
  (forall response rest, net = Resolved response :: rest ->
                         ok response = false \/ result_of response = None) ->
  exists x, outcome net = Thrown x.
Proof.
  intros H. unfold outcome. destruct net as [|[|response] rest]; [eauto|eauto|].
  apply answer_of_failed. by eapply H.
Qed.

(** X19.  After submitCompletionProof with a file chosen, the submit button
    is enabled again whatever the server answered, and the file chosen is
    kept. The modal is hidden and the tasks are reloaded when the upload
    succeeded; when it failed the modal is left as it was and nothing is
    reloaded. *)
Theorem proof_upload_frees_the_button_and_closes_on_success w taskIdEl fileEl file more :
  dom w !! "completion-proof-task-id" = Some taskIdEl ->
  dom w !! "completion-proof-file" = Some fileEl ->
  files fileEl = file :: more ->
  exists w',
    submitCompletionProof w = (Returned tt, w') /\
    dom w' !! "completion-proof-submit"
    = with_disabled false <$> dom w !! "completion-proof-submit" /\
    dom w' !! "completion-proof-file" = dom w !! "completion-proof-file" /\
    (forall response rest result,
       network w = Resolved response :: rest -> ok response = true ->
       result_of response = Some result ->
       dom w' !! "completion-proof-modal"
       = with_hidden true <$> dom w !! "completion-proof-modal" /\
       In "loadTasks" (calls w')) /\
    ((forall response rest,
        network w = Resolved response :: rest ->
        ok response = false \/ result_of response = None) ->
     dom w' !! "completion-proof-modal" = dom w !! "completion-proof-modal" /\
     calls w' = calls w).
Proof.
  intros Ht Hf Hfiles.
  destruct (submitCompletionProof_run w taskIdEl fileEl file more Ht Hf Hfiles)
    as (w' & Hrun & Hbtn & Hfile & Hout).
  exists w'. split; [exact Hrun|]. split; [exact Hbtn|]. split; [exact Hfile|]. split.
  - intros response rest result Hn Hok Hr. unfold outcome in Hout.
    rewrite Hn, (answer_of_ok response result Hok Hr) in Hout.
    destruct Hout as [Hm Hc]. split; [exact Hm|]. rewrite Hc.
    apply in_or_app. right. by left.
  - intros Hfail. destruct (outcome_failed (network w) Hfail) as (x & Hx).
    by rewrite Hx in Hout.
Qed.

Lemma proof_upload_witness :
  exists w',
    submitCompletionProof proof_chosen = (Returned tt, w') /\
    dom w' !! "completion-proof-submit"
    = with_disabled false <$> dom proof_chosen !! "completion-proof-submit" /\
    dom w' !! "completion-proof-file" = dom proof_chosen !! "completion-proof-file" /\
    (forall response rest result,
       network proof_chosen = Resolved response :: rest -> ok response = true ->
       result_of response = Some result ->
       dom w' !! "completion-proof-modal"
       = with_hidden true <$> dom proof_chosen !! "completion-proof-modal" /\
       In "loadTasks" (calls w')) /\
    ((forall response rest,
        network proof_chosen = Resolved response :: rest ->
        ok response = false \/ result_of response = None) ->
     dom w' !! "completion-proof-modal" = dom proof_chosen !! "completion-proof-modal" /\
     calls w' = calls proof_chosen).
Proof.
  refine (proof_upload_frees_the_button_and_closes_on_success proof_chosen
            (with_value "7" blank_element) (with_files ["proof.pdf"] blank_element)
            "proof.pdf" [] _ _ _).
  - vm_compute. reflexivity.
  - vm_compute. reflexivity.
  - reflexivity.
Defined.

Lemma updateHeaderRole_sent : keeps sent updateHeaderRole.
Proof. unfold updateHeaderRole, getEffectiveRole. keeps. Qed.

Lemma updateUserRole_sends userId newRole w :
  sent (snd (updateUserRole userId newRole w))
  = (sent w ++ [built ("/users/" ++ pretty userId ++ "/role") "PUT"
                  (Some (JObj [("role", JStr (if String.eqb newRole "division head"
                                              then "Division Head"
                                              else if String.eqb newRole "admin"
                                                   then "Admin" else "Member"))])) true w])%list.
Proof.
  unfold updateUserRole. cbv zeta. apply request_once.
  - intros x. apply keeps_bind; [quiet|intros]. apply keeps_bind; [quiet|intros].
    apply keeps_bind; [|quiet]. apply keeps_when.
    apply keeps_bind; [quiet|intros]. apply keeps_bind; [apply updateHeaderRole_sent|intros].
    apply keeps_bind; [apply setup_sent|intros]. quiet.
  - quiet.
Qed.

(** X20.  Each quick button of a row of the user table offers a role other
    than the one the user has. Refusing its confirm dialog does nothing;
    confirming sends one PUT /users/{id}/role whose role is Division Head or
    Member, never Admin. *)
Theorem quick_buttons_never_grant_admin role label newRole :
  In (label, newRole) (renderUsers_buttons role) ->
  newRole <> toLowerCase (or_str role "member") /\
  (forall userId w, setUserRoleConfirm userId newRole false w = (Returned tt, w)) /\
  (forall userId w,
     exists req roleLabel,
       sent (snd (setUserRoleConfirm userId newRole true w)) = (sent w ++ [req])%list /\
       url req = base_of w ++ "/users/" ++ pretty userId ++ "/role" /\
       method req = "PUT" /\
       body req = Some (BodyText (JSON_stringify (JObj [("role", JStr roleLabel)]))) /\
       (roleLabel = "Division Head" \/ roleLabel = "Member")).
Proof.
  intros Hin. split; [|split].
  - unfold renderUsers_buttons in Hin. cbv zeta in Hin.
    destruct (String.eqb_spec (toLowerCase (or_str role "member")) "division head") as [E1|E1];
      destruct (String.eqb_spec (toLowerCase (or_str role "member")) "member") as [E2|E2];
      cbn in Hin; repeat (destruct Hin as [[= <- <-]|Hin]; [congruence|]); destruct Hin.
  - reflexivity.
  - intros userId w. unfold setUserRoleConfirm. cbn [negb]. cbv iota.
    eexists. exists (if String.eqb newRole "division head" then "Division Head" else "Member").
    split; [apply updateUserRole_sends|].
    rewrite built_url, built_method, built_body.
    assert (newRole = "division head" \/ newRole = "member") as [-> | ->].
    { unfold renderUsers_buttons in Hin. cbv zeta in Hin.
      destruct (negb _), (negb _); cbn in Hin;
        repeat (destruct Hin as [[= <- <-]|Hin]; [auto|]); destruct Hin. }
    + repeat split. by left.
    + repeat split. by right.
Qed.

Lemma quick_buttons_witness :
  "member" <> toLowerCase (or_str (Some "Admin") "member") /\
  (forall userId w, setUserRoleConfirm userId "member" false w = (Returned tt, w)) /\
  (forall userId w,
     exists req roleLabel,
       sent (snd (setUserRoleConfirm userId "member" true w)) = (sent w ++ [req])%list /\
       url req = base_of w ++ "/users/" ++ pretty userId ++ "/role" /\
       method req = "PUT" /\
       body req = Some (BodyText (JSON_stringify (JObj [("role", JStr roleLabel)]))) /\
       (roleLabel = "Division Head" \/ roleLabel = "Member")).
Proof.
  refine (quick_buttons_never_grant_admin (Some "Admin") "Set Member" "member" _).
  vm_compute. tauto.
Defined.

(** ** dashboard.js: signing out *)

Lemma HEX_unreserved n : (n < 16)%nat -> uri_unreserved (HEX n) = true.
Proof.
  intros H. do 16 (destruct n as [|n]; [reflexivity|]). lia.
Qed.

Lemma encodeURIComponent_safe s : query_safe (encodeURIComponent s).
Proof.
  unfold query_safe. induction s as [|c s IH]; cbn [encodeURIComponent]; [constructor|].
  destruct (uri_unreserved c) eqn:E; cbn [list_ascii_of_string].
  - constructor; [by left|exact IH].
  - pose proof (nat_ascii_bounded c) as Hb.
    constructor; [by right|]. constructor.
    { left. apply HEX_unreserved. apply Nat.Div0.div_lt_upper_bound. lia. }
    constructor; [|exact IH].
    left. apply HEX_unreserved. apply Nat.mod_upper_bound. lia.
Qed.

Lemma logout_run w :
  logout w
  = (Returned tt,
     set_href (Some "index.html")
       (set_localStorage cleared
          (if truthy_str (localStorage w !! "session_token")
           then set_sent (fun l => (l ++ [logout_request
                                            (or_str (localStorage w !! "session_token") "") w])%list) w
           else w))).
Proof.
  unfold logout, getSessionToken, getItem, bind, gets.
  destruct (truthy_str (localStorage w !! "session_token")); reflexivity.
Qed.

(** X21.  logout always removes session_token, user_id, username and role
    from localStorage and goes to index.html. With a token stored it first
    sends one POST /logout, without headers, whose session_token parameter
    is the token percent-encoded: it holds only letters, digits, the marks -
    _ . ! ~ * ' ( ) and the percent sign; without a token it sends nothing. *)
Theorem logout_always_clears_the_session w :
  exists w',
    logout w = (Returned tt, w') /\
    localStorage w' = cleared (localStorage w) /\
    href w' = Some "index.html" /\
    (forall token,
       localStorage w !! "session_token" = Some token -> token <> "" ->
       sent w' = (sent w ++ [logout_request token w])%list /\
       headers (logout_request token w) = ∅ /\
       query_safe (encodeURIComponent token)) /\
    (truthy_str (localStorage w !! "session_token") = false -> sent w' = sent w).
Proof.
  rewrite logout_run. eexists. split; [reflexivity|].
  split; [by destruct (truthy_str _)|]. split; [reflexivity|]. split.
  - intros token Ht Hne. rewrite Ht. unfold truthy_str, or_str.
    apply String.eqb_neq in Hne. rewrite Hne. cbn.
    split; [reflexivity|]. split; [reflexivity|apply encodeURIComponent_safe].
  - intros ->. reflexivity.
Qed.

Lemma logout_witness :
  sent (snd (logout logged_in_world))
  = (sent logged_in_world ++ [logout_request "s1" logged_in_world])%list /\
  headers (logout_request "s1" logged_in_world) = ∅ /\
  query_safe (encodeURIComponent "s1").
Proof.
  destruct (logout_always_clears_the_session logged_in_world) as (w' & Hrun & _ & _ & H & _).
  rewrite Hrun. apply (H "s1"); [reflexivity|discriminate].
Defined.

(** ** dashboard.js: teams and their members *)

Lemma getElementById_run id w : getElementById id w = (Returned (dom w !! id), w).
Proof. reflexivity. Qed.

(** A request and its two callbacks, by what the network holds. *)
Lemma request_catch {A} e m d u (k : json -> M A) (h : Exn -> M A) w :
  catch (x <- apiRequest e m d u ;; k x) h w
  = match outcome (network w) with
    | Returned v => catch (k v) h (snd (apiRequest e m d u w))
    | Thrown x => h x (snd (apiRequest e m d u w))
    end.
Proof.
  rewrite <- (apiRequest_result e m d u w). unfold catch, bind.
  by destruct (apiRequest e m d u w) as [[v|x] w1].
Qed.

Lemma apiRequest_page e m d u w :
  dom (snd (apiRequest e m d u w)) = dom w /\
  calls (snd (apiRequest e m d u w)) = calls w /\
  sent (snd (apiRequest e m d u w)) = (sent w ++ [built e m d u w])%list.
Proof.
  split; [apply apiRequest_keeps_dom|]. split; [apply apiRequest_keeps_calls|].
  apply apiRequest_sent.
Qed.

Lemma outcome_ok response rest result :
  ok response = true -> result_of response = Some result ->
  outcome (Resolved response :: rest) = Returned result.
Proof. intros. unfold outcome. by apply answer_of_ok. Qed.

Lemma createTeam_unfold w el :
  dom w !! "team-name" = Some el ->
  createTeam w
  = if String.eqb (trim (value el)) "" then showToast "Enter a team name" true w
    else
      catch
        (_ <- apiRequest "/teams" "POST" (Some (JObj [("name", JStr (trim (value el)))])) true ;;
         _ <- element "team-name" ;;
         update "team-name" (with_value "") ;;
         showToast "Team created" false ;;
         loadUserTeams)
        (fun err => showToast (or_str (Some (message err)) "Failed to create team") true) w.
Proof.
  intros H. unfold createTeam. rewrite (bind_run _ _ _ _ _ (element_run _ _ _ H)). cbv zeta.
  by destruct (String.eqb (trim (value el)) "").
Qed.



Lemma addMemberToTeam_sends w :
  sent (snd (addMemberToTeam w))
  = if truthy_num (select_id (dom w !! "add-member-team"))
       && truthy_num (select_id (dom w !! "add-member-user"))
    then (sent w ++ [built ("/teams/" ++ NumberToString (select_id (dom w !! "add-member-team"))
                            ++ "/add-member?user_id="
                            ++ NumberToString (select_id (dom w !! "add-member-user"))
                            ++ "&role=" ++ encodeURIComponent (member_role w))
                       "POST" None true w])%list
    else sent w.
Proof.
  unfold addMemberToTeam, member_role.
  rewrite !(bind_run _ _ _ _ _ (getElementById_run _ _)). cbv zeta.
  destruct (truthy_num (select_id (dom w !! "add-member-team"))); [|reflexivity].
  destruct (truthy_num (select_id (dom w !! "add-member-user"))); [|reflexivity].
  cbn [negb andb]. apply request_once; quiet.
Qed.

Lemma confirmRemoveMember_sends ok w teamSel userSel :
  dom w !! "remove-member-team" = Some teamSel -> value teamSel <> "" ->
  dom w !! "remove-member-user" = Some userSel -> value userSel <> "" ->
  sent (snd (confirmRemoveMember ok w))
  = if ok
    then (sent w ++ [built ("/teams/" ++ NumberToString (parseInt (value teamSel))
                            ++ "/members/" ++ NumberToString (parseInt (value userSel)))
                       "DELETE" None true w])%list
    else sent w.
Proof.
  intros Ht Hvt Hu Hvu. unfold confirmRemoveMember.
  rewrite !(bind_run _ _ _ _ _ (getElementById_run _ _)). rewrite Ht, Hu.
  apply String.eqb_neq in Hvt, Hvu. rewrite Hvt, Hvu. cbv zeta.
  destruct ok; [|reflexivity]. cbn [negb]. apply request_once; quiet.
Qed.

(** X23.  addMemberToTeam sends nothing unless both a team and a user are
    selected; with both it sends one POST /teams/{team}/add-member without a
    body, whose role parameter is the role percent-encoded: it holds only
    letters, digits, the marks - _ . ! ~ * ' ( ) and the percent sign, so a
    role text cannot add parameters of its own. confirmRemoveMember sends
    nothing without both selections or when the confirm dialog is refused,
    and otherwise one DELETE /teams/{team}/members/{user}. *)
Theorem membership_changes_need_both_selections :
  (forall w,
     truthy_num (select_id (dom w !! "add-member-team")) = false \/
     truthy_num (select_id (dom w !! "add-member-user")) = false ->
     sent (snd (addMemberToTeam w)) = sent w) /\
  (forall w t u,
     select_id (dom w !! "add-member-team") = Some t -> t <> 0%Z ->
     select_id (dom w !! "add-member-user") = Some u -> u <> 0%Z ->
     exists req role,
       sent (snd (addMemberToTeam w)) = (sent w ++ [req])%list /\
       method req = "POST" /\ body req = None /\
       url req = base_of w ++ "/teams/" ++ pretty t ++ "/add-member?user_id=" ++ pretty u
                 ++ "&role=" ++ role /\
       role = encodeURIComponent (member_role w) /\
       query_safe role) /\
  (forall ok w,
     (forall e, dom w !! "remove-member-team" = Some e -> value e = "") \/
     (forall e, dom w !! "remove-member-user" = Some e -> value e = "") \/
     ok = false ->
     sent (snd (confirmRemoveMember ok w)) = sent w) /\
  (forall w teamSel userSel t u,
     dom w !! "remove-member-team" = Some teamSel -> parseInt (value teamSel) = Some t ->
     dom w !! "remove-member-user" = Some userSel -> parseInt (value userSel) = Some u ->
     exists req,
       sent (snd (confirmRemoveMember true w)) = (sent w ++ [req])%list /\
       method req = "DELETE" /\
       url req = base_of w ++ "/teams/" ++ pretty t ++ "/members/" ++ pretty u).
Proof.
  split; [|split; [|split]].
  - intros w H. rewrite addMemberToTeam_sends.
    destruct H as [-> | ->]; [reflexivity|by rewrite andb_false_r].
  - intros w t u Ht Hnt Hu Hnu. rewrite addMemberToTeam_sends, Ht, Hu. cbn [truthy_num].
    apply Z.eqb_neq in Hnt, Hnu. rewrite Hnt, Hnu. cbn [negb andb NumberToString].
    eexists. exists (encodeURIComponent (member_role w)). split; [reflexivity|].
    rewrite built_url, built_method, built_body.
    repeat (split; [reflexivity|]). apply encodeURIComponent_safe.
  - intros ok w H. unfold confirmRemoveMember.
    rewrite !(bind_run _ _ _ _ _ (getElementById_run _ _)).
    destruct (dom w !! "remove-member-team") as [teamSel|] eqn:Ht; [|reflexivity].
    destruct (String.eqb_spec (value teamSel) "") as [Et|Et]; [reflexivity|].
    destruct (dom w !! "remove-member-user") as [userSel|] eqn:Hu; [|reflexivity].
    destruct (String.eqb_spec (value userSel) "") as [Eu|Eu]; [reflexivity|].
    destruct H as [H|[H|H]].
    + destruct Et. by apply H.
    + destruct Eu. by apply H.
    + subst ok. reflexivity.
  - intros w teamSel userSel t u Ht Hpt Hu Hpu.
    assert (value teamSel <> "") as Hvt by (intros E; rewrite E in Hpt; discriminate Hpt).
    assert (value userSel <> "") as Hvu by (intros E; rewrite E in Hpu; discriminate Hpu).
    rewrite (confirmRemoveMember_sends true w teamSel userSel Ht Hvt Hu Hvu), Hpt, Hpu.
    eexists. split; [reflexivity|]. rewrite built_url, built_method. by split.
Qed.

Lemma membership_changes_witness :
  exists req role,
    sent (snd (addMemberToTeam adding_member)) = (sent adding_member ++ [req])%list /\
    method req = "POST" /\ body req = None /\
    url req = base_of adding_member ++ "/teams/" ++ pretty 3%Z ++ "/add-member?user_id="
              ++ pretty 7%Z ++ "&role=" ++ role /\
    role = encodeURIComponent (member_role adding_member) /\
    query_safe role.
Proof.
  refine (proj1 (proj2 membership_changes_need_both_selections) adding_member 3%Z 7%Z
            _ _ _ _).
  - vm_compute. reflexivity.
  - discriminate.
  - vm_compute. reflexivity.
  - discriminate.
Defined.

(** ** dashboard.js: the task form *)

Lemma element_value id w :
  is_Some (dom w !! id) ->
  exists e, element id w = (Returned e, w) /\ value e = value_or_empty w id.
Proof.
  intros [e He]. exists e. split; [by apply element_run|].
  unfold value_or_empty. by rewrite He.
Qed.

Lemma createTask_sends rows w :
  task_form w ->
  sent (snd (createTask rows w))
  = if (String.eqb (value_or_empty w "task-team") ""
        && String.eqb (value_or_empty w "task-activity") "")
       || String.eqb (trim (value_or_empty w "task-title")) ""
    then sent w
    else (sent w ++ [built "/tasks" "POST" (Some (JObj (task_payload rows w))) true w])%list.
Proof.
  intros (H1 & H2 & H3 & H4 & H5 & H6). unfold createTask, task_payload, task_assignees.
  destruct (element_value _ _ H1) as (e1 & R1 & <-).
  destruct (element_value _ _ H2) as (e2 & R2 & <-).
  destruct (element_value _ _ H3) as (e3 & R3 & <-).
  destruct (element_value _ _ H4) as (e4 & R4 & <-).
  destruct (element_value _ _ H5) as (e5 & R5 & <-).
  destruct (element_value _ _ H6) as (e6 & R6 & <-).
  rewrite (bind_run _ _ _ _ _ R1). cbv zeta. rewrite (bind_run _ _ _ _ _ R2). cbv zeta.
  rewrite (bind_run _ _ _ _ _ R3). cbv zeta. rewrite (bind_run _ _ _ _ _ R4). cbv zeta.
  rewrite (bind_run _ _ _ _ _ R5). cbv zeta. rewrite (bind_run _ _ _ _ _ R6). cbv zeta.
  rewrite !(bind_run _ _ _ _ _ (getElementById_run _ _)). cbv zeta.
  destruct (String.eqb (value e1) "" && String.eqb (value e2) ""); [reflexivity|].
  destruct (String.eqb (trim (value e3)) ""); [reflexivity|]. cbn [orb].
  rewrite (bind_run _ _ _ _ _ (getElementById_run _ _)). cbv zeta.
  rewrite (bind_run _ _ _ _ _ (canUseMultiAssign_run _)). cbv zeta.
  unfold value_or_empty.
  rewrite request_once; [reflexivity| |quiet].
  intros t. unfold get_prop.
  apply keeps_bind; [apply element_keeps|intros]. quiet.
Qed.

Lemma assignee_of_row_spec row a :
  In a (assignee_of_row row) ->
  asg_user_id a <> 0%Z /\
  (exists v, row_sel row = Some v /\ parseInt v = Some (asg_user_id a)) /\
  (forall n, asg_percent_share a = Some n -> (0 <= n <= 100)%Z) /\
  asg_is_lead a = default false (row_leadEl row).
Proof.
  unfold assignee_of_row.
  destruct (row_sel row) as [v|]; [|intros []].
  destruct (String.eqb v "") eqn:Ev; [intros []|]. cbn [negb].
  destruct (parseInt v) as [uid|] eqn:Ep; [|intros []]. cbn [truthy_num].
  destruct (Z.eqb_spec uid 0) as [E0|E0]; [intros []|]. cbn [negb].
  intros [<-|[]]. cbn. split; [exact E0|]. split; [eauto|]. split; [|reflexivity].
  intros n.
  destruct (row_shareEl row) as [sv|]; [|discriminate].
  destruct (negb (String.eqb (trim sv) "")); [|discriminate].
  destruct (parseInt sv) as [m|]; [|discriminate].
  destruct (Z.ltb_spec m 0); [discriminate|]. destruct (Z.ltb_spec 100 m); [discriminate|].
  cbn. intros [= <-]. lia.
Qed.

(** X24.  Every assignment that getTaskAssigneesFromRows returns comes from
    a row whose member select parses to its user id, which is not zero; its
    percent share is null or a number from 0 to 100 (a share outside that
    range or unreadable is sent as null, not refused); and it is the lead
    exactly when the lead box of its row is ticked. *)
Theorem assignee_rows_give_valid_shares rows a :
  In a (getTaskAssigneesFromRows rows) ->
  asg_user_id a <> 0%Z /\
  (forall n, asg_percent_share a = Some n -> (0 <= n <= 100)%Z) /\
  exists l row v,
    rows = Some l /\ In row l /\ row_sel row = Some v /\ parseInt v = Some (asg_user_id a) /\
    asg_is_lead a = default false (row_leadEl row).
Proof.
  unfold getTaskAssigneesFromRows. destruct rows as [l|]; [|intros []].
  rewrite in_flat_map. intros (row & Hrow & Ha).
  destruct (assignee_of_row_spec row a Ha) as (H1 & (v & Hv & Hp) & H3 & H4).
  split; [exact H1|]. split; [exact H3|]. exists l, row, v. auto.
Qed.

Lemma assignee_rows_witness :
  asg_user_id (mkAssignment 7 None true) <> 0%Z /\
  (forall n, asg_percent_share (mkAssignment 7 None true) = Some n -> (0 <= n <= 100)%Z) /\
  exists l row v,
    Some two_rows = Some l /\ In row l /\ row_sel row = Some v /\
    parseInt v = Some (asg_user_id (mkAssignment 7 None true)) /\
    asg_is_lead (mkAssignment 7 None true) = default false (row_leadEl row).
Proof.
  refine (assignee_rows_give_valid_shares (Some two_rows) (mkAssignment 7 None true) _).
  vm_compute. tauto.
Defined.

Lemma leads_cons r l : leads (r :: l) = ((if ticked r then 1 else 0) + leads l)%nat.
Proof. unfold leads. cbn. by destruct (ticked r). Qed.

Lemma leads_map f l :
  (forall r, ticked (f r) = ticked r) -> leads (map f l) = leads l.
Proof.
  intros Hf. induction l as [|r l IH]; [reflexivity|].
  cbn [map]. rewrite !leads_cons, Hf, IH. reflexivity.
Qed.

Lemma leads_app l1 l2 : leads (l1 ++ l2) = (leads l1 + leads l2)%nat.
Proof.
  induction l1 as [|r l IH]; [reflexivity|].
  cbn [app]. rewrite !leads_cons, IH. lia.
Qed.

Lemma leads_delete i l : (leads (delete i l) <= leads l)%nat.
Proof.
  revert i. induction l as [|r l IH]; intros [|i]; try (cbn; lia).
  - change (leads l <= leads (r :: l))%nat. rewrite leads_cons. destruct (ticked r); lia.
  - change (leads (r :: delete i l) <= leads (r :: l))%nat.
    rewrite !leads_cons. specialize (IH i). destruct (ticked r); lia.
Qed.

Lemma leads_insert_same i r r' l :
  l !! i = Some r -> ticked r' = ticked r -> leads (<[i := r']> l) = leads l.
Proof.
  revert i. induction l as [|x l IH]; intros [|i]; try discriminate.
  - intros [= ->] E. change (leads (r' :: l) = leads (r :: l)).
    rewrite !leads_cons, E. reflexivity.
  - intros Hl E. change (leads (x :: <[i := r']> l) = leads (x :: l)).
    rewrite !leads_cons. f_equal. by apply IH.
Qed.

Lemma leads_insert_clear i r' l :
  ticked r' = false -> (leads (<[i := r']> l) <= leads l)%nat.
Proof.
  intros E. revert i. induction l as [|x l IH]; intros [|i]; try (cbn; lia).
  - change (leads (r' :: l) <= leads (x :: l))%nat.
    rewrite !leads_cons, E. destruct (ticked x); lia.
  - change (leads (x :: <[i := r']> l) <= leads (x :: l))%nat.
    rewrite !leads_cons. specialize (IH i). destruct (ticked x); lia.
Qed.

Lemma leads_none l :
  (forall j r, l !! j = Some r -> ticked r = false) -> leads l = 0%nat.
Proof.
  induction l as [|x l IH]; intros H; [reflexivity|].
  rewrite leads_cons, (H 0%nat x eq_refl), IH; [reflexivity|].
  intros j r Hj. exact (H (S j) r Hj).
Qed.

Lemma leads_only i l :
  (forall j r, l !! j = Some r -> j <> i -> ticked r = false) -> (leads l <= 1)%nat.
Proof.
  revert i. induction l as [|x l IH]; intros i H; [cbn; lia|].
  rewrite leads_cons. destruct i as [|i].
  - rewrite leads_none; [destruct (ticked x); lia|].
    intros j r Hj. apply (H (S j) r Hj). lia.
  - rewrite (H 0%nat x eq_refl); [|lia]. cbn. apply (IH i).
    intros j r Hj Hne. apply (H (S j) r Hj). lia.
Qed.

Lemma clickLead_leads i rows : (leads rows <= 1 -> leads (clickLead i rows) <= 1)%nat.
Proof.
  intros H. unfold clickLead.
  destruct (rows !! i) as [row|] eqn:Hi; [|exact H].
  destruct (row_leadEl row) as [b|] eqn:Hb; [|exact H].
  destruct b; cbn [negb].
  - pose proof (leads_insert_clear i (with_lead false row) rows eq_refl). lia.
  - apply (leads_only i). intros j r Hj Hne.
    rewrite list_lookup_imap in Hj.
    destruct (<[i:=with_lead true row]> rows !! j) as [r0|]; [|discriminate].
    cbn in Hj. rewrite bool_decide_eq_false_2 in Hj by exact Hne.
    injection Hj as <-. unfold ticked.
    destruct (row_leadEl r0) as [[]|] eqn:E; cbn; try reflexivity; by rewrite ?E.
Qed.

Lemma row_step_leads st e :
  (leads (snd st) <= 1 -> leads (snd (row_step st e)) <= 1)%nat.
Proof.
  destruct st as [members rows]. cbn [snd]. intros H.
  destruct e; cbn [row_step snd].
  - unfold addTaskAssigneeRow, refreshTaskAssigneeRowsOptions.
    rewrite leads_map by reflexivity. rewrite leads_app. cbn. lia.
  - unfold removeTaskAssigneeRow. pose proof (leads_delete i rows). lia.
  - by apply clickLead_leads.
  - unfold refreshTaskAssigneeRowsOptions. by rewrite leads_map.
  - destruct (rows !! i) as [row|] eqn:Hi; [|exact H].
    destruct (String.eqb v "" || existsb (String.eqb v) members); [|exact H].
    by rewrite (leads_insert_same i row).
  - destruct (rows !! i) as [row|] eqn:Hi; [|exact H].
    by rewrite (leads_insert_same i row).
  - cbn. lia.
Qed.

Lemma assignees_leads rows :
  (length (List.filter asg_is_lead (getTaskAssigneesFromRows (Some rows))) <= leads rows)%nat.
Proof.
  unfold getTaskAssigneesFromRows.
  induction rows as [|row rows IH]; [cbn; lia|].
  cbn [flat_map]. rewrite List.filter_app, length_app, leads_cons.
  enough (length (List.filter asg_is_lead (assignee_of_row row))
          <= (if ticked row then 1 else 0))%nat by lia.
  unfold assignee_of_row, ticked.
  destruct (row_sel row) as [v|]; [|cbn; lia].
  destruct (negb (String.eqb v "")); [|cbn; lia].
  destruct (parseInt v) as [uid|]; [|cbn; lia].
  destruct (truthy_num (Some uid)); [|cbn; lia].
  cbn. destruct (row_leadEl row) as [[]|]; cbn; lia.
Qed.

(** X25.  Starting from the empty assignee list, after any sequence of
    adding rows, removing rows, clicking lead boxes, reloading the members,
    choosing members and typing shares, at most one row has its lead box
    ticked; so the assignments read from the rows name at most one lead. *)
Theorem assignee_list_never_has_two_leads (events : list RowEvent) :
  let rows := snd (fold_left row_step events ([], [])) in
  (leads rows <= 1)%nat /\
  (length (List.filter asg_is_lead (getTaskAssigneesFromRows (Some rows))) <= 1)%nat.
Proof.
  cbv zeta.
  assert (leads (snd (fold_left row_step events ([], []))) <= 1)%nat as H.
  { assert (forall st, leads (snd st) <= 1 ->
                       leads (snd (fold_left row_step events st)) <= 1)%nat as G.
    { induction events as [|e es IH]; intros st Hst; [exact Hst|].
      cbn [fold_left]. apply IH. by apply row_step_leads. }
    apply G. cbn. lia. }
  split; [exact H|]. pose proof (assignees_leads (snd (fold_left row_step events ([], [])))). lia.
Qed.

Lemma payload_fixed_keys teamId activityId title desc priority dueDate assignee leadId share
    closureId taskType rows :
  let p := createTask_payload teamId activityId title desc priority dueDate assignee leadId
             share closureId taskType rows in
  assoc "title" p = Some (JStr title) /\ assoc "status" p = Some (JStr "To Do") /\
  (rows <> [] ->
   assoc "assignments" p = Some (JArr (map assignment_json rows)) /\
   assoc "assigned_to" p = None /\ assoc "lead_person_id" p = None /\
   assoc "percent_share" p = None) /\
  (rows = [] ->
   assoc "assignments" p = None /\
   assoc "assigned_to" p = Some (int_or_null assignee) /\
   assoc "lead_person_id" p = Some (int_or_null leadId) /\
   assoc "percent_share" p = Some (int_or_null share)).
Proof.
  cbv zeta. unfold createTask_payload.
  destruct rows as [|a rows]; destruct (negb (String.eqb dueDate ""));
    cbn; repeat split; congruence.
Qed.



(** ** dashboard.js: due dates in the task table *)

Lemma split_no_hyphen a : no_hyphen a = true -> split "-" a = [a].
Proof.
  induction a as [|c a IH]; [reflexivity|].
  intros H. unfold no_hyphen in H. cbn in H. apply andb_true_iff in H as [Hc Ha].
  apply negb_true_iff in Hc. simpl. rewrite Hc, (IH Ha). reflexivity.
Qed.

Lemma split_hyphen a b :
  no_hyphen a = true -> split "-" (a ++ String "-" b) = a :: split "-" b.
Proof.
  induction a as [|c a IH]; [reflexivity|].
  intros H. unfold no_hyphen in H. cbn in H. apply andb_true_iff in H as [Hc Ha].
  apply negb_true_iff in Hc. simpl. rewrite Hc, (IH Ha). reflexivity.
Qed.

Lemma pretty_N_go_no_hyphen x s :
  no_hyphen s = true -> no_hyphen (pretty_N_go x s) = true.
Proof.
  revert s. induction (N.lt_wf_0 x) as [x _ IH]. intros s Hs.
  destruct (decide (x = 0)%N) as [->|Hx]; [by rewrite pretty_N_go_0|].
  rewrite pretty_N_go_step by lia.
  apply IH; [apply N.div_lt; lia|].
  destruct (pretty_N_char_digit (x `mod` 10)%N) as [Hd _]; [by apply N.mod_lt|].
  destruct (digit_not_sign _ Hd) as [Hne _].
  unfold no_hyphen. cbn. apply andb_true_iff. split; [|exact Hs].
  apply negb_true_iff. by apply Ascii.eqb_neq.
Qed.

Lemma pretty_no_hyphen (n : Z) : (0 <= n)%Z -> no_hyphen (pretty n) = true.
Proof.
  destruct n as [|p|p]; [reflexivity| |lia]. intros _.
  change (pretty (Zpos p)) with (pretty_N_go (Npos p) ""). by apply pretty_N_go_no_hyphen.
Qed.

Lemma two_digits_spec n :
  (0 <= n)%Z -> no_hyphen (two_digits n) = true /\ parseInt (two_digits n) = Some n.
Proof.
  intros Hn. unfold two_digits. destruct (Z.ltb_spec n 10).
  - assert (Z.to_nat n < 10)%nat as Hk by lia.
    rewrite <- (Z2Nat.id n Hn). revert Hk. generalize (Z.to_nat n) as k. intros k Hk.
    do 10 (destruct k as [|k]; [by vm_compute|]). lia.
  - split; [by apply pretty_no_hyphen|apply parseInt_pretty].
Qed.

Lemma parsed_today today :
  (0 <= getFullYear today)%Z -> (0 <= getMonth today + 1)%Z -> (0 <= getDate today)%Z ->
  parsed (getTodayDateStr today)
  = Some (getFullYear today, (getMonth today + 1)%Z, getDate today).
Proof.
  intros Hy Hm Hd. unfold parsed, getTodayDateStr. cbv zeta.
  destruct (two_digits_spec _ Hm) as [M1 M2]. destruct (two_digits_spec _ Hd) as [D1 D2].
  change (pretty (getFullYear today) ++ "-" ++ two_digits (getMonth today + 1) ++ "-"
          ++ two_digits (getDate today))
    with (pretty (getFullYear today)
          ++ String "-" (two_digits (getMonth today + 1)
                         ++ String "-" (two_digits (getDate today)))).
  rewrite (split_hyphen _ _ (pretty_no_hyphen _ Hy)), (split_hyphen _ _ M1),
    (split_no_hyphen _ D1).
  by rewrite parseInt_pretty, M2, D2.
Qed.

Lemma DayFromYear_bounds y :
  (0 <= y <= 9999 -> -800000 <= DayFromYear y <= 3000000)%Z.
Proof.
  intros H. unfold DayFromYear.
  pose proof (Z.div_mod (y - 1969) 4 ltac:(lia)). pose proof (Z.mod_pos_bound (y - 1969) 4 ltac:(lia)).
  pose proof (Z.div_mod (y - 1901) 100 ltac:(lia)). pose proof (Z.mod_pos_bound (y - 1901) 100 ltac:(lia)).
  pose proof (Z.div_mod (y - 1601) 400 ltac:(lia)). pose proof (Z.mod_pos_bound (y - 1601) 400 ltac:(lia)).
  lia.
Qed.

Lemma month_start_bounds l m : (0 <= month_start l m <= 335)%Z.
Proof.
  unfold month_start.
  repeat match goal with |- context [(?a =? ?b)%Z] => destruct (Z.eqb_spec a b) end;
    destruct l; lia.
Qed.

Lemma today_utc_some today : calendar_date today -> is_Some (today_utc today).
Proof.
  intros (Hy & Hm & Hd). unfold today_utc, Date_UTC. cbv zeta.
  set (yr := if (0 <=? getFullYear today)%Z && (getFullYear today <=? 99)%Z
             then (1900 + getFullYear today)%Z else getFullYear today).
  assert (0 <= yr <= 9999)%Z as Hyr.
  { subst yr. destruct ((0 <=? getFullYear today)%Z && (getFullYear today <=? 99)%Z) eqn:E; [|lia].
    apply andb_true_iff in E as [E1 E2]. lia. }
  unfold MakeDay. cbv zeta.
  rewrite (Z.div_small (getMonth today) 12) by lia. rewrite Z.add_0_r.
  pose proof (DayFromYear_bounds yr Hyr).
  pose proof (month_start_bounds (InLeapYear yr) (getMonth today `mod` 12)).
  match goal with |- context [(?a <=? ?b)%Z && (?c <=? ?d)%Z] =>
    destruct (Z.leb_spec a b); [|lia]; destruct (Z.leb_spec c d); [|lia] end.
  cbn. eauto.
Qed.

Lemma getTodayDateStr_nonempty today : getTodayDateStr today <> "".
Proof.
  unfold getTodayDateStr. cbv zeta.
  destruct (pretty (getFullYear today)); discriminate.
Qed.

Lemma weekdays_pos u t :
  (0 < weekdays u t)%Z <-> exists k, (u <= k < t)%Z /\ is_weekday k = true.
Proof.
  unfold weekdays. split.
  - intros H. destruct (List.filter is_weekday (seqZ u (t - u))) as [|k l] eqn:E; [cbn in H; lia|].
    assert (In k (List.filter is_weekday (seqZ u (t - u)))) as Hin by (rewrite E; by left).
    apply List.filter_In in Hin as [Hin Hk]. apply list_elem_of_In, elem_of_seqZ in Hin.
    exists k. split; [lia|exact Hk].
  - intros (k & Hk & Hw).
    assert (In k (List.filter is_weekday (seqZ u (t - u)))) as Hin.
    { apply List.filter_In. split; [|exact Hw]. apply list_elem_of_In, elem_of_seqZ. lia. }
    destruct (List.filter is_weekday (seqZ u (t - u))); [destruct Hin|cbn; lia].
Qed.

Lemma days_left_negative t u :
  (days_left t u < 0)%Z <-> exists k, (u <= k < t)%Z /\ is_weekday k = true.
Proof.
  rewrite <- weekdays_pos. unfold days_left.
  pose proof (weekdays_nonneg t u). pose proof (weekdays_nonneg u t).
  destruct (Z.eqb_spec t u) as [E|E].
  - subst. rewrite weekdays_nil. lia.
  - destruct (Z.ltb_spec t u); [|lia].
    assert (weekdays u t = 0)%Z as ->; [|lia].
    unfold weekdays. rewrite seqZ_nil by lia. reflexivity.
Qed.

(** X27.  For every calendar date of the years 0 to 9999, the date string
    getTodayDateStr writes is read back by computeWorkingDaysLeft as today:
    a task whose due date equals that string has 0 working days left, and
    its name is marked as a warning, not as overdue, unless the task is
    completed. *)
Theorem task_due_today_has_zero_days_left today :
  calendar_date today ->
  computeWorkingDaysLeft today (Some (getTodayDateStr today)) = Some 0%Z /\
  forall status, isCompletedStatus status = false ->
    taskNameClass status (computeWorkingDaysLeft today (Some (getTodayDateStr today)))
    = "task-name-link task-name--warning".
Proof.
  intros Hcal. destruct (today_utc_some today Hcal) as [t Ht].
  destruct Hcal as (Hy & Hm & Hd).
  assert (computeWorkingDaysLeft today (Some (getTodayDateStr today)) = Some 0%Z) as E.
  { rewrite (computeWorkingDaysLeft_days_left today _ _ _ _ t t
               (getTodayDateStr_nonempty today)
               (parsed_today today ltac:(lia) ltac:(lia) ltac:(lia)) Ht).
    - unfold days_left. by rewrite Z.eqb_refl.
    - replace (getMonth today + 1 - 1)%Z with (getMonth today) by lia. exact Ht. }
  split; [exact E|]. intros status Hs. rewrite E. unfold taskNameClass. by rewrite Hs.
Qed.

Lemma task_due_today_witness :
  computeWorkingDaysLeft a_tuesday (Some (getTodayDateStr a_tuesday)) = Some 0%Z /\
  forall status, isCompletedStatus status = false ->
    taskNameClass status
      (computeWorkingDaysLeft a_tuesday (Some (getTodayDateStr a_tuesday)))
    = "task-name-link task-name--warning".
Proof.
  apply (task_due_today_has_zero_days_left a_tuesday). unfold calendar_date. cbn. lia.
Defined.

(** X28.  For a due date computeWorkingDaysLeft can read, a row of the task
    table is marked overdue exactly when the task is not completed and at
    least one weekday lies from the due date (included) up to today
    (excluded); for instance, a task due on a Saturday is not overdue on the
    following Sunday or Monday. A completed task always shows the tick and
    is never marked overdue. *)
Theorem overdue_means_a_working_day_has_passed today s y m d t u status :
  s <> "" -> parsed s = Some (y, m, d) ->
  today_utc today = Some t -> Date_UTC y (m - 1) d = Some u ->
  (taskNameClass status (computeWorkingDaysLeft today (Some s))
   = "task-name-link task-name--overdue"
   <-> isCompletedStatus status = false /\
       exists k, (u <= k < t)%Z /\ is_weekday k = true) /\
  (daysLeftContent status (computeWorkingDaysLeft today (Some s)) = DaysCompleted
   <-> isCompletedStatus status = true) /\
  (forall class text,
     daysLeftContent status (computeWorkingDaysLeft today (Some s)) = DaysSpan class text ->
     (class = "days-left days-left--overdue"
      <-> exists k, (u <= k < t)%Z /\ is_weekday k = true)).
Proof.
  intros Hs Hp Ht Hu.
  rewrite (computeWorkingDaysLeft_days_left today s y m d t u Hs Hp Ht Hu).
  pose proof (days_left_negative t u) as Hneg.
  unfold taskNameClass, daysLeftContent.
  destruct (isCompletedStatus status).
  - split; [|split].
    + split; [discriminate|]. intros [? _]. discriminate.
    + tauto.
    + intros class text. discriminate.
  - split; [|split].
    + destruct (Z.ltb_spec (days_left t u) 0).
      * split; [intros _; split; [reflexivity|by apply Hneg]|reflexivity].
      * split.
        -- destruct (days_left t u <=? 3)%Z; discriminate.
        -- intros [_ Hk]. apply Hneg in Hk. lia.
    + split; discriminate.
    + intros class text [= <- _]. destruct (Z.ltb_spec (days_left t u) 0).
      * split; [intros _; by apply Hneg|reflexivity].
      * split.
        -- destruct (days_left t u <=? 3)%Z; discriminate.
        -- intros Hk. apply Hneg in Hk. lia.
Qed.

Lemma overdue_witness :
  (taskNameClass (Some "In Progress") (computeWorkingDaysLeft a_monday (Some "2026-10-31"))
   = "task-name-link task-name--overdue"
   <-> isCompletedStatus (Some "In Progress") = false /\
       exists k, (20757 <= k < 20759)%Z /\ is_weekday k = true) /\
  (daysLeftContent (Some "In Progress") (computeWorkingDaysLeft a_monday (Some "2026-10-31"))
   = DaysCompleted
   <-> isCompletedStatus (Some "In Progress") = true) /\
  (forall class text,
     daysLeftContent (Some "In Progress")
       (computeWorkingDaysLeft a_monday (Some "2026-10-31")) = DaysSpan class text ->
     (class = "days-left days-left--overdue"
      <-> exists k, (20757 <= k < 20759)%Z /\ is_weekday k = true)).
Proof.
  refine (overdue_means_a_working_day_has_passed a_monday "2026-10-31" 2026 10 31
            20759 20757 (Some "In Progress") _ _ _ _);
    first [discriminate | vm_compute; reflexivity].
Defined.

(** ** dashboard.js: escapeHtml *)

Lemma text_to_html_cons c r :
  text_to_html (String c r)
  = if Ascii.eqb c "&" then "&amp;" ++ text_to_html r
    else if Ascii.eqb c "<" then "&lt;" ++ text_to_html r
    else if Ascii.eqb c ">" then "&gt;" ++ text_to_html r
    else if (nat_of_ascii c =? 194)%nat then
      match r with
      | String c2 r2 =>
          if (nat_of_ascii c2 =? 160)%nat then "&nbsp;" ++ text_to_html r2
          else String c (text_to_html r)
      | EmptyString => String c EmptyString
      end
    else String c (text_to_html r).
Proof. reflexivity. Qed.

Lemma occurrences_app q a b :
  occurrences q (a ++ b) = (occurrences q a + occurrences q b)%nat.
Proof.
  induction a as [|c a IH]; [reflexivity|].
  change (String c a ++ b) with (String c (a ++ b)). cbn [occurrences]. rewrite IH. lia.
Qed.

Lemma nat_of_ascii_eq c n : (n < 256)%nat -> nat_of_ascii c = n -> c = ascii_of_nat n.
Proof. intros _ <-. by rewrite ascii_nat_embedding. Qed.

Lemma text_to_html_quotes q n s :
  is_quote q -> (String.length s <= n)%nat ->
  occurrences q (text_to_html s) = occurrences q s.
Proof.
  intros Hq. revert s. induction n as [|n IH]; intros s Hn.
  - destruct s; [reflexivity|cbn in Hn; lia].
  - destruct s as [|c r]; [reflexivity|]. cbn [String.length] in Hn.
    rewrite text_to_html_cons.
    destruct (Ascii.eqb_spec c "&") as [->|_].
    { rewrite occurrences_app, IH by lia. destruct Hq as [-> | ->]; reflexivity. }
    destruct (Ascii.eqb_spec c "<") as [->|_].
    { rewrite occurrences_app, IH by lia. destruct Hq as [-> | ->]; reflexivity. }
    destruct (Ascii.eqb_spec c ">") as [->|_].
    { rewrite occurrences_app, IH by lia. destruct Hq as [-> | ->]; reflexivity. }
    destruct (Nat.eqb_spec (nat_of_ascii c) 194) as [E|_].
    + destruct r as [|c2 r2]; [reflexivity|].
      destruct (Nat.eqb_spec (nat_of_ascii c2) 160) as [E2|_].
      * apply nat_of_ascii_eq in E; [|lia]. apply nat_of_ascii_eq in E2; [|lia]. subst c c2.
        cbn [String.length] in Hn. rewrite occurrences_app, IH by lia.
        destruct Hq as [-> | ->]; reflexivity.
      * cbn [occurrences]. rewrite (IH (String c2 r2)) by lia. reflexivity.
    + cbn [occurrences]. rewrite IH by lia. reflexivity.
Qed.

Lemma text_to_html_no_angle q n s :
  q = "<"%char \/ q = ">"%char -> (String.length s <= n)%nat ->
  occurrences q (text_to_html s) = 0%nat.
Proof.
  intros Hq. revert s. induction n as [|n IH]; intros s Hn.
  - destruct s; [reflexivity|cbn in Hn; lia].
  - destruct s as [|c r]; [reflexivity|]. cbn [String.length] in Hn.
    rewrite text_to_html_cons.
    destruct (Ascii.eqb_spec c "&") as [->|_].
    { rewrite occurrences_app, IH by lia. destruct Hq as [-> | ->]; reflexivity. }
    destruct (Ascii.eqb_spec c "<") as [->|N1].
    { rewrite occurrences_app, IH by lia. destruct Hq as [-> | ->]; reflexivity. }
    destruct (Ascii.eqb_spec c ">") as [->|N2].
    { rewrite occurrences_app, IH by lia. destruct Hq as [-> | ->]; reflexivity. }
    assert (Ascii.eqb q c = false) as Hqc.
    { apply Ascii.eqb_neq. destruct Hq as [-> | ->]; congruence. }
    destruct (Nat.eqb_spec (nat_of_ascii c) 194) as [E|_].
    + destruct r as [|c2 r2]; [cbn [occurrences]; by rewrite Hqc|].
      destruct (Nat.eqb_spec (nat_of_ascii c2) 160) as [E2|_].
      * cbn [String.length] in Hn. rewrite occurrences_app, IH by lia.
        destruct Hq as [-> | ->]; reflexivity.
      * cbn [occurrences]. rewrite (IH (String c2 r2)) by lia. by rewrite Hqc.
    + cbn [occurrences]. rewrite IH by lia. by rewrite Hqc.
Qed.

(** X29.  The text escapeHtml returns never holds the characters < or >.
    Double and single quotes are not escaped: the result holds exactly as
    many of each as the input, although the script also puts such text
    inside quoted attribute values. *)
Theorem escapeHtml_closes_tags_but_keeps_quotes (s : option string) :
  occurrences "<" (escapeHtml s) = 0%nat /\ occurrences ">" (escapeHtml s) = 0%nat /\
  occurrences (ascii_of_nat 34) (escapeHtml s) = occurrences (ascii_of_nat 34) (default "" s) /\
  occurrences "'" (escapeHtml s) = occurrences "'" (default "" s).
Proof.
  unfold escapeHtml. destruct s as [s|]; [|by cbn].
  destruct (negb (truthy_str (Some s))) eqn:E.
  - assert (s = "") as ->.
    { destruct s; [reflexivity|]. cbn in E. discriminate. }
    by cbn.
  - change (default "" (Some s)) with s.
    split; [apply (text_to_html_no_angle _ (String.length s)); [by left|lia]|].
    split; [apply (text_to_html_no_angle _ (String.length s)); [by right|lia]|].
    split; apply (text_to_html_quotes _ (String.length s)); try lia; [by left|by right].
Qed.

(** ** dashboard.js: the chat *)

Lemma sendChatMessage_unfold act w e :
  truthy_num act = true -> dom w !! "chat-input" = Some e ->
  sendChatMessage act w
  = if String.eqb (trim (value e)) "" then (Returned tt, w)
    else
      (update "chat-input" (with_disabled true) ;;
       catch
         (_ <- apiRequest ("/activities/" ++ NumberToString act ++ "/messages") "POST"
                 (Some (JObj [("content", JStr (trim (value e)))])) true ;;
          update "chat-input" (with_value "") ;;
          update "chat-input" (with_disabled false) ;;
          loadActivityChat)
         (fun err =>
            update "chat-input" (with_disabled false) ;;
            showToast (or_str (Some (message err)) "Failed to send message") true)) w.
Proof.
  intros Ha He. unfold sendChatMessage. rewrite Ha. cbn [negb].
  rewrite (bind_run _ _ _ _ _ (getElementById_run _ _)), He.
  by destruct (String.eqb (trim (value e)) "").
Qed.


